(** * The a0-marketplace plugin: acquisition, removal, toggling and the
      registry view, embedded from the Python sources.

    - [Py]       the few Python string and path primitives the sources call
    - [FS]       the file system the sources act on, and the world around it
    - [GitOps]   helpers/git_ops.py
    - [Toggle]   api/marketplace_toggle.py
    - [Registry] api/marketplace_registry.py
    - [Spec]     the vocabulary of the statements
    - [Demo]     a concrete installation, for the statements to be run at

    The environment (the git binary, the network, the clock, the
    framework's [files] and [plugins] helpers) enters as section
    variables; the theorems follow the definitions. *)

From Stdlib Require Import ZArith Lia String Ascii List Bool.
From stdpp Require Import base option list strings gmap.

Local Open Scope string_scope.
Local Open Scope Z_scope.

(* ===================================================================== *)
(** ** Python primitives *)
(* ===================================================================== *)

Module Py.

(** [s.startswith(p)] *)
Fixpoint startswith (p s : string) : bool :=
  match p, s with
  | EmptyString, _ => true
  | String a p', String b s' => if Ascii.eqb a b then startswith p' s' else false
  | String _ _, EmptyString => false
  end.

(** [s.find(sub)]: the lowest index at which [sub] occurs, [-1] when it
    does not occur. *)
Fixpoint find (sub s : string) : Z :=
  if startswith sub s then 0
  else match s with
       | EmptyString => -1
       | String _ s' => let i := find sub s' in if i =? -1 then -1 else i + 1
       end.

(** [s[:n]] for a count of characters. *)
Fixpoint take (n : nat) (s : string) : string :=
  match n, s with
  | O, _ => EmptyString
  | S n', String a s' => String a (take n' s')
  | S _, EmptyString => EmptyString
  end.

(** [s[:i]] for an index that is not negative (the only use the sources
    make of a slice). *)
Definition slice_to (s : string) (i : Z) : string := take (Z.to_nat i) s.

(** [sub in s] *)
Definition contains (sub s : string) : bool := negb (find sub s =? -1).

(** [s.endswith(c)] for a one-character suffix. *)
Fixpoint endswith_char (c : ascii) (s : string) : bool :=
  match s with
  | EmptyString => false
  | String a EmptyString => Ascii.eqb a c
  | String _ s' => endswith_char c s'
  end.

(** [s.rstrip(c)] for a one-character set. *)
Fixpoint rstrip_char (c : ascii) (s : string) : string :=
  match s with
  | EmptyString => EmptyString
  | String a s' =>
      match rstrip_char c s' with
      | EmptyString => if Ascii.eqb a c then EmptyString else String a EmptyString
      | r => String a r
      end
  end.

(** [str.isspace] on the code points below 256. *)
Definition isspace (a : ascii) : bool :=
  let n := N.to_nat (N_of_ascii a) in
  ((9 <=? n)%nat && (n <=? 13)%nat) || ((28 <=? n)%nat && (n <=? 32)%nat)
  || (n =? 133)%nat || (n =? 160)%nat.

Fixpoint lstrip (s : string) : string :=
  match s with
  | String a s' => if isspace a then lstrip s' else s
  | EmptyString => EmptyString
  end.

Fixpoint rstrip (s : string) : string :=
  match s with
  | EmptyString => EmptyString
  | String a s' =>
      match rstrip s' with
      | EmptyString => if isspace a then EmptyString else String a EmptyString
      | r => String a r
      end
  end.

(** [s.strip()] *)
Definition strip (s : string) : string := rstrip (lstrip s).

(** [s.replace(a, b)] for one-character [a], [b]. *)
Fixpoint replace_char (a b : ascii) (s : string) : string :=
  match s with
  | EmptyString => EmptyString
  | String c s' => String (if Ascii.eqb c a then b else c) (replace_char a b s')
  end.

(** Truthiness of a [str]. *)
Definition truthy (s : string) : bool :=
  match s with EmptyString => false | _ => true end.

(** [os.sep] and [posixpath.join(a, b)]. *)
Definition sep : ascii := "/"%char.

Definition join2 (a b : string) : string :=
  if startswith "/" b then b
  else if negb (truthy a) || endswith_char sep a then a ++ b
  else a ++ "/" ++ b.

(** [posixpath.dirname(p)]: [p] up to its last separator, trailing
    separators dropped unless nothing else is left. *)
Fixpoint upto_last_sep (s : string) : string :=
  match s with
  | EmptyString => EmptyString
  | String c s' =>
      match upto_last_sep s' with
      | EmptyString => if Ascii.eqb c sep then String c EmptyString else EmptyString
      | r => String c r
      end
  end.

Definition dirname (p : string) : string :=
  let head := upto_last_sep p in
  match rstrip_char sep head with
  | EmptyString => head
  | r => r
  end.

(** [os.path.join(a, *p)] *)
Definition join (a : string) (p : list string) : string := fold_left join2 p a.

End Py.

(* ===================================================================== *)
(** ** The process's world: file system, subprocess log, cache, requests *)
(* ===================================================================== *)

(** Exceptions the sources can see.  [EnvError] stands for whatever the
    environment raises (a timeout of [subprocess.run], a connection error,
    a body that is not JSON); the other constructors are raised by the
    modelled primitives themselves. *)
Inductive exn :=
| CalledProcessError (cmd : list string) (returncode : Z)
| OSError (what : string)
| HTTPStatusError (status_code : Z)
| KeyError (key : string)
| AttributeError (what : string)
| EnvError (what : string).

Inductive Result (A : Type) :=
| Val (a : A)
| Exc (e : exn).
Arguments Val {A} a.
Arguments Exc {A} e.

Module FS.

Local Open Scope list_scope.

Inductive kind := File (content : string) | Dir.

#[global] Instance kind_eq_dec : EqDecision kind.
Proof. solve_decision. Defined.

(** [s.split("/")] *)
Fixpoint split (s : string) : list string :=
  match s with
  | EmptyString => [EmptyString]
  | String c s' =>
      if Ascii.eqb c Py.sep then EmptyString :: split s'
      else match split s' with
           | [] => [String c EmptyString]
           | h :: t => String c h :: t
           end
  end.

(** Lexical path resolution (no symbolic links): empty and ["."]
    components are skipped, [".."] steps up and stays at the root.  A
    relative path is resolved from the root. *)
Definition norm_step (stack : list string) (comp : string) : list string :=
  if String.eqb comp "" || String.eqb comp "." then stack
  else if String.eqb comp ".." then removelast stack
  else stack ++ [comp].

Definition resolve (p : string) : list string :=
  fold_left norm_step (split p) [].

(** A file system: the kind of every existing node other than the root,
    keyed by its resolved path. *)
Abbreviation t := (gmap (list string) kind).

Definition node (fs : t) (k : list string) : option kind :=
  match k with
  | [] => Some Dir
  | _ => fs !! k
  end.

(** [os.path.exists(p)] *)
Definition exists_ (fs : t) (p : string) : bool :=
  Py.truthy p && bool_decide (is_Some (node fs (resolve p))).

(** [os.path.isdir(p)] *)
Definition isdir (fs : t) (p : string) : bool :=
  Py.truthy p && bool_decide (node fs (resolve p) = Some Dir).

Definition under (k k' : list string) : Prop := k `prefix_of` k'.

(** Removal of the whole subtree rooted at key [k]. *)
Definition prune (k : list string) (fs : t) : t :=
  filter (λ kv, ¬ under k kv.1) fs.

(** [shutil.rmtree(p, ignore_errors=True)]: a directory goes with all
    below it; on anything else the error is swallowed and nothing
    changes. *)
Definition rmtree_ignore (fs : t) (p : string) : t :=
  match node fs (resolve p) with
  | Some Dir => prune (resolve p) fs
  | _ => fs
  end.

(** [shutil.rmtree(p)]: as above, but errors are raised. *)
Definition rmtree (fs : t) (p : string) : Result unit * t :=
  match node fs (resolve p) with
  | Some Dir => (Val tt, prune (resolve p) fs)
  | Some (File _) => (Exc (OSError "NotADirectoryError"), fs)
  | None => (Exc (OSError "FileNotFoundError"), fs)
  end.

(** [os.makedirs(p, exist_ok=True)]: every missing directory on the way is
    created; a regular file on the way is an error. *)
Fixpoint mkdirs_from (done todo : list string) (fs : t) : option t :=
  match todo with
  | [] => Some fs
  | c :: rest =>
      let k := done ++ [c] in
      match fs !! k with
      | Some (File _) => None
      | Some Dir => mkdirs_from k rest fs
      | None => mkdirs_from k rest (<[k := Dir]> fs)
      end
  end.

Definition makedirs (fs : t) (p : string) : Result unit * t :=
  match mkdirs_from [] (resolve p) fs with
  | Some fs' => (Val tt, fs')
  | None => (Exc (OSError "FileExistsError"), fs)
  end.

(** [with open(p, "w") as f: f.write(text)]: the parent must be a
    directory and [p] must not be one. *)
Definition write_file (fs : t) (p text : string) : Result unit * t :=
  let k := resolve p in
  match k, node fs (removelast k), node fs k with
  | [], _, _ => (Exc (OSError "IsADirectoryError"), fs)
  | _, Some Dir, Some Dir => (Exc (OSError "IsADirectoryError"), fs)
  | _, Some Dir, _ => (Val tt, <[k := File text]> fs)
  | _, Some (File _), _ => (Exc (OSError "NotADirectoryError"), fs)
  | _, None, _ => (Exc (OSError "FileNotFoundError"), fs)
  end.

(** [os.remove(p)] *)
Definition remove (fs : t) (p : string) : Result unit * t :=
  let k := resolve p in
  match k, fs !! k with
  | [], _ => (Exc (OSError "IsADirectoryError"), fs)
  | _, Some (File _) => (Val tt, delete k fs)
  | _, Some Dir => (Exc (OSError "IsADirectoryError"), fs)
  | _, None => (Exc (OSError "FileNotFoundError"), fs)
  end.

(** The subtree at [src] re-rooted at [dst]. *)
Definition rekey (src dst : list string) (fs : t) : t :=
  list_to_map
    ((λ kv : list string * kind, (dst ++ drop (length src) kv.1, kv.2))
       <$> map_to_list (filter (λ kv, under src kv.1) fs))
  ∪ prune src fs.

(** [shutil.move(src, dst)] for a directory [src]: into [dst] when that is
    a directory, onto [dst] otherwise; missing parents of the destination
    are created (the copy fallback does). *)
Definition move (fs : t) (src dst : string) : Result unit * t :=
  let s := resolve src in
  let d := resolve dst in
  let real_dst :=
    if isdir fs dst then d ++ [List.last s ""] else d in
  if isdir fs dst && bool_decide (is_Some (node fs real_dst))
  then (Exc (OSError "Destination path already exists"), fs)
  else if bool_decide (under s real_dst)
  then (Exc (OSError "Cannot move a directory into itself"), fs)
  else if bool_decide (is_Some (node fs real_dst))
  then (Exc (OSError "FileExistsError"), fs)
  else match mkdirs_from [] (removelast real_dst) fs with
       | None => (Exc (OSError "NotADirectoryError"), fs)
       | Some fs' => (Val tt, rekey s real_dst fs')
       end.

End FS.

(** The result of a finished subprocess. *)
Record CompletedProcess := { returncode : Z; stderr : string }.

(** The registry document as the handler reads it: a JSON object with its
    [plugins] and [counts] members (either may be missing), [null], or any
    other JSON value. *)
Record CatalogEntry := {
  rp_id : option string;
  rp_name : option string;
  rp_description : option string;
  rp_author : option string;
  rp_version : option string;
  rp_icon : option string;
  rp_tags : option (list string);
  rp_featured : option bool;
  rp_repo_url : option string;
  rp_branch : option string;
  rp_plugin_path : option string
}.

Inductive json_doc :=
| JNull
| JObject (plugins : option (list CatalogEntry)) (counts : option (gmap string Z))
| JOther.

(** [_cache] of marketplace_registry.py; [None] is [JNull]. *)
Record Cache := {
  data : json_doc;
  ts : Z;
  stats : gmap string Z;
  stats_ts : Z
}.

Definition initial_cache : Cache :=
  {| data := JNull; ts := 0; stats := ∅; stats_ts := 0 |}.

Record World := {
  fs : FS.t;                     (* the file system *)
  cmds : list (list string);     (* subprocesses run so far, oldest first *)
  cache : Cache;                 (* the registry module's global *)
  reqs : list string             (* URLs requested so far, oldest first *)
}.

Definition with_fs (w : World) (f : FS.t) : World :=
  {| fs := f; cmds := cmds w; cache := cache w; reqs := reqs w |}.
Definition with_cmds (w : World) (c : list (list string)) : World :=
  {| fs := fs w; cmds := c; cache := cache w; reqs := reqs w |}.
Definition with_cache (w : World) (c : Cache) : World :=
  {| fs := fs w; cmds := cmds w; cache := c; reqs := reqs w |}.
Definition with_reqs (w : World) (r : list string) : World :=
  {| fs := fs w; cmds := cmds w; cache := cache w; reqs := r |}.

(** Computations over the world that return or raise. *)
Definition M (A : Type) : Type := World -> Result A * World.

#[global] Instance M_ret : MRet M := λ A a w, (Val a, w).
#[global] Instance M_bind : MBind M := λ A B k m w,
  match m w with
  | (Val a, w') => k a w'
  | (Exc e, w') => (Exc e, w')
  end.

Definition raise {A} (e : exn) : M A := λ w, (Exc e, w).

(** [try: body except Exception as e: handler(e)] *)
Definition try_except {A} (body : M A) (handler : exn -> M A) : M A := λ w,
  match body w with
  | (Val a, w') => (Val a, w')
  | (Exc e, w') => handler e w'
  end.

(** [try: body finally: cleanup] *)
Definition try_finally {A} (body : M A) (cleanup : M unit) : M A := λ w,
  match body w with
  | (r, w') =>
      match cleanup w' with
      | (Val _, w'') => (r, w'')
      | (Exc e, w'') => (Exc e, w'')
      end
  end.

(** A file-system primitive as a computation. *)
Definition fs_read {A} (f : FS.t -> A) : M A := λ w, (Val (f (fs w)), w).
Definition fs_update (f : FS.t -> FS.t) : M unit := λ w, (Val tt, with_fs w (f (fs w))).
Definition fs_try (f : FS.t -> Result unit * FS.t) : M unit := λ w,
  let '(r, fs') := f (fs w) in (r, with_fs w fs').

Definition os_path_exists (p : string) : M bool := fs_read (λ f, FS.exists_ f p).
Definition os_path_isdir (p : string) : M bool := fs_read (λ f, FS.isdir f p).
Definition os_makedirs (p : string) : M unit := fs_try (λ f, FS.makedirs f p).
Definition shutil_rmtree_ignore (p : string) : M unit := fs_update (λ f, FS.rmtree_ignore f p).
Definition shutil_rmtree (p : string) : M unit := fs_try (λ f, FS.rmtree f p).
Definition shutil_move (src dst : string) : M unit := fs_try (λ f, FS.move f src dst).
Definition write_file (p text : string) : M unit := fs_try (λ f, FS.write_file f p text).
Definition os_remove (p : string) : M unit := fs_try (λ f, FS.remove f p).

(* ===================================================================== *)
(** ** helpers/git_ops.py *)
(* ===================================================================== *)

Module GitOps.

(** What [clone_plugin] and [remove_plugin] return: [{"ok": True}] or
    [{"ok": False, "error": ...}]. *)
Inductive reply :=
| ok_true
| ok_false (error : string).

(** [_clean_github_url]: the [for marker in ("/tree/", "/blob/")] loop,
    returning at the first marker that is found. *)
Fixpoint clean_loop (markers : list string) (url : string) : string :=
  match markers with
  | [] => url
  | marker :: rest =>
      let idx := Py.find marker url in
      if negb (idx =? -1) then Py.slice_to url idx else clean_loop rest url
  end.

Definition _clean_github_url (url : string) : string :=
  clean_loop ["/tree/"; "/blob/"] url.

Section git_ops.

(** The environment: what running a command does to the file system and how
    it ends ([Exc] for a timeout or a missing binary); how an exception
    prints; the framework's [files.get_abs_path]; [os.path.abspath]. *)
Variable run_process : list string -> FS.t -> Result CompletedProcess * FS.t.
Variable str_exn : exn -> string.
Variable get_abs_path : list string -> string.
Variable abspath : string -> string.

Definition USR_PLUGINS_DIR : string := get_abs_path ["usr"; "plugins"].

(** [subprocess.run(cmd, capture_output=True, text=True, ...)], with or
    without [check=True]. *)
Definition subprocess_run (cmd : list string) (check : bool) : M CompletedProcess := λ w,
  let w1 := with_cmds w (cmds w ++ [cmd])%list in
  match run_process cmd (fs w) with
  | (Val r, fs') =>
      if check && negb (returncode r =? 0)
      then (Exc (CalledProcessError cmd (returncode r)), with_fs w1 fs')
      else (Val r, with_fs w1 fs')
  | (Exc e, fs') => (Exc e, with_fs w1 fs')
  end.

Definition clone_cmd (repo_url target_dir branch : string) : list string :=
  let cmd := ["git"; "clone"; "--depth"; "1"] in
  let cmd := if Py.truthy branch then (cmd ++ ["--branch"; branch])%list else cmd in
  (cmd ++ [repo_url; target_dir])%list.

(** The manifest check shared by both strategies. *)
Definition has_manifest (target_dir : string) : M bool :=
  has_yaml ← os_path_exists (Py.join2 target_dir "plugin.yaml");
  has_json ← os_path_exists (Py.join2 target_dir "plugin.json");
  mret (has_yaml || has_json).

Definition _full_clone (repo_url target_dir branch : string) : M reply :=
  result ← subprocess_run (clone_cmd repo_url target_dir branch) false;
  if negb (returncode result =? 0)
  then mret (ok_false ("git clone failed: " ++ Py.strip (stderr result)))
  else
    let git_dir := Py.join2 target_dir ".git" in
    ex ← os_path_exists git_dir;
    (if ex : bool then shutil_rmtree_ignore git_dir else mret tt);;
    ok ← has_manifest target_dir;
    if negb ok
    then shutil_rmtree_ignore target_dir;;
         mret (ok_false "Cloned repo has no plugin.yaml at root.")
    else mret ok_true.

Definition pull_cmd (tmp_dir try_branch : string) : list string :=
  ["git"; "-C"; tmp_dir; "pull"; "--depth"; "1"; "origin"; try_branch].

(** The [for try_branch in branches_to_try] loop; [pull_result] is the
    variable of that name, [None] before the first pull. *)
Fixpoint pull_loop (tmp_dir : string) (branches_to_try : list string)
    (pull_result : option CompletedProcess) : M (option CompletedProcess) :=
  match branches_to_try with
  | [] => mret pull_result
  | try_branch :: rest =>
      r ← subprocess_run (pull_cmd tmp_dir try_branch) false;
      if returncode r =? 0 then mret (Some r) else pull_loop tmp_dir rest (Some r)
  end.

Definition branches_to_try (branch : string) : list string :=
  if Py.truthy branch then [branch] else ["main"; "master"].

(** Lines 88-103: the empty repository in the staging directory, its
    remote, and the sparse-checkout pattern. *)
Definition sparse_setup (repo_url plugin_path tmp_dir : string) : M unit :=
  subprocess_run ["git"; "init"; tmp_dir] true;;
  subprocess_run ["git"; "-C"; tmp_dir; "remote"; "add"; "origin"; repo_url] true;;
  subprocess_run ["git"; "-C"; tmp_dir; "config"; "core.sparseCheckout"; "true"] true;;
  let sparse_file := Py.join tmp_dir [".git"; "info"; "sparse-checkout"] in
  os_makedirs (Py.dirname sparse_file);;
  write_file sparse_file (Py.rstrip_char Py.sep plugin_path ++ String Py.sep (String "010" ""));;
  mret tt.

(** Lines 125-139: the fetched subdirectory moved to the target and
    validated. *)
Definition sparse_install (plugin_path target_dir tmp_dir : string) : M reply :=
  let src := Py.join2 tmp_dir (Py.replace_char "/" Py.sep plugin_path) in
  isd ← os_path_isdir src;
  if negb isd
  then mret (ok_false ("Path '" ++ plugin_path ++ "' not found in repo."))
  else
    shutil_move src target_dir;;
    ok ← has_manifest target_dir;
    if negb ok
    then shutil_rmtree_ignore target_dir;;
         mret (ok_false "Plugin path has no plugin.yaml.")
    else mret ok_true.

(** Lines 121-123 and on: what follows the loop. *)
Definition after_pull (plugin_path target_dir tmp_dir : string)
    (pull_result : option CompletedProcess) : M reply :=
  match pull_result with
  | None => mret (ok_false ("git pull failed: " ++ "No branches to try"))
  | Some r =>
      if negb (returncode r =? 0)
      then mret (ok_false ("git pull failed: " ++ Py.strip (stderr r)))
      else sparse_install plugin_path target_dir tmp_dir
  end.

(** The [finally] block. *)
Definition cleanup_tmp (tmp_dir : string) : M unit :=
  ex ← os_path_exists tmp_dir;
  if ex : bool then shutil_rmtree_ignore tmp_dir else mret tt.

Definition _sparse_clone (repo_url plugin_path plugin_id target_dir branch : string)
    : M reply :=
  let tmp_dir := target_dir ++ "_tmp_clone" in
  try_finally
    (sparse_setup repo_url plugin_path tmp_dir;;
     pull_result ← pull_loop tmp_dir (branches_to_try branch) None;
     after_pull plugin_path target_dir tmp_dir pull_result)
    (cleanup_tmp tmp_dir).

Definition clone_plugin (repo_url plugin_path plugin_id branch : string) : M reply :=
  let target_dir := Py.join2 USR_PLUGINS_DIR plugin_id in
  ex ← os_path_exists target_dir;
  if ex : bool
  then mret (ok_false ("Plugin '" ++ plugin_id ++ "' is already installed."))
  else
    os_makedirs USR_PLUGINS_DIR;;
    let repo_url := _clean_github_url repo_url in
    let is_subdirectory := Py.truthy plugin_path && negb (String.eqb plugin_path ".") in
    try_except
      (if is_subdirectory
       then _sparse_clone repo_url plugin_path plugin_id target_dir branch
       else _full_clone repo_url target_dir branch)
      (λ e,
        ex ← os_path_exists target_dir;
        (if ex : bool then shutil_rmtree_ignore target_dir else mret tt);;
        mret (ok_false (str_exn e))).

Definition remove_plugin (plugin_id : string) : M reply :=
  let target_dir := Py.join2 USR_PLUGINS_DIR plugin_id in
  let builtin_dir := get_abs_path ["plugins"; plugin_id] in
  if String.eqb (abspath target_dir) (abspath builtin_dir)
  then mret (ok_false "Cannot uninstall built-in plugins.")
  else
    ex ← os_path_exists target_dir;
    if negb ex
    then mret (ok_false ("Plugin '" ++ plugin_id ++ "' is not installed in usr/plugins/."))
    else
      try_except
        (shutil_rmtree target_dir;; mret ok_true)
        (λ e, mret (ok_false (str_exn e))).

End git_ops.

End GitOps.

(** The status a plugin is listed with. *)
Inductive Status := available | active | inactive.

#[global] Instance Status_eq_dec : EqDecision Status.
Proof. solve_decision. Defined.

(* ===================================================================== *)
(** ** api/marketplace_toggle.py *)
(* ===================================================================== *)

Module Toggle.

(** What the handler returns: a [Response(status=..., response=...)] or
    [{"ok": True, "status": ...}]. *)
Inductive reply :=
| Response (status : Z) (response : string)
| ok_status (status : Status).

Section toggle.

(** The framework's side: [files.get_abs_path], [plugins.find_plugin_dir]
    (a path, or nothing), and the constants of [files] and [plugins]. *)
Variable get_abs_path : list string -> string.
Variable find_plugin_dir : FS.t -> string -> option string.
Variables USER_DIR PLUGINS_DIR DISABLED_FILE_NAME ENABLED_FILE_NAME : string.

Definition usr_plugin_dir (plugin_id : string) : string :=
  get_abs_path [USER_DIR; PLUGINS_DIR; plugin_id].
Definition disabled_path (plugin_id : string) : string :=
  Py.join2 (usr_plugin_dir plugin_id) DISABLED_FILE_NAME.
Definition enabled_path (plugin_id : string) : string :=
  Py.join2 (usr_plugin_dir plugin_id) ENABLED_FILE_NAME.

(** [if os.path.exists(p): os.remove(p)] *)
Definition remove_if_exists (p : string) : M unit :=
  ex ← os_path_exists p;
  if ex : bool then os_remove p else mret tt.

Definition process (plugin_id : string) (enabled : bool) : M reply :=
  if negb (Py.truthy plugin_id)
  then mret (Response 400 "Missing plugin_id")
  else
    plugin_dir ← fs_read (λ f, find_plugin_dir f plugin_id);
    if negb (from_option Py.truthy false plugin_dir)
    then mret (Response 404 ("Plugin '" ++ plugin_id ++ "' not found."))
    else
      os_makedirs (usr_plugin_dir plugin_id);;
      (if enabled
       then remove_if_exists (disabled_path plugin_id);;
            write_file (enabled_path plugin_id) ""
       else remove_if_exists (enabled_path plugin_id);;
            write_file (disabled_path plugin_id) "");;
      let status := if enabled then active else inactive in
      mret (ok_status status).

End toggle.

End Toggle.

(* ===================================================================== *)
(** ** api/marketplace_registry.py *)
(* ===================================================================== *)

Module Registry.

Definition REGISTRY_URL : string :=
  "https://raw.githubusercontent.com/TerminallyLazy/a0-marketplace/main/registry.json".
Definition STATS_URL : string := "https://a0-marketplace-web.vercel.app/api/stats".
Definition CACHE_TTL : Z := 300.

(** An item of [plugins.get_enhanced_plugins_list]. *)
Record LocalPlugin := {
  lp_name : string;
  lp_display_name : string;
  lp_description : string;
  lp_version : string;
  lp_is_custom : bool;
  lp_has_config_screen : bool
}.

(** A row of the merged list.  [row_branch] is [None] when the dictionary
    has no ["branch"] key. *)
Record Row := {
  row_id : string;
  row_name : string;
  row_description : string;
  row_author : string;
  row_version : string;
  row_icon : string;
  row_tags : list string;
  row_featured : bool;
  row_install_count : Z;
  row_status : Status;
  row_is_builtin : bool;
  row_has_config : bool;
  row_repo_url : string;
  row_branch : option string;
  row_plugin_path : string
}.

(** What the handler returns. *)
Inductive reply :=
| ok_plugins (plugins : list Row)
| ok_false (error : string).

(** An HTTP response: its status and what [resp.json()] gives. *)
Record HttpResponse := { status_code : Z; json : Result json_doc }.

Definition is_none (d : json_doc) : bool :=
  match d with JNull => true | _ => false end.

(** [registry.get("plugins", [])] *)
Definition get_plugins (registry : json_doc) : Result (list CatalogEntry) :=
  match registry with
  | JObject plugins _ => Val (default [] plugins)
  | JNull => Exc (AttributeError "'NoneType' object has no attribute 'get'")
  | JOther => Exc (AttributeError "object has no attribute 'get'")
  end.

(** [resp.json().get("counts", {})] *)
Definition get_counts (doc : json_doc) : Result (gmap string Z) :=
  match doc with
  | JObject _ counts => Val (default ∅ counts)
  | JNull => Exc (AttributeError "'NoneType' object has no attribute 'get'")
  | JOther => Exc (AttributeError "object has no attribute 'get'")
  end.

Definition lift {A} (r : Result A) : M A := λ w, (r, w).

Definition get_cache : M Cache := λ w, (Val (cache w), w).
Definition set_data (d : json_doc) (t : Z) : M unit := λ w,
  (Val tt, with_cache w {| data := d; ts := t;
                           stats := stats (cache w); stats_ts := stats_ts (cache w) |}).
Definition set_stats (s : gmap string Z) (t : Z) : M unit := λ w,
  (Val tt, with_cache w {| data := data (cache w); ts := ts (cache w);
                           stats := s; stats_ts := t |}).

(** [resp.raise_for_status()] *)
Definition raise_for_status (resp : HttpResponse) : M unit :=
  if (200 <=? status_code resp) && (status_code resp <=? 299)
  then mret tt
  else raise (HTTPStatusError (status_code resp)).

Section registry.

(** The environment of one call: the clock, the network, how an exception
    prints, and the framework's [plugins.get_enhanced_plugins_list],
    [files.exists], [files.get_abs_path] and constants. *)
Variable now : Z.
Variable http_get : string -> Result HttpResponse.
Variable str_exn : exn -> string.
Variable get_enhanced_plugins_list : FS.t -> list LocalPlugin.
Variable files_exists : FS.t -> string -> bool.
Variable get_abs_path : list string -> string.
Variables USER_DIR PLUGINS_DIR DISABLED_FILE_NAME : string.

(** [await client.get(url)] *)
Definition client_get (url : string) : M HttpResponse := λ w,
  (http_get url, with_reqs w (reqs w ++ [url])%list).

Definition stale (t : Z) : bool := now - t >? CACHE_TTL.

(** Lines 23-25: the request and the decoding of its body. *)
Definition download (url : string) : M json_doc :=
  resp ← client_get url;
  raise_for_status resp;;
  lift (json resp).

(** Lines 20-30.  [Some r] is the early [return r]. *)
Definition fetch_registry : M (option reply) :=
  c ← get_cache;
  if is_none (data c) || stale (ts c)
  then
    try_except
      (d ← download REGISTRY_URL;
       set_data d now;;
       mret None)
      (λ e,
        c ← get_cache;
        if is_none (data c)
        then mret (Some (ok_false ("Failed to fetch registry: " ++ str_exn e)))
        else mret None)
  else mret None.

(** Lines 33-41. *)
Definition fetch_stats : M unit :=
  c ← get_cache;
  if Py.truthy STATS_URL && stale (stats_ts c)
  then
    try_except
      (resp ← client_get STATS_URL;
       if status_code resp =? 200
       then d ← lift (json resp);
            counts ← lift (get_counts d);
            set_stats counts now
       else mret tt)
      (λ _, mret tt)
  else mret tt.

Definition disabled_path (pid : string) : string :=
  get_abs_path [USER_DIR; PLUGINS_DIR; pid; DISABLED_FILE_NAME].

(** ["inactive" if is_disabled else "active"] *)
Definition sentinel_status (f : FS.t) (pid : string) : Status :=
  if files_exists f (disabled_path pid) then inactive else active.

(** [{p.name: p for p in local_plugins}]: a later item replaces an earlier
    one of the same name. *)
Definition local_by_name (local_plugins : list LocalPlugin) : gmap string LocalPlugin :=
  fold_left (λ m p, <[lp_name p := p]> m) local_plugins ∅.

(** The dictionary appended for a catalogue entry (lines 58-85). *)
Definition catalog_row (f : FS.t) (stats : gmap string Z)
    (by_name : gmap string LocalPlugin) (rp : CatalogEntry) (pid : string) : Row :=
  let local := by_name !! pid in
  let status :=
    match local with
    | Some _ => sentinel_status f pid
    | None => available
    end in
  {| row_id := pid;
     row_name := default pid (rp_name rp);
     row_description := default "" (rp_description rp);
     row_author := default "" (rp_author rp);
     row_version := default "" (rp_version rp);
     row_icon := default "extension" (rp_icon rp);
     row_tags := default [] (rp_tags rp);
     row_featured := default false (rp_featured rp);
     row_install_count := default 0 (stats !! pid);
     row_status := status;
     row_is_builtin := match local with Some l => negb (lp_is_custom l) | None => false end;
     row_has_config := match local with Some l => lp_has_config_screen l | None => false end;
     row_repo_url := default "" (rp_repo_url rp);
     row_branch := Some (default "" (rp_branch rp));
     row_plugin_path := default "." (rp_plugin_path rp) |}.

(** The dictionary appended for a local-only plugin (lines 90-109). *)
Definition local_row (f : FS.t) (lp : LocalPlugin) : Row :=
  {| row_id := lp_name lp;
     row_name := if Py.truthy (lp_display_name lp) then lp_display_name lp else lp_name lp;
     row_description := lp_description lp;
     row_author := "";
     row_version := lp_version lp;
     row_icon := "extension";
     row_tags := [];
     row_featured := false;
     row_install_count := 0;
     row_status := sentinel_status f (lp_name lp);
     row_is_builtin := negb (lp_is_custom lp);
     row_has_config := lp_has_config_screen lp;
     row_repo_url := "";
     row_branch := None;
     row_plugin_path := "" |}.

(** [for rp in registry_plugins] with its two accumulators; [rp["id"]]
    raises when the entry has no id. *)
Fixpoint catalog_loop (f : FS.t) (stats : gmap string Z) (by_name : gmap string LocalPlugin)
    (registry_plugins : list CatalogEntry) (merged : list Row) (seen_ids : gset string)
    : Result (list Row * gset string) :=
  match registry_plugins with
  | [] => Val (merged, seen_ids)
  | rp :: rest =>
      match rp_id rp with
      | None => Exc (KeyError "id")
      | Some pid =>
          catalog_loop f stats by_name rest
            (merged ++ [catalog_row f stats by_name rp pid])%list
            ({[pid]} ∪ seen_ids)
      end
  end.

(** [for lp in local_plugins] *)
Fixpoint local_loop (f : FS.t) (local_plugins : list LocalPlugin)
    (merged : list Row) (seen_ids : gset string) : list Row :=
  match local_plugins with
  | [] => merged
  | lp :: rest =>
      if bool_decide (lp_name lp ∉ seen_ids)
      then local_loop f rest (merged ++ [local_row f lp])%list seen_ids
      else local_loop f rest merged seen_ids
  end.

(** Lines 52-109: the merged list for a catalogue, the install counts, the
    local plugins and the file system. *)
Definition build_merged (f : FS.t) (stats : gmap string Z)
    (registry_plugins : list CatalogEntry) (local_plugins : list LocalPlugin)
    : Result (list Row) :=
  match catalog_loop f stats (local_by_name local_plugins) registry_plugins [] ∅ with
  | Val (merged, seen_ids) => Val (local_loop f local_plugins merged seen_ids)
  | Exc e => Exc e
  end.

(** Lines 43-111. *)
Definition respond : M reply :=
  c ← get_cache;
  registry_plugins ← lift (get_plugins (data c));
  local_plugins ← fs_read get_enhanced_plugins_list;
  f ← fs_read (λ f, f);
  merged ← lift (build_merged f (stats c) registry_plugins local_plugins);
  mret (ok_plugins merged).

Definition process : M reply :=
  early ← fetch_registry;
  match early with
  | Some r => mret r
  | None => fetch_stats;; respond
  end.

End registry.

End Registry.

(* ===================================================================== *)
(** ** api/marketplace_install.py *)
(* ===================================================================== *)

Module Install.

Definition STATS_REPORT_URL : string :=
  "https://a0-marketplace-web.vercel.app/api/stats/install".

(** The request body: each key may be missing ([input.get(key, default)]). *)
Record Input := {
  in_plugin_id : option string;
  in_repo_url : option string;
  in_plugin_path : option string;
  in_branch : option string
}.

(** What the handler returns: a [Response(status=..., response=...)],
    [{"ok": True, "message": ...}] or [{"ok": False, "error": ...}]. *)
Inductive reply :=
| Response (status : Z) (response : string)
| ok_message (message : string)
| ok_false (error : string).

Section install.

(** The environment of [clone_plugin], and [client.post(url, json=...)]:
    whether the request for this plugin id goes through or raises. *)
Variable run_process : list string -> FS.t -> Result CompletedProcess * FS.t.
Variable str_exn : exn -> string.
Variable get_abs_path : list string -> string.
Variable http_post : string -> string -> Result unit.

(** [await client.post(url, json={"plugin_id": plugin_id})] *)
Definition client_post (url plugin_id : string) : M unit := λ w,
  (http_post url plugin_id, with_reqs w (reqs w ++ [url])%list).

(** Lines 23-28: the report, with every exception swallowed. *)
Definition report_install (plugin_id : string) : M unit :=
  try_except (client_post STATS_REPORT_URL plugin_id) (λ _, mret tt).

Definition process (input : Input) : M reply :=
  let plugin_id := default "" (in_plugin_id input) in
  let repo_url := default "" (in_repo_url input) in
  let plugin_path := default "." (in_plugin_path input) in
  let branch := default "" (in_branch input) in
  if negb (Py.truthy plugin_id) || negb (Py.truthy repo_url)
  then mret (Response 400 "Missing plugin_id or repo_url")
  else
    result ← GitOps.clone_plugin run_process str_exn get_abs_path
               repo_url plugin_path plugin_id branch;
    (if match result with GitOps.ok_true => true | GitOps.ok_false _ => false end
        && Py.truthy STATS_REPORT_URL
     then report_install plugin_id
     else mret tt);;
    match result with
    | GitOps.ok_true =>
        mret (ok_message ("Plugin '" ++ plugin_id ++ "' installed successfully."))
    | GitOps.ok_false error => mret (ok_false error)
    end.

End install.

End Install.

(* ===================================================================== *)
(** ** api/marketplace_uninstall.py *)
(* ===================================================================== *)

Module Uninstall.

(** What the handler returns: a [Response(status=..., response=...)] or
    [{"ok": True, "message": ...}]. *)
Inductive reply :=
| Response (status : Z) (response : string)
| ok_message (message : string).

Section uninstall.

Variable str_exn : exn -> string.
Variable get_abs_path : list string -> string.
Variable abspath : string -> string.

(** [in_plugin_id] is [input.get("plugin_id", "")] before its default. *)
Definition process (in_plugin_id : option string) : M reply :=
  let plugin_id := default "" in_plugin_id in
  if negb (Py.truthy plugin_id)
  then mret (Response 400 "Missing plugin_id")
  else
    result ← GitOps.remove_plugin str_exn get_abs_path abspath plugin_id;
    match result with
    | GitOps.ok_true => mret (ok_message ("Plugin '" ++ plugin_id ++ "' uninstalled."))
    | GitOps.ok_false error => mret (Response 400 error)
    end.

End uninstall.

End Uninstall.

(* ===================================================================== *)
(** ** The vocabulary of the statements *)
(* ===================================================================== *)

Module Spec.

(** [s[i:]] *)
Fixpoint drop_chars (n : nat) (s : string) : string :=
  match n, s with
  | O, _ => s
  | S n', String _ s' => drop_chars n' s'
  | S _, EmptyString => EmptyString
  end.

(** The position of the first web-UI marker of either kind, [-1] when the
    URL has none: what the claim truncates at. *)
Definition first_marker (url : string) : Z :=
  let t := Py.find "/tree/" url in
  let b := Py.find "/blob/" url in
  if t =? -1 then b else if b =? -1 then t else Z.min t b.

(** [m] never changes the component [proj] of the world. *)
Definition preserves {X A} (proj : World -> X) (m : M A) : Prop :=
  forall w, proj (snd (m w)) = proj w.

(** [m] keeps the property [P] of the world, however it ends. *)
Definition invariant {A} (P : World -> Prop) (m : M A) : Prop :=
  forall w, P w -> P (snd (m w)).

(** A command that works in the staging directory [tmp_dir]: the
    [git init] of it, or a [git -C tmp_dir ...]. *)
Definition staged (tmp_dir : string) (cmd : list string) : Prop :=
  cmd = ["git"; "init"; tmp_dir] \/ exists rest, cmd = "git" :: "-C" :: tmp_dir :: rest.

(** The two replies of a failed manifest check. *)
Definition manifest_missing (r : GitOps.reply) : Prop :=
  r = GitOps.ok_false "Cloned repo has no plugin.yaml at root."
  \/ r = GitOps.ok_false "Plugin path has no plugin.yaml.".

(** The identifiers of a catalogue, when every entry has one. *)
Definition catalog_ids (rps : list CatalogEntry) : option (list string) :=
  mapM rp_id rps.

Section view.

Variable http_get : string -> Result Registry.HttpResponse.
Variable get_enhanced_plugins_list : FS.t -> list Registry.LocalPlugin.
Variable files_exists : FS.t -> string -> bool.
Variable get_abs_path : list string -> string.
Variables USER_DIR PLUGINS_DIR DISABLED_FILE_NAME : string.

(** The rows of the first loop, one per entry. *)
Definition catalog_rows (f : FS.t) (stats : gmap string Z)
    (by_name : gmap string Registry.LocalPlugin)
    (rps : list CatalogEntry) (ids : list string) : list Registry.Row :=
  zip_with
    (Registry.catalog_row files_exists get_abs_path USER_DIR PLUGINS_DIR
       DISABLED_FILE_NAME f stats by_name)
    rps ids.

(** The rows of the second loop: the local plugins no entry names. *)
Definition local_only_rows (f : FS.t) (ids : list string)
    (lps : list Registry.LocalPlugin) : list Registry.Row :=
  Registry.local_row files_exists get_abs_path USER_DIR PLUGINS_DIR DISABLED_FILE_NAME f
  <$> filter (λ lp, Registry.lp_name lp ∉ ids) lps.

(** What one request for [url] yields: the decoded body, or the exception
    of the connection, of the status check or of the decoding. *)
Definition download_result (url : string) : Result json_doc :=
  match http_get url with
  | Val resp =>
      if (200 <=? Registry.status_code resp) && (Registry.status_code resp <=? 299)
      then Registry.json resp
      else Exc (HTTPStatusError (Registry.status_code resp))
  | Exc e => Exc e
  end.

(** The reply built from a catalogue, the install counts and the file
    system (lines 43-111). *)
Definition served (d : json_doc) (stats : gmap string Z) (f : FS.t) : Result Registry.reply :=
  match Registry.get_plugins d with
  | Val rps =>
      match Registry.build_merged files_exists get_abs_path USER_DIR PLUGINS_DIR
              DISABLED_FILE_NAME f stats rps (get_enhanced_plugins_list f) with
      | Val merged => Val (Registry.ok_plugins merged)
      | Exc e => Exc e
      end
  | Exc e => Exc e
  end.

End view.

End Spec.

(* ===================================================================== *)
(** ** A concrete installation *)
(* ===================================================================== *)

Module Demo.

(** The framework as Agent Zero ships it: paths are joined from the base
    directory, [files.exists] is [os.path.exists], and the two markers are
    [.toggle-1] and [.toggle-0]. *)
Definition base_dir : string := "/a0".
Definition get_abs_path (ps : list string) : string := Py.join base_dir ps.
Definition files_exists (f : FS.t) (p : string) : bool := FS.exists_ f p.
Definition USER_DIR : string := "usr".
Definition PLUGINS_DIR : string := "plugins".
Definition DISABLED_FILE_NAME : string := ".toggle-0".
Definition ENABLED_FILE_NAME : string := ".toggle-1".

(** [os.path.abspath] of an absolute path: its components, normalised. *)
Definition abspath (p : string) : string :=
  "/" ++ String.concat "/" (FS.resolve p).

Definition str_exn (e : exn) : string :=
  match e with
  | CalledProcessError _ _ => "Command returned non-zero exit status."
  | OSError what => what
  | HTTPStatusError _ => "Client error"
  | KeyError key => key
  | AttributeError what => what
  | EnvError what => what
  end.

Definition mkdir (p : string) (f : FS.t) : FS.t :=
  match FS.mkdirs_from [] (FS.resolve p) f with
  | Some f' => f'
  | None => f
  end.

Definition touch (p : string) (f : FS.t) : FS.t :=
  <[FS.resolve p := FS.File ""]> (mkdir (Py.dirname p) f).

Definition world (f : FS.t) (c : Cache) : World :=
  {| fs := f; cmds := []; cache := c; reqs := [] |}.

(** An empty installation, and one with the plugin [demo] installed. *)
Definition fresh : World := world (mkdir "/a0/usr/plugins" ∅) initial_cache.
Definition with_demo : World :=
  world (mkdir "/a0/usr/plugins/demo" ∅) initial_cache.

Definition done : CompletedProcess := {| returncode := 0; stderr := "" |}.

(** A git whose clone fetches the repository and then fails to check it
    out: the clone directory stays and the exit status is 128. *)
Definition git_checkout_fails (cmd : list string) (f : FS.t)
    : Result CompletedProcess * FS.t :=
  match cmd with
  | ["git"; "clone"; "--depth"; "1"; _; target_dir] =>
      (Val {| returncode := 128;
              stderr := "fatal: unable to checkout working tree" |},
       mkdir (Py.join2 target_dir ".git") f)
  | _ => (Val done, f)
  end.

(** A git whose repository has neither of the branches asked for. *)
Definition git_no_such_branch (cmd : list string) (f : FS.t)
    : Result CompletedProcess * FS.t :=
  match cmd with
  | ["git"; "init"; tmp_dir] => (Val done, mkdir (Py.join2 tmp_dir ".git") f)
  | ["git"; "-C"; _; "pull"; "--depth"; "1"; "origin"; try_branch] =>
      (Val {| returncode := 1;
              stderr := "fatal: couldn't find remote ref " ++ try_branch |}, f)
  | _ => (Val done, f)
  end.

(** A git whose clone succeeds: the clone has its [.git] directory and,
    when [manifest] holds, a [plugin.yaml]. *)
Definition git_clones (manifest : bool) (cmd : list string) (f : FS.t)
    : Result CompletedProcess * FS.t :=
  match cmd with
  | ["git"; "clone"; "--depth"; "1"; _; target_dir] =>
      let f1 := mkdir (Py.join2 target_dir ".git") f in
      (Val done, if manifest then touch (Py.join2 target_dir "plugin.yaml") f1 else f1)
  | _ => (Val done, f)
  end.

(** An installation where a regular file sits at [/a0/usr]. *)
Definition blocked : World := world (touch "/a0/usr" ∅) initial_cache.

Definition entry (pid : string) : CatalogEntry :=
  {| rp_id := Some pid; rp_name := None; rp_description := None; rp_author := None;
     rp_version := None; rp_icon := None; rp_tags := None; rp_featured := None;
     rp_repo_url := Some ("https://github.com/u/" ++ pid); rp_branch := None;
     rp_plugin_path := None |}.

Definition plugin (name : string) : Registry.LocalPlugin :=
  {| Registry.lp_name := name; Registry.lp_display_name := "";
     Registry.lp_description := ""; Registry.lp_version := "1.0";
     Registry.lp_is_custom := true; Registry.lp_has_config_screen := false |}.

Definition build_merged :=
  Registry.build_merged files_exists get_abs_path USER_DIR PLUGINS_DIR DISABLED_FILE_NAME.

(** A network that is down. *)
Definition offline (url : string) : Result Registry.HttpResponse :=
  Exc (EnvError "All connection attempts failed").

(** A cache whose catalogue, one entry, was fetched at time 100. *)
Definition cached : Cache :=
  {| data := JObject (Some [entry "memory"]) None; ts := 100;
     stats := ∅; stats_ts := 100 |}.

End Demo.

(* ===================================================================== *)
(** ** Properties of the string primitives *)
(* ===================================================================== *)

Lemma find_ge_m1 sub s : -1 <= Py.find sub s.
Proof.
  induction s as [|c s IH]; simpl.
  - destruct (Py.startswith sub ""); lia.
  - destruct (Py.startswith sub (String c s)); [lia|].
    destruct (Z.eqb_spec (Py.find sub s) (-1)); lia.
Qed.

(** [find] returns a position at which [sub] starts. *)
Lemma find_occurs sub s :
  Py.find sub s <> -1 ->
  Py.startswith sub (Spec.drop_chars (Z.to_nat (Py.find sub s)) s) = true.
Proof.
  induction s as [|c s IH]; simpl.
  - destruct (Py.startswith sub "") eqn:E; [simpl; auto | congruence].
  - destruct (Py.startswith sub (String c s)) eqn:E; [simpl; auto|].
    destruct (Z.eqb_spec (Py.find sub s) (-1)) as [|Hne]; [congruence|].
    intros _. pose proof (find_ge_m1 sub s).
    replace (Z.to_nat (Py.find sub s + 1)) with (S (Z.to_nat (Py.find sub s))) by lia.
    simpl. auto.
Qed.

(** ... and no position before it does. *)
Lemma find_first sub s (j : nat) :
  Py.find sub s <> -1 -> (Z.of_nat j < Py.find sub s) ->
  Py.startswith sub (Spec.drop_chars j s) = false.
Proof.
  revert j. induction s as [|c s IH]; simpl; intros j.
  - destruct (Py.startswith sub "") eqn:E; [lia | congruence].
  - destruct (Py.startswith sub (String c s)) eqn:E; [lia|].
    destruct (Z.eqb_spec (Py.find sub s) (-1)) as [|Hne]; [congruence|].
    intros _ Hj. destruct j as [|j]; simpl; [exact E|].
    apply IH; [exact Hne | lia].
Qed.

(** When [sub] does not occur, no position starts it. *)
Lemma find_absent sub s (j : nat) :
  Py.find sub s = -1 -> Py.startswith sub (Spec.drop_chars j s) = false.
Proof.
  revert j. induction s as [|c s IH]; simpl; intros j.
  - destruct (Py.startswith sub "") eqn:E; [lia|]. intros _. destruct j; exact E.
  - destruct (Py.startswith sub (String c s)) eqn:E; [lia|].
    destruct (Z.eqb_spec (Py.find sub s) (-1)) as [Heq|Hne].
    + intros _. destruct j as [|j]; simpl; [exact E | apply IH; exact Heq].
    + pose proof (find_ge_m1 sub s). lia.
Qed.

(* ===================================================================== *)
(** ** [_clean_github_url] *)
(* ===================================================================== *)

Lemma clean_tree_found url :
  Py.find "/tree/" url <> -1 ->
  GitOps._clean_github_url url = Py.slice_to url (Py.find "/tree/" url).
Proof.
  intros H. unfold GitOps._clean_github_url, GitOps.clean_loop.
  destruct (Z.eqb_spec (Py.find "/tree/" url) (-1)); [contradiction | reflexivity].
Qed.

Lemma clean_blob_found url :
  Py.find "/tree/" url = -1 -> Py.find "/blob/" url <> -1 ->
  GitOps._clean_github_url url = Py.slice_to url (Py.find "/blob/" url).
Proof.
  intros Ht Hb. unfold GitOps._clean_github_url, GitOps.clean_loop.
  rewrite Ht. simpl.
  destruct (Z.eqb_spec (Py.find "/blob/" url) (-1)); [contradiction | reflexivity].
Qed.

Lemma clean_no_marker url :
  Py.find "/tree/" url = -1 -> Py.find "/blob/" url = -1 ->
  GitOps._clean_github_url url = url.
Proof.
  intros Ht Hb. unfold GitOps._clean_github_url, GitOps.clean_loop.
  rewrite Ht, Hb. reflexivity.
Qed.

(** Where ["/tree/"] is the first marker, or the only kind present, the
    result is the URL cut at the first marker. *)
Lemma clean_cuts_at_first_marker url :
  Spec.first_marker url <> -1 ->
  (Py.find "/tree/" url = -1 \/ Py.find "/blob/" url = -1
   \/ Py.find "/tree/" url < Py.find "/blob/" url) ->
  GitOps._clean_github_url url = Py.slice_to url (Spec.first_marker url).
Proof.
  unfold Spec.first_marker. intros Hm Hc.
  destruct (Z.eqb_spec (Py.find "/tree/" url) (-1)) as [Ht|Ht].
  - apply clean_blob_found; assumption.
  - rewrite clean_tree_found by assumption.
    destruct (Z.eqb_spec (Py.find "/blob/" url) (-1)) as [Hb|Hb]; [reflexivity|].
    f_equal. lia.
Qed.

(** C8 (divergence).  A browsable URL whose ["/blob/"] marker comes before
    a ["/tree/"] further right is cut at the ["/tree/"], not at the first
    marker: the result still carries the web-UI suffix [/blob/main]. *)
Theorem clean_github_url_blob_before_tree :
  let url := "https://github.com/u/r/blob/main/tree/x.py" in
  Py.find "/blob/" url = 22 /\ Py.find "/tree/" url = 32 /\
  Spec.first_marker url = 22 /\
  Py.slice_to url (Spec.first_marker url) = "https://github.com/u/r" /\
  GitOps._clean_github_url url = "https://github.com/u/r/blob/main".
Proof. repeat split; vm_compute; reflexivity. Qed.

(* ===================================================================== *)
(** ** [clone_plugin] and [remove_plugin]: the guards *)
(* ===================================================================== *)

Section guards.

Variable run_process : list string -> FS.t -> Result CompletedProcess * FS.t.
Variable str_exn : exn -> string.
Variable get_abs_path : list string -> string.
Variable abspath : string -> string.

Local Abbreviation USR_PLUGINS_DIR := (GitOps.USR_PLUGINS_DIR get_abs_path).
Local Abbreviation clone_plugin := (GitOps.clone_plugin run_process str_exn get_abs_path).
Local Abbreviation remove_plugin := (GitOps.remove_plugin str_exn get_abs_path abspath).

(** C5.  When [usr/plugins/<plugin_id>] exists, [clone_plugin] returns the
    already-installed error and leaves the whole world as it found it: the
    file system is untouched and no subprocess has been run. *)
Theorem clone_plugin_already_installed
    (repo_url plugin_path plugin_id branch : string) (w : World) :
  FS.exists_ (fs w) (Py.join2 USR_PLUGINS_DIR plugin_id) = true ->
  clone_plugin repo_url plugin_path plugin_id branch w
  = (Val (GitOps.ok_false ("Plugin '" ++ plugin_id ++ "' is already installed.")), w).
Proof.
  intros Hex. unfold GitOps.clone_plugin, mbind, M_bind, os_path_exists, fs_read.
  rewrite Hex. reflexivity.
Qed.

(** C6.  When the target path of the removal is the built-in path of the
    same identifier, [remove_plugin] answers with the protected-plugin
    error and the world, the file system with it, is unchanged. *)
Theorem remove_plugin_builtin_protected (plugin_id : string) (w : World) :
  abspath (Py.join2 USR_PLUGINS_DIR plugin_id)
  = abspath (get_abs_path ["plugins"; plugin_id]) ->
  remove_plugin plugin_id w
  = (Val (GitOps.ok_false "Cannot uninstall built-in plugins."), w).
Proof.
  intros Heq. unfold GitOps.remove_plugin. rewrite Heq, String.eqb_refl.
  reflexivity.
Qed.


(** [clone_plugin] sees the source URL only through [_clean_github_url]:
    every clone and every remote is given the cleaned URL. *)
Lemma clone_plugin_uses_clean_url (url1 url2 plugin_path plugin_id branch : string) :
  GitOps._clean_github_url url1 = GitOps._clean_github_url url2 ->
  clone_plugin url1 plugin_path plugin_id branch
  = clone_plugin url2 plugin_path plugin_id branch.
Proof. intros H. unfold GitOps.clone_plugin. rewrite H. reflexivity. Qed.

End guards.

(* ===================================================================== *)
(** ** Frames: the parts of the world a computation leaves alone *)
(* ===================================================================== *)

Lemma bind_run {A B} (m : M A) (k : A -> M B) (w : World) :
  (m ≫= k) w = match m w with
               | (Val a, w') => k a w'
               | (Exc e, w') => (Exc e, w')
               end.
Proof. reflexivity. Qed.

Section frames.

Context {X : Type} (proj : World -> X).

Lemma preserves_ret {A} (a : A) : Spec.preserves proj (mret a).
Proof. intros w. reflexivity. Qed.

Lemma preserves_raise {A} (e : exn) : Spec.preserves proj (@raise A e).
Proof. intros w. reflexivity. Qed.

Lemma preserves_bind {A B} (m : M A) (k : A -> M B) :
  Spec.preserves proj m -> (forall a, Spec.preserves proj (k a)) -> Spec.preserves proj (m ≫= k).
Proof.
  intros Hm Hk w. rewrite bind_run. specialize (Hm w).
  destruct (m w) as [[a|e] w']; simpl in *; [rewrite Hk|]; exact Hm.
Qed.

Lemma preserves_try_except {A} (body : M A) (handler : exn -> M A) :
  Spec.preserves proj body -> (forall e, Spec.preserves proj (handler e)) ->
  Spec.preserves proj (try_except body handler).
Proof.
  intros Hm Hk w. unfold try_except. specialize (Hm w).
  destruct (body w) as [[a|e] w']; simpl in *; [|rewrite Hk]; exact Hm.
Qed.

Lemma preserves_try_finally {A} (body : M A) (cleanup : M unit) :
  Spec.preserves proj body -> Spec.preserves proj cleanup ->
  Spec.preserves proj (try_finally body cleanup).
Proof.
  intros Hm Hc w. unfold try_finally. specialize (Hm w).
  destruct (body w) as [r w']. specialize (Hc w').
  destruct (cleanup w') as [[[]|e] w'']; simpl in *; congruence.
Qed.

Lemma preserves_fs_read {A} (f : FS.t -> A) : Spec.preserves proj (fs_read f).
Proof. intros w. reflexivity. Qed.

End frames.

Lemma fs_update_cmds (f : FS.t -> FS.t) : Spec.preserves cmds (fs_update f).
Proof. intros w. reflexivity. Qed.

Lemma fs_try_cmds (f : FS.t -> Result unit * FS.t) : Spec.preserves cmds (fs_try f).
Proof. intros w. unfold fs_try. destruct (f (fs w)). reflexivity. Qed.

Lemma fs_update_cache (f : FS.t -> FS.t) : Spec.preserves cache (fs_update f).
Proof. intros w. reflexivity. Qed.

Lemma fs_try_cache (f : FS.t -> Result unit * FS.t) : Spec.preserves cache (fs_try f).
Proof. intros w. unfold fs_try. destruct (f (fs w)). reflexivity. Qed.

(** Goals [Spec.preserves proj m] for [m] built from the combinators, by
    structure; the primitives are closed from the [frame] hints. *)
Create HintDb frame.
#[export] Hint Resolve fs_update_cmds fs_try_cmds fs_update_cache fs_try_cache : frame.

Ltac frame_step :=
  first
    [ apply preserves_ret
    | apply preserves_raise
    | apply preserves_fs_read
    | apply preserves_bind; [|intro]
    | apply preserves_try_except; [|intro]
    | apply preserves_try_finally
    | match goal with
      | |- Spec.preserves _ (if ?b then _ else _) => destruct b
      | |- Spec.preserves _ (match ?x with _ => _ end) => destruct x
      end
    | solve [auto with frame] ].

Ltac frame := repeat frame_step.

(* ===================================================================== *)
(** ** [_sparse_clone]: which branches are pulled *)
(* ===================================================================== *)

Section sparse_branches.

Variable run_process : list string -> FS.t -> Result CompletedProcess * FS.t.

Local Abbreviation subprocess_run := (GitOps.subprocess_run run_process).
Local Abbreviation pull_loop := (GitOps.pull_loop run_process).
Local Abbreviation sparse_setup := (GitOps.sparse_setup run_process).
Local Abbreviation _sparse_clone := (GitOps._sparse_clone run_process).

(** A subprocess that returns a result (no [check]) adds its command to the
    log and leaves the file system as the process left it. *)
Lemma subprocess_run_returns cmd r f' w :
  run_process cmd (fs w) = (Val r, f') ->
  subprocess_run cmd false w = (Val r, with_fs (with_cmds w (cmds w ++ [cmd])%list) f').
Proof. intros H. unfold GitOps.subprocess_run. rewrite H. reflexivity. Qed.

Lemma sparse_install_cmds plugin_path target_dir tmp_dir :
  Spec.preserves cmds (GitOps.sparse_install plugin_path target_dir tmp_dir).
Proof.
  unfold GitOps.sparse_install, GitOps.has_manifest, os_path_isdir, os_path_exists,
    shutil_move, shutil_rmtree_ignore.
  frame.
Qed.

Lemma after_pull_cmds plugin_path target_dir tmp_dir pull_result :
  Spec.preserves cmds (GitOps.after_pull plugin_path target_dir tmp_dir pull_result).
Proof.
  unfold GitOps.after_pull. destruct pull_result as [r|]; [|frame].
  destruct (negb (returncode r =? 0)); [frame | apply sparse_install_cmds].
Qed.

Lemma cleanup_tmp_cmds tmp_dir : Spec.preserves cmds (GitOps.cleanup_tmp tmp_dir).
Proof.
  unfold GitOps.cleanup_tmp, os_path_exists, shutil_rmtree_ignore. frame.
Qed.

(** The [finally] block never raises. *)
Lemma cleanup_tmp_returns tmp_dir w :
  fst (GitOps.cleanup_tmp tmp_dir w) = Val tt.
Proof.
  unfold GitOps.cleanup_tmp, os_path_exists, shutil_rmtree_ignore, fs_read, fs_update.
  rewrite bind_run. simpl. destruct (FS.exists_ (fs w) tmp_dir); reflexivity.
Qed.

(** So [_sparse_clone] returns what its [try] block returned, and logs
    what that block logged. *)
Lemma sparse_clone_result repo_url plugin_path plugin_id target_dir branch w :
  let body :=
    sparse_setup repo_url plugin_path (target_dir ++ "_tmp_clone");;
    pull_result ← pull_loop (target_dir ++ "_tmp_clone") (GitOps.branches_to_try branch) None;
    GitOps.after_pull plugin_path target_dir (target_dir ++ "_tmp_clone") pull_result in
  fst (_sparse_clone repo_url plugin_path plugin_id target_dir branch w) = fst (body w)
  /\ cmds (snd (_sparse_clone repo_url plugin_path plugin_id target_dir branch w))
     = cmds (snd (body w)).
Proof.
  intros body. unfold GitOps._sparse_clone, try_finally. fold body.
  destruct (body w) as [r w'].
  pose proof (cleanup_tmp_returns (target_dir ++ "_tmp_clone") w') as Hr.
  pose proof (cleanup_tmp_cmds (target_dir ++ "_tmp_clone") w') as Hc.
  destruct (GitOps.cleanup_tmp (target_dir ++ "_tmp_clone") w') as [[[]|e] w'']; simpl in *.
  - auto.
  - discriminate.
Qed.

(** A pull that exits non-zero, as the last one tried, is the error
    returned. *)
Lemma after_pull_failed plugin_path target_dir tmp_dir r w :
  returncode r <> 0 ->
  GitOps.after_pull plugin_path target_dir tmp_dir (Some r) w
  = (Val (GitOps.ok_false ("git pull failed: " ++ Py.strip (stderr r))), w).
Proof.
  intros H. unfold GitOps.after_pull.
  destruct (Z.eqb_spec (returncode r) 0); [contradiction | reflexivity].
Qed.

(** Whatever the pulls do, those logged are the first few of the branches
    to try, in that order. *)
Lemma pull_loop_log_prefix tmp_dir branches pull_result w :
  exists n,
    cmds (snd (pull_loop tmp_dir branches pull_result w))
    = (cmds w ++ (GitOps.pull_cmd tmp_dir <$> take n branches))%list.
Proof.
  revert pull_result w. induction branches as [|b rest IH]; intros pull_result w.
  - exists O. simpl. rewrite app_nil_r. reflexivity.
  - simpl. rewrite bind_run. unfold GitOps.subprocess_run.
    destruct (run_process (GitOps.pull_cmd tmp_dir b) (fs w)) as [[r|e] f'] eqn:E; simpl.
    + destruct (returncode r =? 0).
      * exists 1%nat. reflexivity.
      * destruct (IH (Some r)
          (with_fs (with_cmds w (cmds w ++ [GitOps.pull_cmd tmp_dir b])%list) f')) as [n Hn].
        exists (S n). rewrite Hn. simpl. rewrite <- app_assoc. reflexivity.
    + exists 1%nat. reflexivity.
Qed.

(** One turn of the loop whose pull ran to an exit code. *)
Lemma pull_loop_step tmp_dir b rest pull_result r f' w :
  run_process (GitOps.pull_cmd tmp_dir b) (fs w) = (Val r, f') ->
  pull_loop tmp_dir (b :: rest) pull_result w
  = let w' := with_fs (with_cmds w (cmds w ++ [GitOps.pull_cmd tmp_dir b])%list) f' in
    if returncode r =? 0 then (Val (Some r), w') else pull_loop tmp_dir rest (Some r) w'.
Proof.
  intros H. simpl. rewrite bind_run, (subprocess_run_returns _ _ _ _ H).
  destruct (returncode r =? 0); reflexivity.
Qed.

(** C4.  Once the staging repository is set up and the pulls themselves
    run to an exit code: with a branch given, that branch alone is pulled;
    with none, [main] is pulled and, only if that fails, [master]; and when
    the last pull tried has failed the reply is the one pull-failure error
    with that pull's diagnostic. *)
Theorem sparse_clone_branch_selection
    (repo_url plugin_path plugin_id target_dir branch : string) (w w1 : World) :
  let tmp_dir := target_dir ++ "_tmp_clone" in
  let pull := GitOps.pull_cmd tmp_dir in
  let out := _sparse_clone repo_url plugin_path plugin_id target_dir branch w in
  sparse_setup repo_url plugin_path tmp_dir w = (Val tt, w1) ->
  (forall b f, In b (GitOps.branches_to_try branch) ->
     exists r f', run_process (pull b) f = (Val r, f')) ->
  (Py.truthy branch = true ->
     exists r f1,
       run_process (pull branch) (fs w1) = (Val r, f1)
       /\ cmds (snd out) = (cmds w1 ++ [pull branch])%list
       /\ (returncode r <> 0 ->
           fst out = Val (GitOps.ok_false ("git pull failed: " ++ Py.strip (stderr r)))))
  /\ (Py.truthy branch = false ->
      exists r_main f1,
        run_process (pull "main") (fs w1) = (Val r_main, f1)
        /\ (returncode r_main = 0 -> cmds (snd out) = (cmds w1 ++ [pull "main"])%list)
        /\ (returncode r_main <> 0 ->
            exists r_master f2,
              run_process (pull "master") f1 = (Val r_master, f2)
              /\ cmds (snd out) = (cmds w1 ++ [pull "main"; pull "master"])%list
              /\ (returncode r_master <> 0 ->
                  fst out = Val (GitOps.ok_false
                                   ("git pull failed: " ++ Py.strip (stderr r_master)))))).
Proof.
  intros tmp_dir pull out Hsetup Hret.
  destruct (sparse_clone_result repo_url plugin_path plugin_id target_dir branch w)
    as [Hfst Hcmds].
  fold tmp_dir in Hfst, Hcmds. fold out in Hfst, Hcmds.
  rewrite Hfst, Hcmds. clear Hfst Hcmds out.
  rewrite bind_run, Hsetup. rewrite bind_run.
  unfold GitOps.branches_to_try in *.
  split; intros Hb; rewrite Hb in *.
  - destruct (Hret branch (fs w1)) as (r & f1 & Hr); [left; reflexivity|].
    exists r, f1. split; [exact Hr|].
    rewrite (pull_loop_step _ _ _ _ _ _ _ Hr). cbv zeta.
    assert (Hloop : forall w2, (if returncode r =? 0 then (Val (Some r), w2)
                     else pull_loop tmp_dir [] (Some r) w2) = (Val (Some r), w2))
      by (intros; destruct (returncode r =? 0); reflexivity).
    rewrite Hloop. split.
    + rewrite after_pull_cmds. reflexivity.
    + intros Hne. rewrite after_pull_failed by exact Hne. reflexivity.
  - destruct (Hret "main" (fs w1)) as (r & f1 & Hr); [left; reflexivity|].
    exists r, f1. split; [exact Hr|].
    rewrite (pull_loop_step _ _ _ _ _ _ _ Hr). cbv zeta.
    destruct (Z.eqb_spec (returncode r) 0) as [Hz|Hnz].
    + split; [|contradiction]. intros _. rewrite after_pull_cmds. reflexivity.
    + split; [contradiction|]. intros _.
      destruct (Hret "master" f1) as (r' & f2 & Hr'); [right; left; reflexivity|].
      exists r', f2. split; [exact Hr'|].
      rewrite (pull_loop_step _ _ _ _ r' f2) by exact Hr'. cbv zeta.
      assert (Hloop : forall w2, (if returncode r' =? 0 then (Val (Some r'), w2)
                     else pull_loop tmp_dir [] (Some r') w2) = (Val (Some r'), w2))
        by (intros; destruct (returncode r' =? 0); reflexivity).
      rewrite Hloop. split.
      * rewrite after_pull_cmds. simpl. rewrite <- app_assoc. reflexivity.
      * intros Hne. rewrite after_pull_failed by exact Hne. reflexivity.
Qed.

End sparse_branches.

(* ===================================================================== *)
(** ** The merged list *)
(* ===================================================================== *)

Section merged.

Variable files_exists : FS.t -> string -> bool.
Variable get_abs_path : list string -> string.
Variables USER_DIR PLUGINS_DIR DISABLED_FILE_NAME : string.

Local Abbreviation disabled_path :=
  (Registry.disabled_path get_abs_path USER_DIR PLUGINS_DIR DISABLED_FILE_NAME).
Local Abbreviation sentinel_status :=
  (Registry.sentinel_status files_exists get_abs_path USER_DIR PLUGINS_DIR DISABLED_FILE_NAME).
Local Abbreviation catalog_row :=
  (Registry.catalog_row files_exists get_abs_path USER_DIR PLUGINS_DIR DISABLED_FILE_NAME).
Local Abbreviation local_row :=
  (Registry.local_row files_exists get_abs_path USER_DIR PLUGINS_DIR DISABLED_FILE_NAME).
Local Abbreviation catalog_loop :=
  (Registry.catalog_loop files_exists get_abs_path USER_DIR PLUGINS_DIR DISABLED_FILE_NAME).
Local Abbreviation local_loop :=
  (Registry.local_loop files_exists get_abs_path USER_DIR PLUGINS_DIR DISABLED_FILE_NAME).
Local Abbreviation build_merged :=
  (Registry.build_merged files_exists get_abs_path USER_DIR PLUGINS_DIR DISABLED_FILE_NAME).
Local Abbreviation catalog_rows :=
  (Spec.catalog_rows files_exists get_abs_path USER_DIR PLUGINS_DIR DISABLED_FILE_NAME).
Local Abbreviation local_only_rows :=
  (Spec.local_only_rows files_exists get_abs_path USER_DIR PLUGINS_DIR DISABLED_FILE_NAME).

Lemma catalog_ids_length rps ids :
  Spec.catalog_ids rps = Some ids -> length rps = length ids.
Proof.
  unfold Spec.catalog_ids. intros H. apply mapM_Some in H.
  eapply Forall2_length; eauto.
Qed.

Lemma catalog_ids_cons rp rps :
  Spec.catalog_ids (rp :: rps)
  = match rp_id rp, Spec.catalog_ids rps with
    | Some pid, Some ids => Some (pid :: ids)
    | _, _ => None
    end.
Proof.
  unfold Spec.catalog_ids. simpl.
  destruct (rp_id rp); simpl; [|reflexivity].
  destruct (mapM rp_id rps); reflexivity.
Qed.

(** The first loop: it raises exactly when some entry has no id, and
    otherwise appends one row per entry and records every id. *)
Lemma catalog_loop_spec f stats by_name rps merged seen_ids :
  catalog_loop f stats by_name rps merged seen_ids
  = match Spec.catalog_ids rps with
    | Some ids =>
        Val ((merged ++ catalog_rows f stats by_name rps ids)%list,
             list_to_set ids ∪ seen_ids)
    | None => Exc (KeyError "id")
    end.
Proof.
  revert merged seen_ids. induction rps as [|rp rps IH]; intros merged seen_ids.
  - simpl. rewrite app_nil_r, (left_id_L ∅ (∪)). reflexivity.
  - rewrite catalog_ids_cons. simpl. destruct (rp_id rp) as [pid|]; [|reflexivity].
    rewrite IH. destruct (Spec.catalog_ids rps) as [ids|]; [|reflexivity].
    unfold Spec.catalog_rows. simpl. rewrite <- app_assoc. simpl.
    rewrite (assoc_L (∪) (list_to_set ids)), (comm_L (∪) (list_to_set ids)).
    reflexivity.
Qed.

(** The second loop appends a row for each local plugin not seen. *)
Lemma local_loop_spec f lps merged (seen_ids : gset string) :
  local_loop f lps merged seen_ids
  = (merged ++ (local_row f <$> filter (λ lp, Registry.lp_name lp ∉ seen_ids) lps))%list.
Proof.
  revert merged. induction lps as [|lp lps IH]; intros merged; simpl.
  - rewrite app_nil_r. reflexivity.
  - rewrite filter_cons. destruct (decide (Registry.lp_name lp ∉ seen_ids)) as [Hn|Hn].
    + rewrite bool_decide_eq_true_2 by exact Hn. rewrite IH, <- app_assoc. reflexivity.
    + rewrite bool_decide_eq_false_2 by exact Hn. apply IH.
Qed.

Lemma filter_not_seen (ids : list string) (lps : list Registry.LocalPlugin) :
  filter (λ lp, Registry.lp_name lp ∉ (list_to_set ids : gset string)) lps
  = filter (λ lp, Registry.lp_name lp ∉ ids) lps.
Proof.
  apply list_filter_iff. intros lp. rewrite elem_of_list_to_set. reflexivity.
Qed.

(** The merged list in closed form. *)
Lemma build_merged_spec f stats rps lps :
  build_merged f stats rps lps
  = match Spec.catalog_ids rps with
    | Some ids =>
        Val (catalog_rows f stats (Registry.local_by_name lps) rps ids
             ++ local_only_rows f ids lps)%list
    | None => Exc (KeyError "id")
    end.
Proof.
  unfold Registry.build_merged. rewrite catalog_loop_spec.
  destruct (Spec.catalog_ids rps) as [ids|]; [|reflexivity].
  rewrite local_loop_spec. simpl. unfold Spec.local_only_rows.
  rewrite union_empty_r_L, filter_not_seen. reflexivity.
Qed.

Lemma catalog_rows_ids f stats by_name rps ids :
  length rps = length ids ->
  Registry.row_id <$> catalog_rows f stats by_name rps ids = ids.
Proof.
  unfold Spec.catalog_rows. revert ids.
  induction rps as [|rp rps IH]; intros [|pid ids] Hlen; simpl in *; try lia; [reflexivity|].
  f_equal. apply IH. lia.
Qed.

Lemma local_only_rows_ids f ids lps :
  Registry.row_id <$> local_only_rows f ids lps
  = filter (λ n, n ∉ ids) (Registry.lp_name <$> lps).
Proof.
  unfold Spec.local_only_rows. induction lps as [|lp lps IH]; [reflexivity|].
  rewrite fmap_cons, !filter_cons.
  destruct (decide (Registry.lp_name lp ∉ ids)); [rewrite !fmap_cons; f_equal|]; exact IH.
Qed.

(** The dictionary comprehension knows exactly the local names. *)
Lemma local_by_name_is_Some lps n :
  is_Some (Registry.local_by_name lps !! n) <-> n ∈ Registry.lp_name <$> lps.
Proof.
  unfold Registry.local_by_name.
  assert (G : forall m : gmap string Registry.LocalPlugin, is_Some (fold_left (λ m p, <[Registry.lp_name p := p]> m) lps m !! n)
                <-> is_Some (m !! n) \/ n ∈ Registry.lp_name <$> lps).
  { induction lps as [|lp lps IH]; intros m; simpl.
    - rewrite elem_of_nil. tauto.
    - rewrite IH, elem_of_cons. destruct (decide (Registry.lp_name lp = n)) as [<-|Hne].
      + rewrite lookup_insert_eq. split; [intros [_|H]; auto | intros _; left; eauto].
      + rewrite lookup_insert_ne by exact Hne. split; intros [H|H]; auto.
        destruct H as [H|H]; [congruence | auto]. }
  rewrite G, lookup_empty. split; [intros [[x H]|H]; [discriminate | exact H] | auto].
Qed.

Lemma elem_of_catalog_rows f stats by_name rps ids r :
  r ∈ catalog_rows f stats by_name rps ids ->
  exists rp pid, r = catalog_row f stats by_name rp pid /\ rp ∈ rps /\ pid ∈ ids.
Proof. apply elem_of_zip_with. Qed.

Lemma elem_of_local_only_rows f ids lps r :
  r ∈ local_only_rows f ids lps <->
  exists lp, r = local_row f lp /\ lp ∈ lps /\ Registry.lp_name lp ∉ ids.
Proof.
  unfold Spec.local_only_rows. rewrite list_elem_of_fmap. split.
  - intros (lp & Hr & Hf). apply list_elem_of_filter in Hf as [Hn Hin]. eauto.
  - intros (lp & Hr & Hin & Hn). exists lp. split; [exact Hr|].
    apply list_elem_of_filter. auto.
Qed.

(** A catalogue row of a plugin that is present locally takes its status
    from the disabled marker. *)
Lemma catalog_row_status_local f stats lps rp pid :
  pid ∈ Registry.lp_name <$> lps ->
  Registry.row_status (catalog_row f stats (Registry.local_by_name lps) rp pid)
  = sentinel_status f pid.
Proof.
  intros Hin. apply local_by_name_is_Some in Hin as [l Hl].
  unfold Registry.catalog_row. simpl. rewrite Hl. reflexivity.
Qed.

(** A catalogue row of a plugin that is not present locally is
    [available]. *)
Lemma catalog_row_status_remote f stats lps rp pid :
  pid ∉ Registry.lp_name <$> lps ->
  Registry.row_status (catalog_row f stats (Registry.local_by_name lps) rp pid)
  = available.
Proof.
  intros Hin. unfold Registry.catalog_row. simpl.
  destruct (Registry.local_by_name lps !! pid) eqn:E; [|reflexivity].
  exfalso. apply Hin, local_by_name_is_Some. eauto.
Qed.

(** C2 (as amended).  For a catalogue whose entries carry pairwise distinct
    ids and local plugins of pairwise distinct names, the merged list is
    the catalogue rows in catalogue order followed by the rows of the
    plugins that are only local, in local order; it has exactly one row
    for each identifier of either list. *)
Theorem merged_view_one_row_per_id f stats rps lps ids :
  Spec.catalog_ids rps = Some ids ->
  NoDup ids ->
  NoDup (Registry.lp_name <$> lps) ->
  exists rows,
    build_merged f stats rps lps = Val rows
    /\ rows = (catalog_rows f stats (Registry.local_by_name lps) rps ids
               ++ local_only_rows f ids lps)%list
    /\ Registry.row_id <$> rows
       = (ids ++ filter (λ n, n ∉ ids) (Registry.lp_name <$> lps))%list
    /\ NoDup (Registry.row_id <$> rows)
    /\ (forall n, n ∈ Registry.row_id <$> rows <-> n ∈ ids \/ n ∈ Registry.lp_name <$> lps).
Proof.
  intros Hids Hnd Hndl. eexists. rewrite build_merged_spec, Hids.
  split; [reflexivity|]. split; [reflexivity|].
  assert (Hrows : Registry.row_id <$>
            (catalog_rows f stats (Registry.local_by_name lps) rps ids
             ++ local_only_rows f ids lps)%list
          = (ids ++ filter (λ n, n ∉ ids) (Registry.lp_name <$> lps))%list).
  { rewrite fmap_app, catalog_rows_ids, local_only_rows_ids
      by (apply catalog_ids_length; exact Hids). reflexivity. }
  split; [exact Hrows|]. rewrite Hrows. split.
  - apply NoDup_app. split; [exact Hnd|]. split.
    + intros n Hn Hf. apply list_elem_of_filter in Hf as [Hf _]. contradiction.
    + apply NoDup_filter. exact Hndl.
  - intros n. rewrite elem_of_app, list_elem_of_filter.
    destruct (decide (n ∈ ids)); tauto.
Qed.

(** Every row of a plugin that is only local has no install count, no
    source URL, no path and no branch entry at all; its status follows its
    own disabled marker. *)
Lemma local_only_row_fields f ids lps r :
  r ∈ local_only_rows f ids lps ->
  Registry.row_install_count r = 0
  /\ Registry.row_repo_url r = ""
  /\ Registry.row_plugin_path r = ""
  /\ Registry.row_branch r = None
  /\ Registry.row_status r = sentinel_status f (Registry.row_id r).
Proof.
  intros Hr. apply elem_of_local_only_rows in Hr as (lp & -> & _ & _).
  repeat split.
Qed.

(** Every catalogue row has a branch entry, the empty string when the
    catalogue gives none. *)
Lemma catalog_row_branch f stats by_name rp pid :
  Registry.row_branch (catalog_row f stats by_name rp pid)
  = Some (default "" (rp_branch rp)).
Proof. reflexivity. Qed.

(** Every local plugin has a row in the merged list. *)
Lemma local_plugin_has_row f stats rps lps rows lp :
  build_merged f stats rps lps = Val rows ->
  lp ∈ lps -> exists r, r ∈ rows /\ Registry.row_id r = Registry.lp_name lp.
Proof.
  rewrite build_merged_spec. destruct (Spec.catalog_ids rps) as [ids|] eqn:Hids; [|discriminate].
  intros [= <-] Hlp. destruct (decide (Registry.lp_name lp ∈ ids)) as [Hin|Hin].
  - rewrite <- (catalog_rows_ids f stats (Registry.local_by_name lps) rps ids) in Hin
      by (apply catalog_ids_length; exact Hids).
    apply list_elem_of_fmap in Hin as (r & Hr & Hin).
    exists r. split; [apply elem_of_app; left; exact Hin | symmetry; exact Hr].
  - exists (local_row f lp). split; [|reflexivity].
    apply elem_of_app. right. apply elem_of_local_only_rows. eauto.
Qed.

(** The status of a row of a local plugin follows the disabled marker. *)
Lemma local_plugin_row_status f stats rps lps rows r :
  build_merged f stats rps lps = Val rows ->
  r ∈ rows -> Registry.row_id r ∈ Registry.lp_name <$> lps ->
  Registry.row_status r
  = if files_exists f (disabled_path (Registry.row_id r)) then inactive else active.
Proof.
  rewrite build_merged_spec. destruct (Spec.catalog_ids rps) as [ids|] eqn:Hids; [|discriminate].
  intros [= <-] Hr Hloc. apply elem_of_app in Hr as [Hr|Hr].
  - apply elem_of_catalog_rows in Hr as (rp & pid & -> & _ & _).
    apply catalog_row_status_local. exact Hloc.
  - apply local_only_row_fields in Hr. apply Hr.
Qed.

(** Two file systems that agree on the disabled markers of the local
    plugins give the same merged list. *)
Lemma merged_reads_disabled_markers_only f f' stats rps lps :
  (forall lp, lp ∈ lps ->
     files_exists f' (disabled_path (Registry.lp_name lp))
     = files_exists f (disabled_path (Registry.lp_name lp))) ->
  build_merged f' stats rps lps = build_merged f stats rps lps.
Proof.
  intros Hagree. rewrite !build_merged_spec.
  destruct (Spec.catalog_ids rps) as [ids|]; [|reflexivity]. f_equal. f_equal.
  - unfold Spec.catalog_rows. apply zip_with_ext; [|reflexivity|reflexivity].
    intros rp pid. unfold Registry.catalog_row.
    destruct (Registry.local_by_name lps !! pid) as [l|] eqn:E; [|reflexivity].
    assert (Hin : pid ∈ Registry.lp_name <$> lps) by (apply local_by_name_is_Some; eauto).
    apply list_elem_of_fmap in Hin as (lp & -> & Hlp).
    unfold Registry.sentinel_status. rewrite (Hagree lp Hlp). reflexivity.
  - unfold Spec.local_only_rows. apply list_fmap_ext. intros i lp Hlp.
    apply list_elem_of_lookup_2, list_elem_of_filter in Hlp as [_ Hlp].
    unfold Registry.local_row, Registry.sentinel_status.
    rewrite (Hagree lp Hlp). reflexivity.
Qed.

(** C10.  In the merged list every local plugin has a row, and the status
    of a row of a local plugin is [inactive] exactly when its disabled
    marker exists and [active] otherwise.  Nothing else of the file system
    is consulted: a file system that agrees on the disabled markers of the
    local plugins gives the same list. *)
Theorem status_from_disabled_marker f f' stats rps lps rows :
  build_merged f stats rps lps = Val rows ->
  (forall lp, lp ∈ lps -> exists r, r ∈ rows /\ Registry.row_id r = Registry.lp_name lp)
  /\ (forall r, r ∈ rows -> Registry.row_id r ∈ Registry.lp_name <$> lps ->
        Registry.row_status r
        = if files_exists f (disabled_path (Registry.row_id r)) then inactive else active)
  /\ ((forall lp, lp ∈ lps ->
         files_exists f' (disabled_path (Registry.lp_name lp))
         = files_exists f (disabled_path (Registry.lp_name lp))) ->
      build_merged f' stats rps lps = Val rows).
Proof.
  intros Hb. split; [|split].
  - intros lp Hlp. exact (local_plugin_has_row f stats rps lps rows lp Hb Hlp).
  - intros r Hr Hloc. exact (local_plugin_row_status f stats rps lps rows r Hb Hr Hloc).
  - intros Hagree. rewrite (merged_reads_disabled_markers_only f f' stats rps lps Hagree).
    exact Hb.
Qed.

(** In particular a local plugin that was never toggled, and so has
    neither marker, is listed as [active]. *)
Corollary untoggled_plugin_is_active f stats rps lps rows r :
  build_merged f stats rps lps = Val rows ->
  r ∈ rows -> Registry.row_id r ∈ Registry.lp_name <$> lps ->
  files_exists f (disabled_path (Registry.row_id r)) = false ->
  Registry.row_status r = active.
Proof.
  intros Hb Hr Hloc Hno.
  rewrite (local_plugin_row_status f stats rps lps rows r Hb Hr Hloc), Hno. reflexivity.
Qed.

End merged.

(* ===================================================================== *)
(** ** The registry handler and its cache *)
(* ===================================================================== *)

Section registry_cache.

Variable now : Z.
Variable http_get : string -> Result Registry.HttpResponse.
Variable str_exn : exn -> string.
Variable get_enhanced_plugins_list : FS.t -> list Registry.LocalPlugin.
Variable files_exists : FS.t -> string -> bool.
Variable get_abs_path : list string -> string.
Variables USER_DIR PLUGINS_DIR DISABLED_FILE_NAME : string.

Local Abbreviation download := (Registry.download http_get).
Local Abbreviation fetch_registry := (Registry.fetch_registry now http_get str_exn).
Local Abbreviation fetch_stats := (Registry.fetch_stats now http_get).
Local Abbreviation build_merged :=
  (Registry.build_merged files_exists get_abs_path USER_DIR PLUGINS_DIR DISABLED_FILE_NAME).
Local Abbreviation respond :=
  (Registry.respond get_enhanced_plugins_list files_exists get_abs_path
     USER_DIR PLUGINS_DIR DISABLED_FILE_NAME).
Local Abbreviation process :=
  (Registry.process now http_get str_exn get_enhanced_plugins_list files_exists
     get_abs_path USER_DIR PLUGINS_DIR DISABLED_FILE_NAME).
Local Abbreviation download_result := (Spec.download_result http_get).
Local Abbreviation served :=
  (Spec.served get_enhanced_plugins_list files_exists get_abs_path
     USER_DIR PLUGINS_DIR DISABLED_FILE_NAME).

Lemma download_run url w :
  download url w = (download_result url, with_reqs w (reqs w ++ [url])%list).
Proof.
  unfold Registry.download, download_result, Registry.client_get,
    Registry.raise_for_status, Registry.lift.
  rewrite bind_run. destruct (http_get url) as [resp|e]; [|reflexivity].
  rewrite bind_run.
  destruct ((200 <=? Registry.status_code resp) && (Registry.status_code resp <=? 299));
    reflexivity.
Qed.

Lemma respond_run w :
  respond w = (served (data (cache w)) (stats (cache w)) (fs w), w).
Proof.
  unfold Registry.respond, served, Registry.get_cache, Registry.lift, fs_read.
  rewrite !bind_run.
  destruct (Registry.get_plugins (data (cache w))) as [rps|e]; [|reflexivity].
  rewrite !bind_run.
  destruct (build_merged (fs w) (stats (cache w)) rps (get_enhanced_plugins_list (fs w)));
    reflexivity.
Qed.

(** The stats block never raises and touches neither the catalogue, its
    timestamp nor the file system. *)
Lemma fetch_stats_frame w :
  exists w' more,
    fetch_stats w = (Val tt, w')
    /\ data (cache w') = data (cache w) /\ ts (cache w') = ts (cache w)
    /\ fs w' = fs w
    /\ reqs w' = (reqs w ++ more)%list
    /\ (more = [] \/ more = [Registry.STATS_URL]).
Proof.
  assert (Hnil : forall v : World, reqs v = (reqs v ++ [])%list)
    by (intros; rewrite app_nil_r; reflexivity).
  unfold Registry.fetch_stats, Registry.get_cache. rewrite bind_run.
  destruct (Py.truthy Registry.STATS_URL && Registry.stale now (stats_ts (cache w)));
    [|exists w, []; repeat split; auto].
  unfold try_except, Registry.client_get. rewrite bind_run.
  destruct (http_get Registry.STATS_URL) as [resp|e];
    [|eexists _, [Registry.STATS_URL]; repeat split; auto].
  destruct (Registry.status_code resp =? 200);
    [|eexists _, [Registry.STATS_URL]; repeat split; auto].
  unfold Registry.lift. rewrite bind_run.
  destruct (Registry.json resp) as [d|e];
    [|eexists _, [Registry.STATS_URL]; repeat split; auto].
  rewrite bind_run.
  destruct (Registry.get_counts d) as [counts|e];
    eexists _, [Registry.STATS_URL]; repeat split; auto.
Qed.

(** A fresh catalogue is served without a request for it. *)
Lemma fetch_registry_fresh w :
  Registry.is_none (data (cache w)) || Registry.stale now (ts (cache w)) = false ->
  fetch_registry w = (Val None, w).
Proof.
  intros H. unfold Registry.fetch_registry, Registry.get_cache.
  rewrite bind_run, H. reflexivity.
Qed.

(** What lines 20-30 do when the catalogue is missing or stale. *)
Lemma fetch_registry_stale w :
  Registry.is_none (data (cache w)) || Registry.stale now (ts (cache w)) = true ->
  fetch_registry w
  = let w1 := with_reqs w (reqs w ++ [Registry.REGISTRY_URL])%list in
    match download_result Registry.REGISTRY_URL with
    | Val d =>
        (Val None,
         with_cache w1 {| data := d; ts := now;
                          stats := stats (cache w); stats_ts := stats_ts (cache w) |})
    | Exc e =>
        if Registry.is_none (data (cache w))
        then (Val (Some (Registry.ok_false ("Failed to fetch registry: " ++ str_exn e))), w1)
        else (Val None, w1)
    end.
Proof.
  intros H. unfold Registry.fetch_registry, Registry.get_cache.
  rewrite bind_run, H. unfold try_except. rewrite bind_run, download_run.
  destruct (download_result Registry.REGISTRY_URL) as [d|e]; [reflexivity|].
  rewrite bind_run. simpl. destruct (Registry.is_none (data (cache w))); reflexivity.
Qed.

Lemma is_none_JNull d : Registry.is_none d = true <-> d = JNull.
Proof. destruct d; simpl; split; congruence. Qed.

(** The handler after lines 20-30 have let it through: the stats block,
    then the reply from whatever the cache now holds. *)
Lemma process_after_fetch w w2 :
  fetch_registry w = (Val None, w2) ->
  exists w3 more,
    process w = (served (data (cache w2)) (stats (cache w3)) (fs w2), w3)
    /\ data (cache w3) = data (cache w2) /\ ts (cache w3) = ts (cache w2)
    /\ fs w3 = fs w2
    /\ reqs w3 = (reqs w2 ++ more)%list
    /\ (more = [] \/ more = [Registry.STATS_URL]).
Proof.
  intros Hf. unfold Registry.process. rewrite bind_run, Hf, bind_run.
  destruct (fetch_stats_frame w2) as (w3 & more & Hs & Hd & Ht & Hfs & Hr & Hm).
  rewrite Hs, respond_run, Hd, Hfs. exists w3, more. repeat split; auto.
Qed.

(** C3.  With no cached catalogue, or one older than the five minutes, the
    handler requests the registry.  When the request succeeds the cache
    holds the new catalogue with the current time.  When it fails the
    handler returns an error exactly when there was no catalogue before;
    with one, catalogue and timestamp stay as they were and the reply is
    built from that catalogue. *)
Theorem stale_catalog_is_refetched (w : World) :
  let out := process w in
  data (cache w) = JNull \/ now - ts (cache w) > Registry.CACHE_TTL ->
  (exists more, reqs (snd out) = (reqs w ++ Registry.REGISTRY_URL :: more)%list)
  /\ (forall d, download_result Registry.REGISTRY_URL = Val d ->
        data (cache (snd out)) = d /\ ts (cache (snd out)) = now)
  /\ (forall e, download_result Registry.REGISTRY_URL = Exc e ->
        (data (cache w) = JNull ->
           fst out = Val (Registry.ok_false ("Failed to fetch registry: " ++ str_exn e)))
        /\ (data (cache w) <> JNull ->
            data (cache (snd out)) = data (cache w)
            /\ ts (cache (snd out)) = ts (cache w)
            /\ fst out = served (data (cache w)) (stats (cache (snd out))) (fs w))
        /\ ((exists msg, fst out = Val (Registry.ok_false msg)) <-> data (cache w) = JNull)).
Proof.
  intros out Hstale.
  assert (Hb : Registry.is_none (data (cache w)) || Registry.stale now (ts (cache w)) = true).
  { apply orb_true_iff. destruct Hstale as [H|H].
    - left. apply is_none_JNull. exact H.
    - right. unfold Registry.stale. apply Z.gtb_lt. lia. }
  pose proof (fetch_registry_stale w Hb) as Hf. cbv zeta in Hf.
  destruct (download_result Registry.REGISTRY_URL) as [d|e] eqn:Hd.
  - destruct (process_after_fetch _ _ Hf) as (w3 & more & Hp & Hdat & Hts & Hfs & Hr & _).
    subst out. rewrite Hp. simpl in *. split; [|split].
    + exists more. rewrite Hr, <- app_assoc. reflexivity.
    + intros d' [= <-]. rewrite Hdat, Hts. auto.
    + intros e [=].
  - destruct (Registry.is_none (data (cache w))) eqn:Hn.
    + apply is_none_JNull in Hn.
      assert (Hp : process w
                   = (Val (Registry.ok_false ("Failed to fetch registry: " ++ str_exn e)),
                      with_reqs w (reqs w ++ [Registry.REGISTRY_URL])%list)).
      { unfold Registry.process. rewrite bind_run, Hf. reflexivity. }
      subst out. rewrite Hp. simpl. split; [|split].
      * exists []. reflexivity.
      * intros d [=].
      * intros e' [= <-]. split; [auto|]. split; [congruence|].
        split; [auto | intros _; eauto].
    + assert (Hnn : data (cache w) <> JNull).
      { intros H. apply is_none_JNull in H. congruence. }
      destruct (process_after_fetch _ _ Hf) as (w3 & more & Hp & Hdat & Hts & Hfs & Hr & _).
      subst out. rewrite Hp. simpl in *. split; [|split].
      * exists more. rewrite Hr, <- app_assoc. reflexivity.
      * intros d [=].
      * intros e' _. split; [congruence|]. split; [auto|].
        split; [|congruence]. intros [msg Hmsg]. exfalso.
        unfold Spec.served in Hmsg.
        destruct (Registry.get_plugins (data (cache w))); [|discriminate].
        destruct (build_merged _ _ _ _); discriminate.
Qed.

(** X22.  A catalogue still within its five minutes is served without a request
    for it. *)
Lemma fresh_catalog_is_served (w : World) :
  data (cache w) <> JNull -> now - ts (cache w) <= Registry.CACHE_TTL ->
  exists w3 more,
    process w = (served (data (cache w)) (stats (cache w3)) (fs w), w3)
    /\ data (cache w3) = data (cache w) /\ ts (cache w3) = ts (cache w)
    /\ reqs w3 = (reqs w ++ more)%list
    /\ Registry.REGISTRY_URL ∉ more.
Proof.
  intros Hd Ht.
  assert (Hb : Registry.is_none (data (cache w)) || Registry.stale now (ts (cache w)) = false).
  { apply orb_false_iff. split.
    - destruct (Registry.is_none (data (cache w))) eqn:E; [|reflexivity].
      apply is_none_JNull in E. contradiction.
    - unfold Registry.stale. rewrite Z.gtb_ltb. apply Z.ltb_ge. lia. }
  destruct (process_after_fetch _ _ (fetch_registry_fresh w Hb))
    as (w3 & more & Hp & Hdat & Hts & Hfs & Hr & Hm).
  exists w3, more. repeat split; auto.
  destruct Hm as [-> | ->].
  - apply not_elem_of_nil.
  - intros H. apply list_elem_of_singleton in H. vm_compute in H. discriminate.
Qed.

(** Every list the handler returns is the merged list of the cached
    catalogue and the local plugins on the file system of the call. *)
Lemma process_rows (w w' : World) (rows : list Registry.Row) :
  process w = (Val (Registry.ok_plugins rows), w') ->
  fs w' = fs w
  /\ exists rps,
       Registry.get_plugins (data (cache w')) = Val rps
       /\ build_merged (fs w) (stats (cache w')) rps (get_enhanced_plugins_list (fs w))
          = Val rows.
Proof.
  unfold Registry.process. rewrite bind_run.
  destruct (fetch_registry w) as [[early|e] w2] eqn:Hf; [|discriminate].
  assert (Hfs : fs w2 = fs w).
  { destruct (Registry.is_none (data (cache w)) || Registry.stale now (ts (cache w))) eqn:Hb.
    - rewrite (fetch_registry_stale w Hb) in Hf. cbv zeta in Hf.
      destruct (download_result Registry.REGISTRY_URL);
        [|destruct (Registry.is_none (data (cache w)))]; injection Hf as _ <-; reflexivity.
    - rewrite (fetch_registry_fresh w Hb) in Hf. injection Hf as _ <-. reflexivity. }
  destruct early as [r|].
  - intros [= -> <-].
    destruct (Registry.is_none (data (cache w)) || Registry.stale now (ts (cache w))) eqn:Hb.
    + rewrite (fetch_registry_stale w Hb) in Hf. cbv zeta in Hf.
      destruct (download_result Registry.REGISTRY_URL);
        [|destruct (Registry.is_none (data (cache w)))]; discriminate.
    + rewrite (fetch_registry_fresh w Hb) in Hf. discriminate.
  - rewrite bind_run.
    destruct (fetch_stats_frame w2) as (w3 & more & Hs & Hd & Ht & Hfs3 & Hr & _).
    rewrite Hs, respond_run. intros [= Hserved <-].
    split; [congruence|]. unfold Spec.served in Hserved.
    destruct (Registry.get_plugins (data (cache w3))) as [rps|]; [|discriminate].
    exists rps. split; [reflexivity|]. rewrite Hfs3, Hfs in Hserved.
    destruct (build_merged _ _ _ _); [|discriminate].
    injection Hserved as ->. reflexivity.
Qed.

End registry_cache.

(* ===================================================================== *)
(** ** The file-system primitives *)
(* ===================================================================== *)

Lemma node_nonroot (f : FS.t) (k : list string) : k <> [] -> FS.node f k = f !! k.
Proof. destruct k; [contradiction | reflexivity]. Qed.

Lemma resolve_nonroot_truthy p : FS.resolve p <> [] -> Py.truthy p = true.
Proof. destruct p; [intros H; exfalso; apply H; reflexivity | reflexivity]. Qed.

Lemma remove_ok f p f' :
  FS.remove f p = (Val tt, f') ->
  FS.resolve p <> [] /\ f' = delete (FS.resolve p) f.
Proof.
  unfold FS.remove. destruct (FS.resolve p) as [|c k] eqn:E; [discriminate|].
  destruct (f !! (c :: k)) as [[text|]|]; intros [=]. subst. split; [discriminate|reflexivity].
Qed.

Lemma write_file_ok f p text f' :
  FS.write_file f p text = (Val tt, f') ->
  FS.resolve p <> [] /\ f' = <[FS.resolve p := FS.File text]> f.
Proof.
  unfold FS.write_file. destruct (FS.resolve p) as [|c k] eqn:E; [discriminate|].
  destruct (FS.node f (removelast (c :: k))) as [[t|]|]; [discriminate| |discriminate].
  destruct (FS.node f (c :: k)) as [[t|]|]; intros [=]; subst;
    (split; [discriminate|reflexivity]).
Qed.

(** Existence of [p] is untouched by a change at another key. *)
Lemma exists_insert_other f k v p :
  FS.resolve p <> k -> FS.exists_ (<[k := v]> f) p = FS.exists_ f p.
Proof.
  intros Hne. unfold FS.exists_, FS.node.
  destruct (FS.resolve p) as [|c q] eqn:E; [reflexivity|].
  rewrite lookup_insert_ne by congruence. reflexivity.
Qed.

Lemma exists_insert_same f p v :
  FS.resolve p <> [] -> FS.exists_ (<[FS.resolve p := v]> f) p = true.
Proof.
  intros Hne. unfold FS.exists_. rewrite (resolve_nonroot_truthy p Hne).
  rewrite node_nonroot, lookup_insert_eq by exact Hne.
  apply bool_decide_eq_true. eauto.
Qed.

Lemma exists_delete_same f p :
  FS.resolve p <> [] -> FS.exists_ (delete (FS.resolve p) f) p = false.
Proof.
  intros Hne. unfold FS.exists_. rewrite node_nonroot, lookup_delete_eq by exact Hne.
  rewrite andb_false_iff. right. apply bool_decide_eq_false. intros [x Hx]. discriminate.
Qed.

(* ===================================================================== *)
(** ** The toggle handler and the list after it *)
(* ===================================================================== *)

Section toggle_markers.

Variable get_abs_path : list string -> string.
Variable find_plugin_dir : FS.t -> string -> option string.
Variables USER_DIR PLUGINS_DIR DISABLED_FILE_NAME ENABLED_FILE_NAME : string.

Local Abbreviation toggle := (Toggle.process get_abs_path find_plugin_dir
  USER_DIR PLUGINS_DIR DISABLED_FILE_NAME ENABLED_FILE_NAME).
Local Abbreviation enabled_marker :=
  (Toggle.enabled_path get_abs_path USER_DIR PLUGINS_DIR ENABLED_FILE_NAME).
Local Abbreviation disabled_marker :=
  (Toggle.disabled_path get_abs_path USER_DIR PLUGINS_DIR DISABLED_FILE_NAME).

(** Removing marker [a] if it is there and then writing marker [b], two
    different files: afterwards [a] is gone and [b] is there. *)
Lemma swap_markers (a b : string) (w w' : World) :
  FS.resolve a <> FS.resolve b ->
  (Toggle.remove_if_exists a;; write_file b "") w = (Val tt, w') ->
  FS.exists_ (fs w') a = false /\ FS.exists_ (fs w') b = true.
Proof.
  intros Hne. rewrite bind_run. unfold Toggle.remove_if_exists, os_path_exists, fs_read.
  rewrite bind_run.
  assert (Hgone : forall w1, (if FS.exists_ (fs w) a then os_remove a else mret tt) w
                             = (Val tt, w1) -> FS.exists_ (fs w1) a = false).
  { intros w1. destruct (FS.exists_ (fs w) a) eqn:Ex.
    - unfold os_remove, fs_try. destruct (FS.remove (fs w) a) as [r f1] eqn:Hr.
      intros [= -> <-]. apply remove_ok in Hr as [Hk ->]. simpl.
      apply exists_delete_same. exact Hk.
    - intros [= <-]. exact Ex. }
  destruct ((if FS.exists_ (fs w) a then os_remove a else mret tt) w) as [[[]|e] w1] eqn:H1;
    [|discriminate].
  specialize (Hgone w1 eq_refl).
  unfold write_file, fs_try. destruct (FS.write_file (fs w1) b "") as [r f2] eqn:Hw.
  intros [= -> <-]. apply write_file_ok in Hw as [Hk ->]. simpl. split.
  - rewrite exists_insert_other by exact Hne. exact Hgone.
  - apply exists_insert_same. exact Hk.
Qed.

(** A toggle that completes leaves exactly the marker asked for. *)
Lemma toggle_markers plugin_id enabled status (w w' : World) :
  FS.resolve (enabled_marker plugin_id) <> FS.resolve (disabled_marker plugin_id) ->
  toggle plugin_id enabled w = (Val (Toggle.ok_status status), w') ->
  FS.exists_ (fs w') (enabled_marker plugin_id) = enabled
  /\ FS.exists_ (fs w') (disabled_marker plugin_id) = negb enabled
  /\ status = (if enabled then active else inactive).
Proof.
  intros Hne. unfold Toggle.process.
  destruct (negb (Py.truthy plugin_id)); [discriminate|].
  rewrite bind_run. unfold fs_read at 1.
  destruct (negb (from_option Py.truthy false (find_plugin_dir (fs w) plugin_id)));
    [discriminate|].
  rewrite bind_run.
  destruct (os_makedirs _ w) as [[[]|e] w1]; [|discriminate].
  rewrite bind_run. fold (enabled_marker plugin_id) (disabled_marker plugin_id).
  destruct enabled.
  - destruct ((Toggle.remove_if_exists (disabled_marker plugin_id);;
               write_file (enabled_marker plugin_id) "") w1) as [[[]|e] w2] eqn:Hs;
      [|discriminate].
    intros [= <- <-]. apply swap_markers in Hs as [Ha Hb]; [auto | congruence].
  - destruct ((Toggle.remove_if_exists (enabled_marker plugin_id);;
               write_file (disabled_marker plugin_id) "") w1) as [[[]|e] w2] eqn:Hs;
      [|discriminate].
    intros [= <- <-]. apply swap_markers in Hs as [Ha Hb]; [auto | exact Hne].
Qed.

End toggle_markers.

Section toggle_then_list.

Variable now : Z.
Variable http_get : string -> Result Registry.HttpResponse.
Variable str_exn : exn -> string.
Variable get_enhanced_plugins_list : FS.t -> list Registry.LocalPlugin.
Variable files_exists : FS.t -> string -> bool.
Variable get_abs_path : list string -> string.
Variable find_plugin_dir : FS.t -> string -> option string.
Variables USER_DIR PLUGINS_DIR DISABLED_FILE_NAME ENABLED_FILE_NAME : string.

(** What the framework's helpers are taken to do: [files.get_abs_path]
    joins its arguments one after the other, and [files.exists] of a path
    it built is [os.path.exists] of that path. *)
Hypothesis get_abs_path_joins :
  forall ps x, get_abs_path (ps ++ [x])%list = Py.join2 (get_abs_path ps) x.
Hypothesis files_exists_abs :
  forall f ps, files_exists f (get_abs_path ps) = FS.exists_ f (get_abs_path ps).

Local Abbreviation toggle := (Toggle.process get_abs_path find_plugin_dir
  USER_DIR PLUGINS_DIR DISABLED_FILE_NAME ENABLED_FILE_NAME).
Local Abbreviation enabled_marker :=
  (Toggle.enabled_path get_abs_path USER_DIR PLUGINS_DIR ENABLED_FILE_NAME).
Local Abbreviation disabled_marker :=
  (Toggle.disabled_path get_abs_path USER_DIR PLUGINS_DIR DISABLED_FILE_NAME).
Local Abbreviation registry :=
  (Registry.process now http_get str_exn get_enhanced_plugins_list files_exists
     get_abs_path USER_DIR PLUGINS_DIR DISABLED_FILE_NAME).

(** The registry handler looks at the file the toggle handler writes. *)
Lemma same_disabled_marker plugin_id :
  Registry.disabled_path get_abs_path USER_DIR PLUGINS_DIR DISABLED_FILE_NAME plugin_id
  = disabled_marker plugin_id.
Proof.
  unfold Registry.disabled_path, Toggle.disabled_path, Toggle.usr_plugin_dir.
  apply (get_abs_path_joins [USER_DIR; PLUGINS_DIR; plugin_id]).
Qed.

(** C7.  After a toggle that completes, the marker asked for is there and
    the opposite one is not, so the two are never both present; and the
    list the registry handler then returns has the plugin, when it is
    among the local ones, as [active] after enabling and [inactive] after
    disabling. *)
Theorem toggle_then_reconcile plugin_id enabled status (w w' : World) :
  FS.resolve (enabled_marker plugin_id) <> FS.resolve (disabled_marker plugin_id) ->
  toggle plugin_id enabled w = (Val (Toggle.ok_status status), w') ->
  FS.exists_ (fs w') (enabled_marker plugin_id) = enabled
  /\ FS.exists_ (fs w') (disabled_marker plugin_id) = negb enabled
  /\ FS.exists_ (fs w') (enabled_marker plugin_id)
     && FS.exists_ (fs w') (disabled_marker plugin_id) = false
  /\ status = (if enabled then active else inactive)
  /\ (forall w'' rows,
        registry w' = (Val (Registry.ok_plugins rows), w'') ->
        plugin_id ∈ Registry.lp_name <$> get_enhanced_plugins_list (fs w') ->
        (exists r, r ∈ rows /\ Registry.row_id r = plugin_id)
        /\ (forall r, r ∈ rows -> Registry.row_id r = plugin_id ->
              Registry.row_status r = if enabled then active else inactive)).
Proof.
  intros Hne Ht.
  destruct (toggle_markers get_abs_path find_plugin_dir USER_DIR PLUGINS_DIR
              DISABLED_FILE_NAME ENABLED_FILE_NAME plugin_id enabled status w w' Hne Ht)
    as (He & Hd & Hs).
  split; [exact He|]. split; [exact Hd|].
  split; [rewrite He, Hd; apply andb_negb_r|]. split; [exact Hs|].
  intros w'' rows Hp Hloc.
  apply process_rows in Hp as (_ & rps & _ & Hb).
  split.
  - apply list_elem_of_fmap in Hloc as (lp & -> & Hlp).
    exact (local_plugin_has_row _ _ _ _ _ _ _ _ _ _ _ Hb Hlp).
  - intros r Hr Hid.
    rewrite (local_plugin_row_status _ _ _ _ _ _ _ _ _ _ _ Hb Hr)
      by (rewrite Hid; exact Hloc).
    rewrite Hid. unfold Registry.disabled_path in *.
    change [USER_DIR; PLUGINS_DIR; plugin_id; DISABLED_FILE_NAME]
      with ([USER_DIR; PLUGINS_DIR; plugin_id] ++ [DISABLED_FILE_NAME])%list.
    rewrite files_exists_abs, get_abs_path_joins.
    fold (Toggle.usr_plugin_dir get_abs_path USER_DIR PLUGINS_DIR plugin_id).
    fold (disabled_marker plugin_id). rewrite Hd.
    destruct enabled; reflexivity.
Qed.

End toggle_then_list.

(* ===================================================================== *)
(** ** [clone_plugin]: what is left behind on failure *)
(* ===================================================================== *)

Lemma isdir_exists f p : FS.isdir f p = true -> FS.exists_ f p = true.
Proof.
  unfold FS.isdir, FS.exists_. intros H. apply andb_true_iff in H as [Ht Hd].
  apply bool_decide_eq_true in Hd. rewrite Ht, Hd.
  apply andb_true_iff. split; [reflexivity|]. apply bool_decide_eq_true. eauto.
Qed.

Lemma prune_lookup_Some k f k' v :
  FS.prune k f !! k' = Some v <-> f !! k' = Some v /\ ~ FS.under k k'.
Proof. unfold FS.prune. rewrite map_lookup_filter_Some. reflexivity. Qed.

(** After [shutil.rmtree(p, ignore_errors=True)] there is no directory at
    [p], unless [p] is the root. *)
Lemma rmtree_ignore_no_dir f p :
  FS.resolve p <> [] -> FS.isdir (FS.rmtree_ignore f p) p = false.
Proof.
  intros Hk. unfold FS.isdir, FS.rmtree_ignore. rewrite andb_false_iff. right.
  apply bool_decide_eq_false. rewrite !node_nonroot by exact Hk.
  destruct (f !! FS.resolve p) as [[t|]|] eqn:E; rewrite ?E; try discriminate.
  intros H. apply prune_lookup_Some in H as [_ H]. apply H. reflexivity.
Qed.

(** ... and it creates no directory anywhere. *)
Lemma rmtree_ignore_keeps_no_dir f q p :
  FS.isdir f p = false -> FS.isdir (FS.rmtree_ignore f q) p = false.
Proof.
  unfold FS.isdir. destruct (Py.truthy p); [simpl|reflexivity].
  intros H. apply bool_decide_eq_false in H. apply bool_decide_eq_false.
  intros H'. apply H. unfold FS.rmtree_ignore in H'.
  destruct (FS.node f (FS.resolve q)) as [[t|]|]; try exact H'.
  unfold FS.node in *. destruct (FS.resolve p); [reflexivity|].
  apply prune_lookup_Some in H' as [H' _]. exact H'.
Qed.

(** A bind that returns a value has run both its parts. *)
Lemma bind_val {A B} (m : M A) (k : A -> M B) w b w' :
  (m ≫= k) w = (Val b, w') ->
  exists a w1, m w = (Val a, w1) /\ k a w1 = (Val b, w').
Proof.
  rewrite bind_run. destruct (m w) as [[a|e] w1]; [eauto | discriminate].
Qed.

Section cleanup.

Variable run_process : list string -> FS.t -> Result CompletedProcess * FS.t.
Variable str_exn : exn -> string.
Variable get_abs_path : list string -> string.

Local Abbreviation USR_PLUGINS_DIR := (GitOps.USR_PLUGINS_DIR get_abs_path).
Local Abbreviation clone_plugin := (GitOps.clone_plugin run_process str_exn get_abs_path).
Local Abbreviation _full_clone := (GitOps._full_clone run_process).
Local Abbreviation _sparse_clone := (GitOps._sparse_clone run_process).

(** A full clone that fails the manifest check has removed the target. *)
Lemma full_clone_manifest_missing repo_url target_dir branch r w w' :
  FS.resolve target_dir <> [] ->
  _full_clone repo_url target_dir branch w = (Val r, w') ->
  Spec.manifest_missing r ->
  FS.isdir (fs w') target_dir = false.
Proof.
  intros Hk Hrun Hr. unfold GitOps._full_clone in Hrun.
  apply bind_val in Hrun as (res & w1 & _ & Hrun).
  destruct (negb (returncode res =? 0)).
  { injection Hrun as <- _. destruct Hr as [Hr|Hr]; simpl in Hr; discriminate. }
  apply bind_val in Hrun as (ex & w2 & _ & Hrun).
  apply bind_val in Hrun as ([] & w3 & _ & Hrun).
  apply bind_val in Hrun as (ok & w4 & _ & Hrun).
  destruct (negb ok).
  - apply bind_val in Hrun as ([] & w5 & Hrm & Hrun).
    injection Hrun as _ <-. injection Hrm as <-. simpl.
    apply rmtree_ignore_no_dir. exact Hk.
  - injection Hrun as <- _. destruct Hr; discriminate.
Qed.

(** So has a sparse clone. *)
Lemma sparse_clone_manifest_missing repo_url plugin_path plugin_id target_dir branch r w w' :
  FS.resolve target_dir <> [] ->
  _sparse_clone repo_url plugin_path plugin_id target_dir branch w = (Val r, w') ->
  Spec.manifest_missing r ->
  FS.isdir (fs w') target_dir = false.
Proof.
  intros Hk Hrun Hr. unfold GitOps._sparse_clone, try_finally in Hrun.
  destruct ((GitOps.sparse_setup _ _ _ _;; _) w) as [r0 w1] eqn:Hbody.
  assert (Hclean : exists f, GitOps.cleanup_tmp (target_dir ++ "_tmp_clone") w1
                     = (Val tt, with_fs w1 f)
                     /\ (FS.isdir (fs w1) target_dir = false -> FS.isdir f target_dir = false)).
  { unfold GitOps.cleanup_tmp, os_path_exists, fs_read, shutil_rmtree_ignore, fs_update.
    rewrite bind_run. destruct (FS.exists_ (fs w1) _).
    - eexists. split; [reflexivity|]. apply rmtree_ignore_keeps_no_dir.
    - exists (fs w1). split; [destruct w1; reflexivity | auto]. }
  destruct Hclean as (f & Hc & Hkeep). rewrite Hc in Hrun.
  injection Hrun as -> <-. simpl. apply Hkeep. clear Hkeep Hc f.
  apply bind_val in Hbody as ([] & w2 & _ & Hbody).
  apply bind_val in Hbody as (pr & w3 & _ & Hbody).
  unfold GitOps.after_pull in Hbody. destruct pr as [res|].
  2:{ injection Hbody as <- _. destruct Hr; discriminate. }
  destruct (negb (returncode res =? 0)).
  { injection Hbody as <- _. destruct Hr as [Hr|Hr]; simpl in Hr; discriminate. }
  unfold GitOps.sparse_install in Hbody.
  apply bind_val in Hbody as (isd & w4 & _ & Hbody).
  destruct (negb isd).
  { injection Hbody as <- _. destruct Hr as [Hr|Hr]; simpl in Hr; discriminate. }
  apply bind_val in Hbody as ([] & w5 & _ & Hbody).
  apply bind_val in Hbody as (ok & w6 & _ & Hbody).
  destruct (negb ok).
  - apply bind_val in Hbody as ([] & w7 & Hrm & Hbody).
    injection Hbody as _ <-. injection Hrm as <-. simpl.
    apply rmtree_ignore_no_dir. exact Hk.
  - injection Hbody as <- _. destruct Hr; discriminate.
Qed.

(** The [except] block of [clone_plugin] leaves no directory at the
    target. *)
Lemma handler_removes_target target_dir e w :
  FS.resolve target_dir <> [] ->
  exists w',
    (ex ← os_path_exists target_dir;
     (if ex : bool then shutil_rmtree_ignore target_dir else mret tt);;
     mret (GitOps.ok_false (str_exn e))) w
    = (Val (GitOps.ok_false (str_exn e)), w')
    /\ FS.isdir (fs w') target_dir = false.
Proof.
  intros Hk. unfold os_path_exists, fs_read, shutil_rmtree_ignore, fs_update.
  rewrite bind_run. destruct (FS.exists_ (fs w) target_dir) eqn:Ex.
  - eexists. split; [reflexivity|]. simpl. apply rmtree_ignore_no_dir. exact Hk.
  - exists w. split; [reflexivity|].
    destruct (FS.isdir (fs w) target_dir) eqn:Ed; [|reflexivity].
    apply isdir_exists in Ed. congruence.
Qed.

(** X7.  [clone_plugin] on the failures it cleans up after: any exception of
    the chosen strategy (a timeout, a failed set-up command, an error of
    the file system) and a missing manifest after either kind of clone.
    After each of them no directory is left at [usr/plugins/<plugin_id>]. *)
Lemma clone_plugin_cleans_up repo_url plugin_path plugin_id branch w w0 :
  let target_dir := Py.join2 USR_PLUGINS_DIR plugin_id in
  let strategy :=
    if Py.truthy plugin_path && negb (String.eqb plugin_path ".")
    then _sparse_clone (GitOps._clean_github_url repo_url) plugin_path plugin_id
           target_dir branch
    else _full_clone (GitOps._clean_github_url repo_url) target_dir branch in
  FS.exists_ (fs w) target_dir = false ->
  FS.resolve target_dir <> [] ->
  os_makedirs USR_PLUGINS_DIR w = (Val tt, w0) ->
  (forall e w1, strategy w0 = (Exc e, w1) ->
     exists w', clone_plugin repo_url plugin_path plugin_id branch w
                = (Val (GitOps.ok_false (str_exn e)), w')
                /\ FS.isdir (fs w') target_dir = false)
  /\ (forall r w1, strategy w0 = (Val r, w1) ->
        clone_plugin repo_url plugin_path plugin_id branch w = (Val r, w1)
        /\ (Spec.manifest_missing r -> FS.isdir (fs w1) target_dir = false)).
Proof.
  intros target_dir strategy Hex Hk Hmk.
  assert (Hrun : clone_plugin repo_url plugin_path plugin_id branch w
                 = try_except strategy
                     (λ e, ex ← os_path_exists target_dir;
                           (if ex : bool then shutil_rmtree_ignore target_dir else mret tt);;
                           mret (GitOps.ok_false (str_exn e))) w0).
  { unfold GitOps.clone_plugin. fold target_dir. rewrite bind_run.
    unfold os_path_exists at 1, fs_read at 1. rewrite Hex, bind_run, Hmk. reflexivity. }
  rewrite Hrun. unfold try_except. split.
  - intros e w1 Hs. rewrite Hs. apply handler_removes_target. exact Hk.
  - intros r w1 Hs. rewrite Hs. split; [reflexivity|]. intros Hr.
    unfold strategy in Hs.
    destruct (Py.truthy plugin_path && negb (String.eqb plugin_path ".")).
    + eapply sparse_clone_manifest_missing; eauto.
    + eapply full_clone_manifest_missing; eauto.
Qed.

End cleanup.

(** [os.makedirs] makes directories on the way to its path and nowhere
    else. *)
Lemma mkdirs_from_dir (done todo : list string) (f f' : FS.t) (k : list string) :
  FS.mkdirs_from done todo f = Some f' ->
  f' !! k = Some FS.Dir ->
  f !! k = Some FS.Dir \/ k `prefix_of` (done ++ todo)%list.
Proof.
  revert done f. induction todo as [|c rest IH]; intros done f; simpl.
  - intros [= ->]. auto.
  - intros Hm Hk.
    assert (Hstep : forall g, FS.mkdirs_from (done ++ [c])%list rest g = Some f' ->
              g !! k = Some FS.Dir \/ k `prefix_of` (done ++ c :: rest)%list).
    { intros g Hg. destruct (IH _ _ Hg Hk) as [H|H]; [auto|].
      right. rewrite <- app_assoc in H. exact H. }
    destruct (f !! (done ++ [c])%list) as [[t|]|] eqn:E; [discriminate|auto|].
    destruct (Hstep _ Hm) as [H|H]; [|auto].
    destruct (decide (k = (done ++ [c])%list)) as [->|Hne].
    + right. exists rest. rewrite <- app_assoc. reflexivity.
    + rewrite lookup_insert_ne in H by congruence. auto.
Qed.

Lemma makedirs_no_dir f p q :
  ~ FS.under (FS.resolve q) (FS.resolve p) ->
  FS.isdir f q = false -> FS.isdir (snd (FS.makedirs f p)) q = false.
Proof.
  intros Hnu Hq. unfold FS.makedirs.
  destruct (FS.mkdirs_from [] (FS.resolve p) f) as [f'|] eqn:E; [simpl|exact Hq].
  unfold FS.isdir in *. destruct (Py.truthy q); [simpl in *|reflexivity].
  apply bool_decide_eq_false in Hq. apply bool_decide_eq_false. intros H. apply Hq.
  unfold FS.node in *. destruct (FS.resolve q) as [|c k] eqn:Eq; [reflexivity|].
  destruct (mkdirs_from_dir _ _ _ _ _ E H) as [H'|H']; [exact H'|].
  exfalso. apply Hnu. exact H'.
Qed.

Lemma write_file_no_dir f p text q :
  FS.isdir f q = false -> FS.isdir (snd (FS.write_file f p text)) q = false.
Proof.
  intros Hq. destruct (FS.write_file f p text) as [[[]|e] f'] eqn:E.
  - apply write_file_ok in E as [Hk ->]. simpl.
    unfold FS.isdir in *. destruct (Py.truthy q); [simpl in *|reflexivity].
    apply bool_decide_eq_false in Hq. apply bool_decide_eq_false. intros H. apply Hq.
    unfold FS.node in *. destruct (FS.resolve q) as [|c k] eqn:Eq; [reflexivity|].
    destruct (decide (FS.resolve p = c :: k)) as [Heq|Hne].
    + rewrite Heq, lookup_insert_eq in H. discriminate.
    + rewrite lookup_insert_ne in H by exact Hne. exact H.
  - assert (f' = f) as ->; [|exact Hq].
    unfold FS.write_file in E. destruct (FS.resolve p) as [|c k]; [congruence|].
    destruct (FS.node f (removelast (c :: k))) as [[t|]|]; try congruence.
    destruct (FS.node f (c :: k)) as [[t|]|]; congruence.
Qed.


(* ===================================================================== *)
(** ** [_sparse_clone]: nothing is left at the target on failure *)
(* ===================================================================== *)

Lemma invariant_ret {A} (P : World -> Prop) (a : A) : Spec.invariant P (mret a).
Proof. intros w H. exact H. Qed.

Lemma invariant_bind {A B} (P : World -> Prop) (m : M A) (k : A -> M B) :
  Spec.invariant P m -> (forall a, Spec.invariant P (k a)) -> Spec.invariant P (m ≫= k).
Proof.
  intros Hm Hk w H. rewrite bind_run. specialize (Hm w H).
  destruct (m w) as [[a|e] w1]; simpl in *; [apply Hk|]; exact Hm.
Qed.

Lemma move_fails_unchanged f src dst e f' :
  FS.move f src dst = (Exc e, f') -> f' = f.
Proof.
  unfold FS.move.
  destruct (FS.isdir f dst && _); [congruence|].
  destruct (bool_decide _); [congruence|].
  destruct (bool_decide _); [congruence|].
  destruct (FS.mkdirs_from _ _ _); congruence.
Qed.

Section sparse_frame.

Variable run_process : list string -> FS.t -> Result CompletedProcess * FS.t.
Variable target_dir : string.

Local Abbreviation tmp_dir := (target_dir ++ "_tmp_clone").

Local Abbreviation no_target := (λ w : World, FS.isdir (fs w) target_dir = false).
Local Abbreviation subprocess_run := (GitOps.subprocess_run run_process).
Local Abbreviation _sparse_clone := (GitOps._sparse_clone run_process).

(** The processes run here work in the staging directory: none of them
    makes a directory at the target. *)
Hypothesis git_frame :
  forall cmd f, In tmp_dir cmd ->
                FS.isdir f target_dir = false ->
                FS.isdir (snd (run_process cmd f)) target_dir = false.

Lemma subprocess_run_no_target cmd check :
  In tmp_dir cmd -> Spec.invariant no_target (subprocess_run cmd check).
Proof.
  intros Hin w H. unfold GitOps.subprocess_run. specialize (git_frame cmd (fs w) Hin H).
  destruct (run_process cmd (fs w)) as [[r|e] f']; simpl in *;
    [destruct (check && negb (returncode r =? 0))|]; exact git_frame.
Qed.

Lemma pull_loop_no_target branches pull_result :
  Spec.invariant no_target (GitOps.pull_loop run_process tmp_dir branches pull_result).
Proof.
  revert pull_result. induction branches as [|b rest IH]; intros pull_result; simpl.
  - apply invariant_ret.
  - apply invariant_bind; [apply subprocess_run_no_target; simpl; auto|].
    intros r. destruct (returncode r =? 0); [apply invariant_ret | apply IH].
Qed.

Lemma sparse_setup_no_target repo_url plugin_path :
  ~ FS.under (FS.resolve target_dir)
      (FS.resolve (Py.dirname (Py.join tmp_dir [".git"; "info"; "sparse-checkout"]))) ->
  Spec.invariant no_target (GitOps.sparse_setup run_process repo_url plugin_path tmp_dir).
Proof.
  intros Hnu. unfold GitOps.sparse_setup.
  repeat (apply invariant_bind;
            [try (apply subprocess_run_no_target; simpl; auto) | intros _]).
  - intros w H. unfold os_makedirs, fs_try.
    pose proof (makedirs_no_dir (fs w) _ target_dir Hnu H) as Hm.
    destruct (FS.makedirs (fs w) _) as [r f']. exact Hm.
  - intros w H. unfold write_file, fs_try.
    pose proof (write_file_no_dir (fs w)
                  (Py.join tmp_dir [".git"; "info"; "sparse-checkout"])
                  (Py.rstrip_char Py.sep plugin_path ++ String Py.sep (String "010" ""))
                  target_dir H) as Hm.
    destruct (FS.write_file (fs w) _ _) as [r f']. exact Hm.
  - apply invariant_ret.
Qed.

Lemma cleanup_tmp_no_target : Spec.invariant no_target (GitOps.cleanup_tmp tmp_dir).
Proof.
  intros w H. unfold GitOps.cleanup_tmp, os_path_exists, fs_read, shutil_rmtree_ignore,
    fs_update. rewrite bind_run. destruct (FS.exists_ (fs w) tmp_dir); simpl; [|exact H].
  apply rmtree_ignore_keeps_no_dir. exact H.
Qed.

(** After the pulls, every way out other than [{"ok": True}] leaves no
    directory at the target. *)
Lemma after_pull_no_target plugin_path pull_result w :
  FS.resolve target_dir <> [] ->
  no_target w ->
  fst (GitOps.after_pull plugin_path target_dir tmp_dir pull_result w) <> Val GitOps.ok_true ->
  no_target (snd (GitOps.after_pull plugin_path target_dir tmp_dir pull_result w)).
Proof.
  intros Hk H. unfold GitOps.after_pull. destruct pull_result as [r|]; [|intros _; exact H].
  destruct (negb (returncode r =? 0)); [intros _; exact H|].
  unfold GitOps.sparse_install, os_path_isdir, fs_read. rewrite bind_run.
  destruct (negb (FS.isdir (fs w) _)); [intros _; exact H|].
  rewrite bind_run. unfold shutil_move, fs_try.
  destruct (FS.move (fs w) _ target_dir) as [[[]|e] f1] eqn:Hm.
  2:{ intros _. apply move_fails_unchanged in Hm as ->. exact H. }
  unfold GitOps.has_manifest, os_path_exists, fs_read. rewrite !bind_run. simpl.
  destruct (negb (FS.exists_ f1 _ || FS.exists_ f1 _)).
  - intros _. simpl. apply rmtree_ignore_no_dir. exact Hk.
  - simpl. intros Hne. contradiction.
Qed.

(** The [finally] block returns, so the whole is the [try] block's
    result in the world the [finally] block leaves. *)
Lemma try_finally_cleanup_tmp {A} (body : M A) w :
  try_finally body (GitOps.cleanup_tmp tmp_dir) w
  = (fst (body w), snd (GitOps.cleanup_tmp tmp_dir (snd (body w)))).
Proof.
  unfold try_finally. destruct (body w) as [r w1]. simpl.
  pose proof (cleanup_tmp_returns (target_dir ++ "_tmp_clone") w1) as Hr.
  destruct (GitOps.cleanup_tmp tmp_dir w1) as [[[]|e] w2]; [reflexivity | discriminate].
Qed.

(** X8.  With no directory at the target before, a sparse clone that does not
    end in [{"ok": True}], whichever way it fails, leaves none there. *)
Lemma sparse_clone_failure_leaves_no_target
    repo_url plugin_path plugin_id branch (w : World) :
  FS.resolve target_dir <> [] ->
  ~ FS.under (FS.resolve target_dir)
      (FS.resolve (Py.dirname (Py.join tmp_dir [".git"; "info"; "sparse-checkout"]))) ->
  no_target w ->
  fst (_sparse_clone repo_url plugin_path plugin_id target_dir branch w) <> Val GitOps.ok_true ->
  no_target (snd (_sparse_clone repo_url plugin_path plugin_id target_dir branch w)).
Proof.
  intros Hk Hnu H. unfold GitOps._sparse_clone.
  rewrite try_finally_cleanup_tmp. simpl. intros Hne.
  apply cleanup_tmp_no_target. revert Hne. rewrite !bind_run.
  pose proof (sparse_setup_no_target repo_url plugin_path Hnu w H) as H1.
  destruct (GitOps.sparse_setup run_process repo_url plugin_path tmp_dir w) as [[[]|e] w1];
    [|intros _; exact H1].
  rewrite bind_run.
  pose proof (pull_loop_no_target (GitOps.branches_to_try branch) None w1 H1) as H2.
  destruct (GitOps.pull_loop run_process tmp_dir (GitOps.branches_to_try branch) None w1)
    as [[pr|e] w2]; [|intros _; exact H2].
  apply after_pull_no_target; assumption.
Qed.

End sparse_frame.

(* ===================================================================== *)
(** ** The theorems at the concrete installation *)
(* ===================================================================== *)

Lemma demo_get_abs_path_joins ps x :
  Demo.get_abs_path (ps ++ [x])%list = Py.join2 (Demo.get_abs_path ps) x.
Proof. unfold Demo.get_abs_path, Py.join. apply fold_left_app. Qed.

(** C1 (divergence).  A clone that exits non-zero after it has created the
    clone directory: [clone_plugin] reports the failure and returns at
    once, and [usr/plugins/demo] is still there. *)
Theorem clone_plugin_failed_clone_leaves_target :
  let out := GitOps.clone_plugin Demo.git_checkout_fails Demo.str_exn Demo.get_abs_path
               "https://github.com/u/r" "." "demo" "" Demo.fresh in
  FS.exists_ (fs Demo.fresh) "/a0/usr/plugins/demo" = false
  /\ fst out = Val (GitOps.ok_false
                      "git clone failed: fatal: unable to checkout working tree")
  /\ FS.isdir (fs (snd out)) "/a0/usr/plugins/demo" = true
  /\ FS.exists_ (fs (snd out)) "/a0/usr/plugins/demo" = true.
Proof. vm_compute. repeat split. Qed.

(** C9 (divergence).  The row of a plugin that is only local has install
    count 0, an empty source URL and an empty path, but no branch entry,
    empty or otherwise. *)
Theorem local_only_row_has_no_branch :
  exists r,
    Demo.build_merged ∅ ∅ [] [Demo.plugin "notes"] = Val [r]
    /\ Registry.row_id r = "notes"
    /\ Registry.row_install_count r = 0
    /\ Registry.row_repo_url r = ""
    /\ Registry.row_plugin_path r = ""
    /\ Registry.row_status r = active
    /\ Registry.row_branch r = None
    /\ Registry.row_branch r <> Some "".
Proof. eexists. vm_compute. repeat split. discriminate. Qed.

(** C2 (counterexample).  A catalogue that lists the id [memory] twice
    gives two rows for it. *)
Lemma merged_view_duplicate_catalog_id :
  exists rows,
    Demo.build_merged ∅ ∅ [Demo.entry "memory"; Demo.entry "memory"] [] = Val rows
    /\ Registry.row_id <$> rows = ["memory"; "memory"]
    /\ ~ NoDup (Registry.row_id <$> rows).
Proof.
  eexists. split; [vm_compute; reflexivity|]. split; [reflexivity|].
  simpl. intros H. apply NoDup_cons in H as [H _]. apply H. left.
Qed.

(** Names that are listed twice locally and not in the catalogue give two
    rows as well. *)
Lemma merged_view_duplicate_local_name :
  exists rows,
    Demo.build_merged ∅ ∅ [] [Demo.plugin "notes"; Demo.plugin "notes"] = Val rows
    /\ Registry.row_id <$> rows = ["notes"; "notes"].
Proof. eexists. split; [vm_compute; reflexivity | reflexivity]. Qed.

(** C5 at an installation that has [demo]. *)
Lemma clone_plugin_already_installed_demo :
  FS.exists_ (fs Demo.with_demo) "/a0/usr/plugins/demo" = true
  /\ GitOps.clone_plugin Demo.git_no_such_branch Demo.str_exn Demo.get_abs_path
       "https://github.com/u/demo" "." "demo" "" Demo.with_demo
     = (Val (GitOps.ok_false "Plugin 'demo' is already installed."), Demo.with_demo).
Proof.
  split; [vm_compute; reflexivity|].
  apply (clone_plugin_already_installed Demo.git_no_such_branch Demo.str_exn
           Demo.get_abs_path "https://github.com/u/demo" "." "demo" "" Demo.with_demo).
  vm_compute. reflexivity.
Defined.

(** C6 at the identifier that names the built-in directory outright. *)
Lemma remove_plugin_builtin_protected_demo :
  Demo.abspath (Py.join2 (GitOps.USR_PLUGINS_DIR Demo.get_abs_path) "/a0/plugins/memory")
  = Demo.abspath (Demo.get_abs_path ["plugins"; "/a0/plugins/memory"])
  /\ GitOps.remove_plugin Demo.str_exn Demo.get_abs_path Demo.abspath
       "/a0/plugins/memory" (Demo.world (Demo.mkdir "/a0/plugins/memory" ∅) initial_cache)
     = (Val (GitOps.ok_false "Cannot uninstall built-in plugins."),
        Demo.world (Demo.mkdir "/a0/plugins/memory" ∅) initial_cache).
Proof.
  split; [vm_compute; reflexivity|].
  apply (remove_plugin_builtin_protected Demo.str_exn Demo.get_abs_path Demo.abspath).
  vm_compute. reflexivity.
Defined.

(** C4 at a repository that has neither [main] nor [master]: both are
    pulled, in that order, and the error is that of [master]. *)
Lemma sparse_clone_branch_selection_demo :
  let tmp_dir := "/a0/usr/plugins/memory_tmp_clone" in
  let out := GitOps._sparse_clone Demo.git_no_such_branch "https://github.com/u/r"
               "plugins/memory" "memory" "/a0/usr/plugins/memory" "" Demo.fresh in
  cmds (snd out)
  = [ ["git"; "init"; tmp_dir];
      ["git"; "-C"; tmp_dir; "remote"; "add"; "origin"; "https://github.com/u/r"];
      ["git"; "-C"; tmp_dir; "config"; "core.sparseCheckout"; "true"];
      GitOps.pull_cmd tmp_dir "main";
      GitOps.pull_cmd tmp_dir "master" ]
  /\ fst out = Val (GitOps.ok_false "git pull failed: fatal: couldn't find remote ref master").
Proof.
  intros tmp_dir out.
  pose (w1 := snd (GitOps.sparse_setup Demo.git_no_such_branch "https://github.com/u/r"
                     "plugins/memory" tmp_dir Demo.fresh)).
  assert (Hsetup : GitOps.sparse_setup Demo.git_no_such_branch "https://github.com/u/r"
                     "plugins/memory" tmp_dir Demo.fresh = (Val tt, w1))
    by (vm_compute; reflexivity).
  assert (Hret : forall b f, In b (GitOps.branches_to_try "") ->
            exists r f', Demo.git_no_such_branch (GitOps.pull_cmd tmp_dir b) f = (Val r, f'))
    by (intros b f _; eexists _, _; reflexivity).
  destruct (sparse_clone_branch_selection Demo.git_no_such_branch "https://github.com/u/r"
              "plugins/memory" "memory" "/a0/usr/plugins/memory" "" Demo.fresh w1
              Hsetup Hret) as [_ Hnone].
  destruct (Hnone eq_refl) as (r_main & f1 & Hmain & _ & Hfail).
  injection Hmain as <- <-.
  destruct Hfail as (r_master & f2 & Hmaster & Hcmds & Herr); [discriminate|].
  injection Hmaster as <- <-.
  split; [exact Hcmds | apply Herr; discriminate].
Defined.

(** C2 at the catalogue [A, B] with the local plugins [B, C]: the rows
    are those of [A], [B], [C], in that order. *)
Lemma merged_view_one_row_per_id_demo :
  exists rows,
    Demo.build_merged ∅ ∅ [Demo.entry "A"; Demo.entry "B"] [Demo.plugin "B"; Demo.plugin "C"]
    = Val rows
    /\ Registry.row_id <$> rows = ["A"; "B"; "C"]
    /\ Registry.row_status <$> rows = [available; active; active]
    /\ NoDup (Registry.row_id <$> rows).
Proof.
  destruct (merged_view_one_row_per_id Demo.files_exists Demo.get_abs_path
              Demo.USER_DIR Demo.PLUGINS_DIR Demo.DISABLED_FILE_NAME ∅ ∅
              [Demo.entry "A"; Demo.entry "B"] [Demo.plugin "B"; Demo.plugin "C"]
              ["A"; "B"] eq_refl)
    as (rows & Hrows & Heq & Hids & Hnd & _).
  - apply (bool_decide_unpack _). vm_compute. exact I.
  - apply (bool_decide_unpack _). vm_compute. exact I.
  - exists rows. split; [exact Hrows|]. split; [rewrite Hids; vm_compute; reflexivity|].
    split; [rewrite Heq; vm_compute; reflexivity | exact Hnd].
Defined.

(** C3 with the network down, at time 1000, over a catalogue cached at
    time 100: the registry is requested, the cache keeps its catalogue and
    its timestamp, and the reply is the list built from that catalogue. *)
Lemma stale_catalog_is_refetched_demo :
  let w := Demo.world ∅ Demo.cached in
  let out := Registry.process 1000 Demo.offline Demo.str_exn (λ _, [])
               Demo.files_exists Demo.get_abs_path
               Demo.USER_DIR Demo.PLUGINS_DIR Demo.DISABLED_FILE_NAME w in
  1000 - ts (cache w) > Registry.CACHE_TTL
  /\ (exists more, reqs (snd out) = Registry.REGISTRY_URL :: more)
  /\ data (cache (snd out)) = data Demo.cached
  /\ ts (cache (snd out)) = 100
  /\ exists rows, fst out = Val (Registry.ok_plugins rows)
                  /\ Registry.row_id <$> rows = ["memory"].
Proof.
  intros w out.
  assert (Hstale : 1000 - ts (cache w) > Registry.CACHE_TTL) by (vm_compute; reflexivity).
  split; [exact Hstale|].
  destruct (stale_catalog_is_refetched 1000 Demo.offline Demo.str_exn (λ _, [])
              Demo.files_exists Demo.get_abs_path
              Demo.USER_DIR Demo.PLUGINS_DIR Demo.DISABLED_FILE_NAME w (or_intror Hstale))
    as (Hreq & _ & Hfail).
  destruct (Hfail (EnvError "All connection attempts failed") eq_refl)
    as (_ & Hstays & _).
  destruct Hstays as (Hdata & Hts & Hreply); [discriminate|].
  split; [exact Hreq|]. split; [exact Hdata|]. split; [exact Hts|].
  eexists. split; [fold out in Hreply; rewrite Hreply; vm_compute; reflexivity|].
  reflexivity.
Defined.

(** C10 at a catalogue with [memory], local plugins [memory] (disabled)
    and [notes] (never toggled): [memory] is inactive, [notes] is active,
    and an enabled marker put next to them changes nothing. *)
Lemma status_from_disabled_marker_demo :
  let f := Demo.touch "/a0/usr/plugins/memory/.toggle-0" ∅ in
  let f' := Demo.touch "/a0/usr/plugins/notes/.toggle-1" f in
  let lps := [Demo.plugin "memory"; Demo.plugin "notes"] in
  exists rows,
    Demo.build_merged f ∅ [Demo.entry "memory"] lps = Val rows
    /\ Registry.row_id <$> rows = ["memory"; "notes"]
    /\ Registry.row_status <$> rows = [inactive; active]
    /\ Demo.build_merged f' ∅ [Demo.entry "memory"] lps = Val rows.
Proof.
  intros f f' lps. eexists.
  assert (Hb : Demo.build_merged f ∅ [Demo.entry "memory"] lps = Val _)
    by (vm_compute; reflexivity).
  split; [exact Hb|]. split; [reflexivity|]. split; [reflexivity|].
  destruct (status_from_disabled_marker Demo.files_exists Demo.get_abs_path
              Demo.USER_DIR Demo.PLUGINS_DIR Demo.DISABLED_FILE_NAME f f' ∅
              [Demo.entry "memory"] lps _ Hb) as (_ & _ & Hsame).
  apply Hsame. intros lp Hlp.
  apply elem_of_cons in Hlp as [->|Hlp]; [vm_compute; reflexivity|].
  apply list_elem_of_singleton in Hlp as ->. vm_compute. reflexivity.
Defined.

(** C7 at the plugin [memory], disabled before: it is enabled, then
    listed from a catalogue that is still fresh. *)
Lemma toggle_then_reconcile_demo :
  let find_plugin_dir := λ (_ : FS.t) (pid : string), Some ("/a0/plugins/" ++ pid) in
  let toggle := Toggle.process Demo.get_abs_path find_plugin_dir Demo.USER_DIR
                  Demo.PLUGINS_DIR Demo.DISABLED_FILE_NAME Demo.ENABLED_FILE_NAME in
  let w := Demo.world (Demo.touch "/a0/usr/plugins/memory/.toggle-0" ∅) Demo.cached in
  let w' := snd (toggle "memory" true w) in
  let registry := Registry.process 200 Demo.offline Demo.str_exn
                    (λ _, [Demo.plugin "memory"]) Demo.files_exists Demo.get_abs_path
                    Demo.USER_DIR Demo.PLUGINS_DIR Demo.DISABLED_FILE_NAME in
  fst (toggle "memory" true w) = Val (Toggle.ok_status active)
  /\ FS.exists_ (fs w) "/a0/usr/plugins/memory/.toggle-0" = true
  /\ FS.exists_ (fs w') "/a0/usr/plugins/memory/.toggle-1" = true
  /\ FS.exists_ (fs w') "/a0/usr/plugins/memory/.toggle-0" = false
  /\ exists rows,
       fst (registry w') = Val (Registry.ok_plugins rows)
       /\ Registry.row_id <$> rows = ["memory"]
       /\ forall r, r ∈ rows -> Registry.row_id r = "memory" ->
                    Registry.row_status r = active.
Proof.
  intros find_plugin_dir toggle w w' registry.
  assert (Ht : toggle "memory" true w = (Val (Toggle.ok_status active), w'))
    by (vm_compute; reflexivity).
  assert (Hne : FS.resolve (Toggle.enabled_path Demo.get_abs_path Demo.USER_DIR
                    Demo.PLUGINS_DIR Demo.ENABLED_FILE_NAME "memory")
                <> FS.resolve (Toggle.disabled_path Demo.get_abs_path Demo.USER_DIR
                    Demo.PLUGINS_DIR Demo.DISABLED_FILE_NAME "memory"))
    by (vm_compute; discriminate).
  destruct (toggle_then_reconcile 200 Demo.offline Demo.str_exn
              (λ _, [Demo.plugin "memory"]) Demo.files_exists Demo.get_abs_path
              find_plugin_dir Demo.USER_DIR Demo.PLUGINS_DIR Demo.DISABLED_FILE_NAME
              Demo.ENABLED_FILE_NAME demo_get_abs_path_joins (λ _ _, eq_refl)
              "memory" true active w w' Hne Ht)
    as (He & Hd & _ & _ & Hlist).
  split; [rewrite Ht; reflexivity|]. split; [vm_compute; reflexivity|].
  split; [exact He|]. split; [exact Hd|].
  assert (Hp : registry w' = (Val (Registry.ok_plugins _), snd (registry w')))
    by (vm_compute; reflexivity).
  eexists. split; [rewrite Hp; reflexivity|]. split; [reflexivity|].
  apply (Hlist _ _ Hp). vm_compute. left.
Defined.

(** The hypotheses above at the concrete installation: a sparse clone of
    [plugins/memory] from a repository without [main] and [master] leaves
    nothing at [usr/plugins/memory]. *)
Lemma sparse_clone_failure_leaves_no_target_demo :
  FS.isdir
    (fs (snd (GitOps._sparse_clone (λ _ f, (Val Demo.done, f)) "https://github.com/u/r"
                "plugins/memory" "memory" "/a0/usr/plugins/memory" "main" Demo.fresh)))
    "/a0/usr/plugins/memory" = false.
Proof.
  apply (sparse_clone_failure_leaves_no_target (λ _ f, (Val Demo.done, f))
           "/a0/usr/plugins/memory").
  - intros cmd f _ H. exact H.
  - vm_compute. discriminate.
  - vm_compute. intros [k Hk]. discriminate.
  - vm_compute. reflexivity.
  - vm_compute. discriminate.
Defined.

(** Where the target is an ancestor of the staging directory, which an
    identifier ending in a separator brings about, making the staging
    directory makes the target, and a failed pull leaves it behind. *)
Lemma sparse_clone_trailing_separator_leaves_target :
  let out := GitOps.clone_plugin Demo.git_no_such_branch Demo.str_exn Demo.get_abs_path
               "https://github.com/u/r" "plugins/memory" "memory/" "" Demo.fresh in
  FS.exists_ (fs Demo.fresh) "/a0/usr/plugins/memory/" = false
  /\ fst out = Val (GitOps.ok_false
                      "git pull failed: fatal: couldn't find remote ref master")
  /\ FS.isdir (fs (snd out)) "/a0/usr/plugins/memory/" = true.
Proof. vm_compute. repeat split. Qed.

(* ===================================================================== *)
(** ** Further properties: [_clean_github_url] *)
(* ===================================================================== *)

Lemma take_drop_chars (n : nat) (s : string) :
  s = Py.take n s ++ Spec.drop_chars n s.
Proof.
  revert s. induction n as [|n IH]; intros [|c s]; try reflexivity.
  change (String c s = String c (Py.take n s ++ Spec.drop_chars n s)).
  f_equal. apply IH.
Qed.

Lemma string_app_nil_r (s : string) : s = s ++ "".
Proof.
  induction s as [|c s IH]; [reflexivity|].
  change (String c s = String c (s ++ "")). f_equal. exact IH.
Qed.

Lemma startswith_take (sub : string) (n : nat) (s : string) :
  Py.startswith sub (Py.take n s) = true -> Py.startswith sub s = true.
Proof.
  revert n s. induction sub as [|a sub IH]; intros n s; simpl; [reflexivity|].
  destruct n as [|n], s as [|b s]; simpl; try discriminate.
  destruct (Ascii.eqb a b); [apply IH | discriminate].
Qed.

(** An occurrence inside the first [n] characters is an occurrence in the
    whole string, and it starts before [n]. *)
Lemma occurrence_in_take (sub : string) (j n : nat) (s : string) :
  sub <> "" ->
  Py.startswith sub (Spec.drop_chars j (Py.take n s)) = true ->
  Py.startswith sub (Spec.drop_chars j s) = true /\ (j < n)%nat.
Proof.
  intros Hsub. revert n s. induction j as [|j IH]; intros n s H.
  - simpl in *. split; [eapply startswith_take; exact H|].
    destruct n as [|n]; [|lia]. destruct sub; [contradiction | discriminate].
  - destruct n as [|n], s as [|c s]; simpl in H;
      try (destruct sub; [contradiction | discriminate]).
    simpl. destruct (IH n s H) as [H1 H2]. split; [exact H1 | lia].
Qed.

Lemma find_none (sub s : string) :
  (forall j, Py.startswith sub (Spec.drop_chars j s) = false) -> Py.find sub s = -1.
Proof.
  intros H. destruct (Z.eq_dec (Py.find sub s) (-1)) as [|Hne]; [assumption|].
  pose proof (find_occurs sub s Hne) as Ho. rewrite H in Ho. discriminate.
Qed.

(** Cutting at the first occurrence leaves no occurrence. *)
Lemma find_in_cut (sub s : string) :
  sub <> "" -> Py.find sub (Py.slice_to s (Py.find sub s)) = -1.
Proof.
  intros Hsub. apply find_none. intros j.
  destruct (Py.startswith sub (Spec.drop_chars j (Py.slice_to s (Py.find sub s)))) eqn:E;
    [|reflexivity].
  apply occurrence_in_take in E as [Ho Hj]; [|exact Hsub].
  pose proof (find_ge_m1 sub s).
  destruct (Z.eq_dec (Py.find sub s) (-1)) as [Heq|Hne].
  - rewrite Heq in Hj. simpl in Hj. lia.
  - rewrite (find_first sub s j Hne) in Ho by lia. discriminate.
Qed.

(** A marker absent from the URL is absent from every cut of it. *)
Lemma find_absent_in_take (sub s : string) (n : nat) :
  sub <> "" -> Py.find sub s = -1 -> Py.find sub (Py.take n s) = -1.
Proof.
  intros Hsub Habs. apply find_none. intros j.
  destruct (Py.startswith sub (Spec.drop_chars j (Py.take n s))) eqn:E; [|reflexivity].
  apply occurrence_in_take in E as [Ho _]; [|exact Hsub].
  rewrite (find_absent sub s j Habs) in Ho. discriminate.
Qed.

(** X1.  [_clean_github_url] only ever cuts: its result is a prefix of the URL.
    The result never contains ["/tree/"], and for a URL without ["/tree/"]
    it contains no ["/blob/"] either. *)
Theorem clean_url_is_a_cut (url : string) :
  (exists rest, url = GitOps._clean_github_url url ++ rest)
  /\ Py.find "/tree/" (GitOps._clean_github_url url) = -1
  /\ (Py.find "/tree/" url = -1 ->
      Py.find "/blob/" (GitOps._clean_github_url url) = -1).
Proof.
  destruct (Z.eq_dec (Py.find "/tree/" url) (-1)) as [Ht|Ht].
  - destruct (Z.eq_dec (Py.find "/blob/" url) (-1)) as [Hb|Hb].
    + rewrite (clean_no_marker url Ht Hb). split; [|auto].
      exists "". apply string_app_nil_r.
    + rewrite (clean_blob_found url Ht Hb). split; [|split].
      * eexists. apply take_drop_chars.
      * apply find_absent_in_take; [discriminate | exact Ht].
      * intros _. apply find_in_cut. discriminate.
  - rewrite (clean_tree_found url Ht). split; [|split].
    + eexists. apply take_drop_chars.
    + apply find_in_cut. discriminate.
    + intros H. contradiction.
Qed.

(** The cut is at the first marker for the browsable URLs of a repository
    page: here the tree view of a branch. *)
Lemma clean_cuts_at_first_marker_demo :
  let url := "https://github.com/user/repo/tree/branch" in
  Spec.first_marker url = 28
  /\ GitOps._clean_github_url url = "https://github.com/user/repo".
Proof.
  intros url. split; [vm_compute; reflexivity|].
  rewrite (clean_cuts_at_first_marker url).
  - vm_compute. reflexivity.
  - intros H. vm_compute in H. discriminate.
  - right. left. vm_compute. reflexivity.
Defined.

(* ===================================================================== *)
(** ** Further properties: paths *)
(* ===================================================================== *)

Lemma string_length_app (a b : string) :
  String.length (a ++ b) = (String.length a + String.length b)%nat.
Proof.
  induction a as [|c a IH]; [reflexivity|].
  change (S (String.length (a ++ b)) = S (String.length a + String.length b)).
  f_equal. exact IH.
Qed.

(** Appending a separator-free text extends the last component. *)
Lemma split_app_last (s t : string) :
  FS.split t = [t] ->
  exists init c, FS.split s = (init ++ [c])%list /\ FS.split (s ++ t) = (init ++ [(c ++ t)%string])%list.
Proof.
  intros Ht. induction s as [|a s (init & c & Hs & Hst)].
  - exists [], "". split; [reflexivity | exact Ht].
  - change (String a s ++ t) with (String a (s ++ t)). simpl. rewrite Hs, Hst.
    destruct (Ascii.eqb a Py.sep).
    + exists ("" :: init), c. split; reflexivity.
    + destruct init as [|h tl]; simpl.
      * exists [], (String a c). split; reflexivity.
      * exists (String a h :: tl), c. split; reflexivity.
Qed.

(** A path that ends in a separator-free text of three characters or more
    does not resolve to the root. *)
Lemma resolve_app_nonroot (s t : string) :
  FS.split t = [t] -> (2 < String.length t)%nat -> FS.resolve (s ++ t) <> [].
Proof.
  intros Ht Hlen. destruct (split_app_last s t Ht) as (init & c & _ & Hst).
  unfold FS.resolve. rewrite Hst, fold_left_app. simpl.
  assert (Hne : forall x, (String.length x < 3)%nat -> String.eqb (c ++ t) x = false).
  { intros x Hx. apply String.eqb_neq. intros Heq.
    apply (f_equal String.length) in Heq. rewrite string_length_app in Heq. lia. }
  unfold FS.norm_step.
  rewrite (Hne "") by (simpl; lia). rewrite (Hne ".") by (simpl; lia).
  rewrite (Hne "..") by (simpl; lia). simpl.
  intros H. apply app_eq_nil in H as [_ H]. discriminate.
Qed.

Lemma resolve_tmp_clone_nonroot (target_dir : string) :
  FS.resolve (target_dir ++ "_tmp_clone") <> [].
Proof. apply resolve_app_nonroot; [reflexivity | simpl; lia]. Qed.

Lemma string_app_assoc (a b c : string) : (a ++ b) ++ c = a ++ (b ++ c).
Proof.
  induction a as [|x a IH]; [reflexivity|].
  change (String x ((a ++ b) ++ c) = String x (a ++ (b ++ c))). f_equal. exact IH.
Qed.

(** [os.path.join(d, name)] for a name of one component and three
    characters or more is not the root. *)
Lemma resolve_join2_nonroot (d name : string) :
  FS.split name = [name] -> (2 < String.length name)%nat ->
  FS.resolve (Py.join2 d name) <> [].
Proof.
  intros Hn Hlen. unfold Py.join2.
  destruct (Py.startswith "/" name) eqn:Es.
  - apply (resolve_app_nonroot "" name Hn Hlen).
  - destruct (negb (Py.truthy d) || Py.endswith_char Py.sep d).
    + apply resolve_app_nonroot; assumption.
    + rewrite <- string_app_assoc. apply resolve_app_nonroot; assumption.
Qed.

(* ===================================================================== *)
(** ** Further properties: [clone_plugin] *)
(* ===================================================================== *)

Lemma bind_log {A B} (m : M A) (k : A -> M B) (w : World) :
  (forall a, Spec.preserves cmds (k a)) ->
  cmds (snd ((m ≫= k) w)) = cmds (snd (m w)).
Proof.
  intros Hk. rewrite bind_run. destruct (m w) as [[a|e] w1]; [apply Hk | reflexivity].
Qed.

Lemma try_except_log {A} (body : M A) (handler : exn -> M A) (w : World) :
  (forall e, Spec.preserves cmds (handler e)) ->
  cmds (snd (try_except body handler w)) = cmds (snd (body w)).
Proof.
  intros Hh. unfold try_except. destruct (body w) as [[a|e] w1]; [reflexivity | apply Hh].
Qed.

Section clone_plugin_more.

Variable run_process : list string -> FS.t -> Result CompletedProcess * FS.t.
Variable str_exn : exn -> string.
Variable get_abs_path : list string -> string.

Local Abbreviation USR_PLUGINS_DIR := (GitOps.USR_PLUGINS_DIR get_abs_path).
Local Abbreviation clone_plugin := (GitOps.clone_plugin run_process str_exn get_abs_path).
Local Abbreviation subprocess_run := (GitOps.subprocess_run run_process).
Local Abbreviation _full_clone := (GitOps._full_clone run_process).
Local Abbreviation _sparse_clone := (GitOps._sparse_clone run_process).

Lemma subprocess_run_log cmd check w :
  cmds (snd (subprocess_run cmd check w)) = (cmds w ++ [cmd])%list.
Proof.
  unfold GitOps.subprocess_run.
  destruct (run_process cmd (fs w)) as [[r|e] f'];
    [destruct (check && negb (returncode r =? 0))|]; reflexivity.
Qed.

Lemma full_clone_log repo_url target_dir branch w :
  cmds (snd (_full_clone repo_url target_dir branch w))
  = (cmds w ++ [GitOps.clone_cmd repo_url target_dir branch])%list.
Proof.
  unfold GitOps._full_clone. rewrite bind_log; [apply subprocess_run_log|].
  intros result. unfold GitOps.has_manifest, os_path_exists, shutil_rmtree_ignore. frame.
Qed.

Lemma handler_log target_dir e :
  Spec.preserves cmds
    (ex ← os_path_exists target_dir;
     (if ex : bool then shutil_rmtree_ignore target_dir else mret tt);;
     mret (GitOps.ok_false (str_exn e))).
Proof. unfold os_path_exists, shutil_rmtree_ignore. frame. Qed.

(** X2.  The only exception [clone_plugin] lets out is one of
    [os.makedirs(USR_PLUGINS_DIR)], which runs before the [try]: every
    failure of the clone itself comes back as a reply. *)
Theorem clone_plugin_raises_only_from_makedirs
    repo_url plugin_path plugin_id branch e (w w' : World) :
  clone_plugin repo_url plugin_path plugin_id branch w = (Exc e, w') ->
  FS.exists_ (fs w) (Py.join2 USR_PLUGINS_DIR plugin_id) = false
  /\ os_makedirs USR_PLUGINS_DIR w = (Exc e, w').
Proof.
  unfold GitOps.clone_plugin. rewrite bind_run. unfold os_path_exists at 1, fs_read at 1.
  destruct (FS.exists_ (fs w) (Py.join2 USR_PLUGINS_DIR plugin_id)); [discriminate|].
  rewrite bind_run.
  destruct (os_makedirs USR_PLUGINS_DIR w) as [[[]|e0] w0]; [|intros [= <- <-]; auto].
  unfold try_except.
  match goal with |- context [match ?body w0 with _ => _ end] =>
    destruct (body w0) as [[r|e1] w1] end; [discriminate|].
  unfold os_path_exists, fs_read, shutil_rmtree_ignore, fs_update. rewrite bind_run.
  destruct (FS.exists_ (fs w1) _); discriminate.
Qed.

(** X3.  With no subdirectory asked for ([plugin_path] empty or ["."]) an
    installation runs exactly one subprocess, whatever its outcome: the
    shallow clone of the cleaned URL into the target. *)
Theorem full_clone_runs_one_command repo_url plugin_path plugin_id branch (w : World) :
  let target_dir := Py.join2 USR_PLUGINS_DIR plugin_id in
  FS.exists_ (fs w) target_dir = false ->
  fst (os_makedirs USR_PLUGINS_DIR w) = Val tt ->
  plugin_path = "" \/ plugin_path = "." ->
  cmds (snd (clone_plugin repo_url plugin_path plugin_id branch w))
  = (cmds w ++ [GitOps.clone_cmd (GitOps._clean_github_url repo_url) target_dir branch])%list.
Proof.
  intros target_dir Hex Hmk Hpath. unfold GitOps.clone_plugin. fold target_dir.
  rewrite bind_run. unfold os_path_exists at 1, fs_read at 1. rewrite Hex, bind_run.
  pose proof (fs_try_cmds (λ f, FS.makedirs f USR_PLUGINS_DIR) w) as Hc.
  fold (os_makedirs USR_PLUGINS_DIR) in Hc.
  destruct (os_makedirs USR_PLUGINS_DIR w) as [[[]|e0] w0]; [|discriminate].
  simpl in Hc. rewrite try_except_log by (intros e; apply handler_log).
  assert (Hsub : Py.truthy plugin_path && negb (plugin_path =? ".")%string = false)
    by (destruct Hpath as [-> | ->]; reflexivity).
  rewrite Hsub, full_clone_log, Hc. reflexivity.
Qed.

(** X4.  Every subprocess of a sparse clone works in the staging directory:
    the log grows by [git init tmp_dir] and [git -C tmp_dir ...] commands
    only, and no [git clone] of the target is among them. *)
Theorem sparse_clone_works_in_staging
    repo_url plugin_path plugin_id target_dir branch (w : World) :
  exists l,
    cmds (snd (_sparse_clone repo_url plugin_path plugin_id target_dir branch w))
    = (cmds w ++ l)%list
    /\ Forall (Spec.staged (target_dir ++ "_tmp_clone")) l.
Proof.
  pose (tmp_dir := target_dir ++ "_tmp_clone").
  pose (Q := λ v : World, exists l, cmds v = (cmds w ++ l)%list /\ Forall (Spec.staged tmp_dir) l).
  assert (Hfs : forall A (m : M A), Spec.preserves cmds m -> Spec.invariant Q m).
  { intros A m Hm v (l & Hl & Hf). exists l. rewrite Hm. auto. }
  assert (Hrun : forall cmd check, Spec.staged tmp_dir cmd ->
                   Spec.invariant Q (subprocess_run cmd check)).
  { intros cmd check Hs v (l & Hl & Hf). exists (l ++ [cmd])%list.
    rewrite subprocess_run_log, Hl, <- app_assoc. split; [reflexivity|].
    apply Forall_app. auto. }
  assert (Hpull : forall bs pr, Spec.invariant Q (GitOps.pull_loop run_process tmp_dir bs pr)).
  { induction bs as [|b bs IH]; intros pr; simpl; [apply invariant_ret|].
    apply invariant_bind; [apply Hrun; right; eexists; reflexivity|].
    intros r. destruct (returncode r =? 0); [apply invariant_ret | apply IH]. }
  assert (Hbody : Spec.invariant Q
            (GitOps.sparse_setup run_process repo_url plugin_path tmp_dir;;
             pull_result ← GitOps.pull_loop run_process tmp_dir
                             (GitOps.branches_to_try branch) None;
             GitOps.after_pull plugin_path target_dir tmp_dir pull_result)).
  { apply invariant_bind; [|intros _; apply invariant_bind;
                              [apply Hpull | intros pr; apply Hfs, after_pull_cmds]].
    unfold GitOps.sparse_setup.
    apply invariant_bind; [apply Hrun; left; reflexivity | intros _].
    apply invariant_bind; [apply Hrun; right; eexists; reflexivity | intros _].
    apply invariant_bind; [apply Hrun; right; eexists; reflexivity | intros _].
    apply invariant_bind; [apply Hfs, fs_try_cmds | intros _].
    apply invariant_bind; [apply Hfs, fs_try_cmds | intros _].
    apply invariant_ret. }
  unfold GitOps._sparse_clone. rewrite try_finally_cleanup_tmp. simpl.
  apply (Hfs _ _ (cleanup_tmp_cmds tmp_dir)), Hbody.
  exists []. rewrite app_nil_r. auto.
Qed.

(** X5.  However a sparse clone ends, with a reply or with an exception, no
    staging directory is left. *)
Theorem staging_directory_is_always_removed
    repo_url plugin_path plugin_id target_dir branch (w : World) :
  FS.isdir (fs (snd (_sparse_clone repo_url plugin_path plugin_id target_dir branch w)))
    (target_dir ++ "_tmp_clone") = false.
Proof.
  unfold GitOps._sparse_clone. rewrite try_finally_cleanup_tmp. simpl.
  match goal with |- context [GitOps.cleanup_tmp _ ?v] => generalize v end.
  intros v. unfold GitOps.cleanup_tmp, os_path_exists, fs_read, shutil_rmtree_ignore,
    fs_update. rewrite bind_run.
  destruct (FS.exists_ (fs v) (target_dir ++ "_tmp_clone")) eqn:Ex; simpl.
  - apply rmtree_ignore_no_dir, resolve_tmp_clone_nonroot.
  - destruct (FS.isdir (fs v) (target_dir ++ "_tmp_clone")) eqn:Ed; [|reflexivity].
    apply isdir_exists in Ed. congruence.
Qed.

(** X6.  A full clone that succeeds has stripped the version-control metadata:
    there is no [.git] directory in the installed plugin. *)
Theorem full_clone_success_strips_git repo_url target_dir branch (w w' : World) :
  _full_clone repo_url target_dir branch w = (Val GitOps.ok_true, w') ->
  FS.isdir (fs w') (Py.join2 target_dir ".git") = false.
Proof.
  intros Hrun. unfold GitOps._full_clone in Hrun.
  apply bind_val in Hrun as (res & w1 & _ & Hrun).
  destruct (negb (returncode res =? 0)); [discriminate|].
  apply bind_val in Hrun as (ex & w2 & Hex & Hrun). injection Hex as <- <-.
  apply bind_val in Hrun as ([] & w3 & Hrm & Hrun).
  assert (Hgone : FS.isdir (fs w3) (Py.join2 target_dir ".git") = false).
  { destruct (FS.exists_ (fs w1) (Py.join2 target_dir ".git")) eqn:Ex.
    - injection Hrm as <-. simpl.
      apply rmtree_ignore_no_dir, resolve_join2_nonroot; [reflexivity | simpl; lia].
    - injection Hrm as <-.
      destruct (FS.isdir (fs w1) (Py.join2 target_dir ".git")) eqn:Ed; [|reflexivity].
      apply isdir_exists in Ed. congruence. }
  apply bind_val in Hrun as (ok & w4 & Hm & Hrun).
  unfold GitOps.has_manifest, os_path_exists, fs_read in Hm. rewrite !bind_run in Hm.
  injection Hm as _ <-.
  destruct (negb ok).
  - apply bind_val in Hrun as ([] & w5 & _ & Hrun). discriminate.
  - injection Hrun as <-. exact Hgone.
Qed.

End clone_plugin_more.

(** With a regular file at [/a0/usr] the installation raises, out of
    [os.makedirs]. *)
Lemma clone_plugin_raises_only_from_makedirs_demo :
  exists e,
    GitOps.clone_plugin (Demo.git_clones true) Demo.str_exn Demo.get_abs_path
      "https://github.com/u/r" "." "demo" "" Demo.blocked = (Exc e, Demo.blocked)
    /\ FS.exists_ (fs Demo.blocked) "/a0/usr/plugins/demo" = false
    /\ os_makedirs "/a0/usr/plugins" Demo.blocked = (Exc e, Demo.blocked).
Proof.
  exists (OSError "FileExistsError").
  assert (H : GitOps.clone_plugin (Demo.git_clones true) Demo.str_exn Demo.get_abs_path
                "https://github.com/u/r" "." "demo" "" Demo.blocked
              = (Exc (OSError "FileExistsError"), Demo.blocked))
    by (vm_compute; reflexivity).
  split; [exact H|].
  exact (clone_plugin_raises_only_from_makedirs (Demo.git_clones true) Demo.str_exn
           Demo.get_abs_path "https://github.com/u/r" "." "demo" "" _ _ _ H).
Defined.

(** A whole-repository installation of [demo] runs the one clone. *)
Lemma full_clone_runs_one_command_demo :
  cmds (snd (GitOps.clone_plugin (Demo.git_clones true) Demo.str_exn Demo.get_abs_path
               "https://github.com/u/r/tree/main" "." "demo" "" Demo.fresh))
  = [["git"; "clone"; "--depth"; "1"; "https://github.com/u/r"; "/a0/usr/plugins/demo"]].
Proof.
  apply (full_clone_runs_one_command (Demo.git_clones true) Demo.str_exn Demo.get_abs_path
           "https://github.com/u/r/tree/main" "." "demo" "" Demo.fresh).
  - vm_compute. reflexivity.
  - vm_compute. reflexivity.
  - right. reflexivity.
Defined.

(** A clone that brings its manifest succeeds and keeps no [.git]. *)
Lemma full_clone_success_strips_git_demo :
  let out := GitOps._full_clone (Demo.git_clones true) "https://github.com/u/r"
               "/a0/usr/plugins/demo" "" Demo.fresh in
  fst out = Val GitOps.ok_true
  /\ FS.isdir (fs (snd out)) "/a0/usr/plugins/demo" = true
  /\ FS.isdir (fs (snd out)) "/a0/usr/plugins/demo/.git" = false.
Proof.
  intros out. split; [vm_compute; reflexivity|]. split; [vm_compute; reflexivity|].
  apply (full_clone_success_strips_git (Demo.git_clones true) "https://github.com/u/r"
           "/a0/usr/plugins/demo" "" Demo.fresh (snd out)).
  vm_compute. reflexivity.
Defined.

(** A clone without a manifest is reported and removed again. *)
Lemma clone_plugin_cleans_up_demo :
  let out := GitOps.clone_plugin (Demo.git_clones false) Demo.str_exn Demo.get_abs_path
               "https://github.com/u/r" "." "demo" "" Demo.fresh in
  fst out = Val (GitOps.ok_false "Cloned repo has no plugin.yaml at root.")
  /\ FS.isdir (fs (snd out)) "/a0/usr/plugins/demo" = false.
Proof.
  intros out.
  pose (run := GitOps._full_clone (Demo.git_clones false) "https://github.com/u/r"
                 "/a0/usr/plugins/demo" "" Demo.fresh).
  destruct (clone_plugin_cleans_up (Demo.git_clones false) Demo.str_exn Demo.get_abs_path
              "https://github.com/u/r" "." "demo" "" Demo.fresh Demo.fresh) as [_ H].
  - vm_compute. reflexivity.
  - vm_compute. discriminate.
  - vm_compute. reflexivity.
  - destruct (H (GitOps.ok_false "Cloned repo has no plugin.yaml at root.") (snd run))
      as [Hrun Hgone]; [vm_compute; reflexivity|].
    unfold out. rewrite Hrun. split; [reflexivity|]. apply Hgone. left. reflexivity.
Defined.

(* ===================================================================== *)
(** ** Further properties: [remove_plugin] *)
(* ===================================================================== *)

Lemma with_fs_same (w : World) : with_fs w (fs w) = w.
Proof. destruct w. reflexivity. Qed.


Section remove_plugin_more.

Variable str_exn : exn -> string.
Variable get_abs_path : list string -> string.
Variable abspath : string -> string.

Local Abbreviation USR_PLUGINS_DIR := (GitOps.USR_PLUGINS_DIR get_abs_path).
Local Abbreviation remove_plugin := (GitOps.remove_plugin str_exn get_abs_path abspath).


(** An identifier that is nowhere under [usr/plugins] is reported as not
    installed, and nothing changes. *)
Lemma remove_plugin_not_installed (plugin_id : string) (w : World) :
  abspath (Py.join2 USR_PLUGINS_DIR plugin_id)
  <> abspath (get_abs_path ["plugins"; plugin_id]) ->
  FS.exists_ (fs w) (Py.join2 USR_PLUGINS_DIR plugin_id) = false ->
  remove_plugin plugin_id w
  = (Val (GitOps.ok_false ("Plugin '" ++ plugin_id ++ "' is not installed in usr/plugins/.")),
     w).
Proof.
  intros Hne Hex. unfold GitOps.remove_plugin.
  destruct (String.eqb_spec (abspath (Py.join2 USR_PLUGINS_DIR plugin_id))
              (abspath (get_abs_path ["plugins"; plugin_id]))) as [|_]; [contradiction|].
  rewrite bind_run. unfold os_path_exists, fs_read. rewrite Hex. reflexivity.
Qed.


End remove_plugin_more.


(* ===================================================================== *)
(** ** Further properties: the install and uninstall handlers *)
(* ===================================================================== *)

Lemma fs_update_reqs (f : FS.t -> FS.t) : Spec.preserves reqs (fs_update f).
Proof. intros w. reflexivity. Qed.

Lemma fs_try_reqs (f : FS.t -> Result unit * FS.t) : Spec.preserves reqs (fs_try f).
Proof. intros w. unfold fs_try. destruct (f (fs w)). reflexivity. Qed.

#[export] Hint Resolve fs_update_reqs fs_try_reqs : frame.

Section handlers.

Variable run_process : list string -> FS.t -> Result CompletedProcess * FS.t.
Variable str_exn : exn -> string.
Variable get_abs_path : list string -> string.
Variable abspath : string -> string.

Local Abbreviation USR_PLUGINS_DIR := (GitOps.USR_PLUGINS_DIR get_abs_path).
Local Abbreviation clone_plugin := (GitOps.clone_plugin run_process str_exn get_abs_path).
Local Abbreviation remove_plugin := (GitOps.remove_plugin str_exn get_abs_path abspath).
Local Abbreviation install := (Install.process run_process str_exn get_abs_path).
Local Abbreviation uninstall := (Uninstall.process str_exn get_abs_path abspath).

Lemma subprocess_run_reqs cmd check :
  Spec.preserves reqs (GitOps.subprocess_run run_process cmd check).
Proof.
  intros w. unfold GitOps.subprocess_run.
  destruct (run_process cmd (fs w)) as [[r|e] f'];
    [destruct (check && negb (returncode r =? 0))|]; reflexivity.
Qed.

Lemma pull_loop_reqs tmp_dir branches pull_result :
  Spec.preserves reqs (GitOps.pull_loop run_process tmp_dir branches pull_result).
Proof.
  revert pull_result. induction branches as [|b rest IH]; intros pull_result; simpl.
  - apply preserves_ret.
  - apply preserves_bind; [apply subprocess_run_reqs|].
    intros r. destruct (returncode r =? 0); [apply preserves_ret | apply IH].
Qed.

(** Git operations make no HTTP request. *)
Lemma clone_plugin_reqs repo_url plugin_path plugin_id branch :
  Spec.preserves reqs (clone_plugin repo_url plugin_path plugin_id branch).
Proof.
  pose proof subprocess_run_reqs. pose proof pull_loop_reqs.
  unfold GitOps.clone_plugin, GitOps._full_clone, GitOps._sparse_clone, GitOps.sparse_setup,
    GitOps.after_pull, GitOps.sparse_install, GitOps.cleanup_tmp, GitOps.has_manifest,
    os_path_exists, os_path_isdir, os_makedirs, shutil_rmtree_ignore, shutil_move, write_file.
  frame.
Qed.

(** X10.  Without a plugin id or without a repository URL, missing or empty, the
    install handler answers 400 and does nothing: no process is run, no
    request is made and the file system is not looked at. *)
Theorem install_rejects_missing_fields http_post (input : Install.Input) (w : World) :
  Install.in_plugin_id input = None \/ Install.in_plugin_id input = Some ""
  \/ Install.in_repo_url input = None \/ Install.in_repo_url input = Some "" ->
  install http_post input w
  = (Val (Install.Response 400 "Missing plugin_id or repo_url"), w).
Proof.
  unfold Install.process. intros [H|[H|[H|H]]]; rewrite H; simpl;
    rewrite ?orb_true_r; reflexivity.
Qed.

(** X11.  The install count is reported exactly for the installations that
    succeeded: the handler posts to the stats endpoint once when it
    answers with the success message, and makes no request otherwise. *)
Theorem install_reports_successes_only http_post (input : Install.Input) (w : World) :
  reqs (snd (install http_post input w))
  = (reqs w ++ match fst (install http_post input w) with
               | Val (Install.ok_message _) => [Install.STATS_REPORT_URL]
               | _ => []
               end)%list.
Proof.
  unfold Install.process.
  destruct (negb _ || negb _); [simpl; rewrite app_nil_r; reflexivity|].
  rewrite bind_run.
  pose proof (clone_plugin_reqs (default "" (Install.in_repo_url input))
                (default "." (Install.in_plugin_path input))
                (default "" (Install.in_plugin_id input))
                (default "" (Install.in_branch input)) w) as Hr.
  destruct (clone_plugin _ _ _ _ w) as [[[|error]|e] w1]; simpl in Hr |- *.
  - unfold Install.report_install, try_except, Install.client_post. rewrite bind_run.
    destruct (http_post _ _) as [[]|e]; simpl; rewrite Hr; reflexivity.
  - rewrite Hr, app_nil_r. reflexivity.
  - rewrite Hr, app_nil_r. reflexivity.
Qed.

(** X12.  The report is fire-and-forget: whether the stats endpoint accepts the
    post or fails has no influence on the reply or on anything else the
    handler does. *)
Theorem install_ignores_report_outcome
    (post1 post2 : string -> string -> Result unit) (input : Install.Input) (w : World) :
  install post1 input w = install post2 input w.
Proof.
  unfold Install.process. destruct (negb _ || negb _); [reflexivity|].
  rewrite !bind_run. destruct (clone_plugin _ _ _ _ w) as [[[|error]|e] w1]; [|reflexivity..].
  simpl. rewrite !bind_run. unfold Install.report_install, try_except, Install.client_post.
  destruct (post1 _ _) as [[]|e1], (post2 _ _) as [[]|e2]; reflexivity.
Qed.


(** X14.  Uninstalling a plugin that is not under [usr/plugins] is answered with
    400 and the message that names it, and changes nothing. *)
Theorem uninstall_not_installed (plugin_id : string) (w : World) :
  plugin_id <> "" ->
  abspath (Py.join2 USR_PLUGINS_DIR plugin_id)
  <> abspath (get_abs_path ["plugins"; plugin_id]) ->
  FS.exists_ (fs w) (Py.join2 USR_PLUGINS_DIR plugin_id) = false ->
  uninstall (Some plugin_id) w
  = (Val (Uninstall.Response 400
            ("Plugin '" ++ plugin_id ++ "' is not installed in usr/plugins/.")), w).
Proof.
  intros Hid Hne Hex. unfold Uninstall.process. simpl.
  destruct plugin_id as [|c rest]; [contradiction|]. simpl.
  rewrite bind_run, (remove_plugin_not_installed _ _ _ _ _ Hne Hex). reflexivity.
Qed.

End handlers.

(** A request without a repository URL. *)
Lemma install_rejects_missing_fields_demo :
  let input := {| Install.in_plugin_id := Some "demo"; Install.in_repo_url := None;
                  Install.in_plugin_path := None; Install.in_branch := None |} in
  Install.process (Demo.git_clones true) Demo.str_exn Demo.get_abs_path
    (λ _ _, Val tt) input Demo.fresh
  = (Val (Install.Response 400 "Missing plugin_id or repo_url"), Demo.fresh).
Proof.
  intros input.
  apply (install_rejects_missing_fields (Demo.git_clones true) Demo.str_exn
           Demo.get_abs_path (λ _ _, Val tt) input Demo.fresh).
  right. right. left. reflexivity.
Defined.

(** At the empty installation [demo] is not installed. *)
Lemma uninstall_not_installed_demo :
  Uninstall.process Demo.str_exn Demo.get_abs_path Demo.abspath (Some "demo") Demo.fresh
  = (Val (Uninstall.Response 400 "Plugin 'demo' is not installed in usr/plugins/."),
     Demo.fresh).
Proof.
  apply (uninstall_not_installed Demo.str_exn Demo.get_abs_path Demo.abspath
           "demo" Demo.fresh).
  - discriminate.
  - vm_compute. discriminate.
  - vm_compute. reflexivity.
Defined.

(* ===================================================================== *)
(** ** Further properties: the registry handler *)
(* ===================================================================== *)

Lemma filter_not_in_nil {A} (g : A -> string) (l : list A) :
  filter (λ x, g x ∉ ([] : list string)) l = l.
Proof.
  induction l as [|x l IH]; [reflexivity|].
  rewrite filter_cons_True by apply not_elem_of_nil. rewrite IH. reflexivity.
Qed.

Section registry_more.

Variable now : Z.
Variable http_get : string -> Result Registry.HttpResponse.
Variable str_exn : exn -> string.
Variable get_enhanced_plugins_list : FS.t -> list Registry.LocalPlugin.
Variable files_exists : FS.t -> string -> bool.
Variable get_abs_path : list string -> string.
Variables USER_DIR PLUGINS_DIR DISABLED_FILE_NAME : string.

Local Abbreviation fetch_stats := (Registry.fetch_stats now http_get).
Local Abbreviation local_row :=
  (Registry.local_row files_exists get_abs_path USER_DIR PLUGINS_DIR DISABLED_FILE_NAME).
Local Abbreviation build_merged :=
  (Registry.build_merged files_exists get_abs_path USER_DIR PLUGINS_DIR DISABLED_FILE_NAME).
Local Abbreviation process :=
  (Registry.process now http_get str_exn get_enhanced_plugins_list files_exists
     get_abs_path USER_DIR PLUGINS_DIR DISABLED_FILE_NAME).
Local Abbreviation download_result := (Spec.download_result http_get).
Local Abbreviation served :=
  (Spec.served get_enhanced_plugins_list files_exists get_abs_path
     USER_DIR PLUGINS_DIR DISABLED_FILE_NAME).

(** The handler changes nothing that [proj] shows when neither the cache
    nor the request log is part of it. *)
Lemma registry_frame {X} (proj : World -> X) :
  (forall w c, proj (with_cache w c) = proj w) ->
  (forall w r, proj (with_reqs w r) = proj w) ->
  Spec.preserves proj process.
Proof.
  intros Hc Hr.
  assert (Hget : forall url, Spec.preserves proj (Registry.client_get http_get url))
    by (intros url w; apply Hr).
  assert (Hcache : Spec.preserves proj Registry.get_cache) by (intros w; reflexivity).
  assert (Hlift : forall A (r : Result A), Spec.preserves proj (Registry.lift r))
    by (intros A r w; reflexivity).
  assert (Hdata : forall d t, Spec.preserves proj (Registry.set_data d t))
    by (intros d t w; apply Hc).
  assert (Hstats : forall s t, Spec.preserves proj (Registry.set_stats s t))
    by (intros s t w; apply Hc).
  unfold Registry.process, Registry.fetch_registry, Registry.fetch_stats, Registry.respond,
    Registry.download, Registry.raise_for_status.
  repeat first [frame_step | apply Hget | apply Hcache | apply Hlift | apply Hdata
                | apply Hstats].
Qed.

(** X15.  The registry handler is read-only outside its cache: it writes no
    file and runs no process, however it ends. *)
Theorem registry_is_read_only (w : World) :
  fs (snd (process w)) = fs w /\ cmds (snd (process w)) = cmds w.
Proof. split; apply registry_frame; reflexivity. Qed.

(** X16.  An outage with nothing cached: one request for the catalogue, the
    error reply, and nothing else; no stats request is made and the cache
    is as it was, so the next call starts over with the same request. *)
Theorem registry_outage_without_cache e (w : World) :
  data (cache w) = JNull ->
  download_result Registry.REGISTRY_URL = Exc e ->
  let reply := Registry.ok_false ("Failed to fetch registry: " ++ str_exn e) in
  let w1 := with_reqs w (reqs w ++ [Registry.REGISTRY_URL])%list in
  process w = (Val reply, w1)
  /\ process w1 = (Val reply, with_reqs w1 (reqs w1 ++ [Registry.REGISTRY_URL])%list).
Proof.
  intros Hd He reply w1.
  assert (Hp : forall v, data (cache v) = JNull ->
             process v = (Val reply, with_reqs v (reqs v ++ [Registry.REGISTRY_URL])%list)).
  { intros v Hv. unfold Registry.process. rewrite bind_run.
    rewrite (fetch_registry_stale now http_get str_exn v) by (rewrite Hv; reflexivity).
    cbv zeta. rewrite He, Hv. reflexivity. }
  split; apply Hp; [exact Hd | exact Hd].
Qed.

(** X17.  The stats block never raises, and it replaces the install counts only
    when they are older than the five minutes, the stats endpoint answers
    200 and the body is an object: then they become its [counts] (none when
    that key is missing), stamped with the current time.  Otherwise counts
    and stamp stay as they were. *)
Theorem stats_refreshed_only_by_good_reply (w : World) :
  let w' := snd (fetch_stats w) in
  let old := (stats (cache w), stats_ts (cache w)) in
  fst (fetch_stats w) = Val tt
  /\ (stats (cache w'), stats_ts (cache w'))
     = (if Registry.stale now (stats_ts (cache w))
        then match http_get Registry.STATS_URL with
             | Val resp =>
                 if Registry.status_code resp =? 200
                 then match Registry.json resp with
                      | Val (JObject _ counts) => (default ∅ counts, now)
                      | _ => old
                      end
                 else old
             | Exc _ => old
             end
        else old).
Proof.
  unfold Registry.fetch_stats. rewrite bind_run. unfold Registry.get_cache.
  change (Py.truthy Registry.STATS_URL) with true. cbv zeta. rewrite andb_true_l.
  destruct (Registry.stale now (stats_ts (cache w))); [|split; reflexivity].
  unfold try_except, Registry.client_get. rewrite bind_run.
  destruct (http_get Registry.STATS_URL) as [resp|e]; [|split; reflexivity].
  destruct (Registry.status_code resp =? 200); [|split; reflexivity].
  rewrite bind_run. unfold Registry.lift.
  destruct (Registry.json resp) as [[|plugins counts|]|e]; split; reflexivity.
Qed.


(** X19.  A row whose identifier is not among the local plugins is a catalogue
    row of a plugin that is not installed: it is [available], not built
    in, without a configuration screen, and has a branch entry. *)
Theorem catalog_only_rows_are_available f stats rps lps rows r :
  build_merged f stats rps lps = Val rows ->
  r ∈ rows ->
  Registry.row_id r ∉ Registry.lp_name <$> lps ->
  Registry.row_status r = available
  /\ Registry.row_is_builtin r = false
  /\ Registry.row_has_config r = false
  /\ Registry.row_install_count r = default 0 (stats !! Registry.row_id r)
  /\ exists b, Registry.row_branch r = Some b.
Proof.
  rewrite build_merged_spec.
  destruct (Spec.catalog_ids rps) as [ids|]; [|discriminate].
  intros [= <-] Hr Hloc. apply elem_of_app in Hr as [Hr|Hr].
  - apply elem_of_catalog_rows in Hr as (rp & pid & -> & _ & _). simpl in Hloc.
    unfold Registry.catalog_row. simpl.
    destruct (Registry.local_by_name lps !! pid) eqn:E.
    + exfalso. apply Hloc, local_by_name_is_Some. eauto.
    + repeat split. eauto.
  - apply elem_of_local_only_rows in Hr as (lp & -> & Hlp & _). exfalso.
    apply Hloc. simpl. apply list_elem_of_fmap. eauto.
Qed.

(** X20.  A registry document that is an object without a ["plugins"] key is an
    empty catalogue: the reply lists every local plugin, in local order,
    as a row of its own. *)
Theorem registry_without_plugins_key counts stats f :
  served (JObject None counts) stats f
  = Val (Registry.ok_plugins (local_row f <$> get_enhanced_plugins_list f)).
Proof.
  unfold Spec.served.
  change (Registry.get_plugins (JObject None counts)) with (Val ([] : list CatalogEntry)).
  cbv iota beta. rewrite build_merged_spec. simpl.
  unfold Spec.local_only_rows. rewrite filter_not_in_nil. reflexivity.
Qed.

(** X21.  A catalogue that is no object is not caught by the handler: when the
    catalogue it ends up with, cached and fresh or just downloaded, has no
    [get], the handler raises the [AttributeError] of
    [registry.get("plugins", [])]. *)
Theorem non_object_catalog_raises d e (w : World) :
  (Registry.is_none (data (cache w)) || Registry.stale now (ts (cache w)) = false
   /\ d = data (cache w))
  \/ (Registry.is_none (data (cache w)) || Registry.stale now (ts (cache w)) = true
      /\ download_result Registry.REGISTRY_URL = Val d) ->
  Registry.get_plugins d = Exc e ->
  fst (process w) = Exc e.
Proof.
  intros Hcase Hd.
  assert (Hserved : forall s f, served d s f = Exc e)
    by (intros s f; unfold Spec.served; rewrite Hd; reflexivity).
  destruct Hcase as [[Hb ->] | [Hb Hdl]].
  - destruct (process_after_fetch now http_get str_exn get_enhanced_plugins_list
                files_exists get_abs_path USER_DIR PLUGINS_DIR DISABLED_FILE_NAME
                w w (fetch_registry_fresh now http_get str_exn w Hb))
      as (w3 & more & Hp & _).
    rewrite Hp. simpl. apply Hserved.
  - pose proof (fetch_registry_stale now http_get str_exn w Hb) as Hf.
    cbv zeta in Hf. rewrite Hdl in Hf.
    destruct (process_after_fetch now http_get str_exn get_enhanced_plugins_list
                files_exists get_abs_path USER_DIR PLUGINS_DIR DISABLED_FILE_NAME
                w _ Hf) as (w3 & more & Hp & _).
    rewrite Hp. simpl. apply Hserved.
Qed.

End registry_more.

(** A first call while the network is down. *)
Lemma registry_outage_without_cache_demo :
  fst (Registry.process 1000 Demo.offline Demo.str_exn (λ _, []) Demo.files_exists
         Demo.get_abs_path Demo.USER_DIR Demo.PLUGINS_DIR Demo.DISABLED_FILE_NAME Demo.fresh)
  = Val (Registry.ok_false "Failed to fetch registry: All connection attempts failed")
  /\ cache (snd (Registry.process 1000 Demo.offline Demo.str_exn (λ _, [])
                   Demo.files_exists Demo.get_abs_path Demo.USER_DIR Demo.PLUGINS_DIR
                   Demo.DISABLED_FILE_NAME Demo.fresh))
     = initial_cache.
Proof.
  destruct (registry_outage_without_cache 1000 Demo.offline Demo.str_exn (λ _, [])
              Demo.files_exists Demo.get_abs_path Demo.USER_DIR Demo.PLUGINS_DIR
              Demo.DISABLED_FILE_NAME (EnvError "All connection attempts failed") Demo.fresh)
    as [Hp _]; [reflexivity | reflexivity |].
  rewrite Hp. split; reflexivity.
Defined.

(** The catalogue of time 100 is served at time 200 with no request for
    it. *)
Lemma fresh_catalog_is_served_demo :
  let w := Demo.world ∅ Demo.cached in
  exists w3,
    fst (Registry.process 200 Demo.offline Demo.str_exn (λ _, []) Demo.files_exists
           Demo.get_abs_path Demo.USER_DIR Demo.PLUGINS_DIR Demo.DISABLED_FILE_NAME w)
    = Spec.served (λ _, []) Demo.files_exists Demo.get_abs_path Demo.USER_DIR
        Demo.PLUGINS_DIR Demo.DISABLED_FILE_NAME (data Demo.cached) (stats (cache w3)) ∅
    /\ Registry.REGISTRY_URL ∉ reqs w3.
Proof.
  intros w.
  destruct (fresh_catalog_is_served 200 Demo.offline Demo.str_exn (λ _, [])
              Demo.files_exists Demo.get_abs_path Demo.USER_DIR Demo.PLUGINS_DIR
              Demo.DISABLED_FILE_NAME w) as (w3 & more & Hp & _ & _ & Hr & Hno).
  - discriminate.
  - vm_compute. discriminate.
  - exists w3. rewrite Hp, Hr. split; [reflexivity | exact Hno].
Defined.

(** A catalogue plugin that is not installed, next to a sideloaded one. *)
Lemma catalog_only_rows_are_available_demo :
  let r := Registry.catalog_row Demo.files_exists Demo.get_abs_path Demo.USER_DIR
             Demo.PLUGINS_DIR Demo.DISABLED_FILE_NAME ∅ ∅
             (Registry.local_by_name [Demo.plugin "notes"]) (Demo.entry "memory") "memory" in
  Demo.build_merged ∅ ∅ [Demo.entry "memory"] [Demo.plugin "notes"]
  = Val [r; Registry.local_row Demo.files_exists Demo.get_abs_path Demo.USER_DIR
              Demo.PLUGINS_DIR Demo.DISABLED_FILE_NAME ∅ (Demo.plugin "notes")]
  /\ Registry.row_status r = available.
Proof.
  intros r.
  assert (Hb : Demo.build_merged ∅ ∅ [Demo.entry "memory"] [Demo.plugin "notes"]
               = Val [r; Registry.local_row Demo.files_exists Demo.get_abs_path Demo.USER_DIR
                           Demo.PLUGINS_DIR Demo.DISABLED_FILE_NAME ∅ (Demo.plugin "notes")])
    by (vm_compute; reflexivity).
  split; [exact Hb|].
  apply (catalog_only_rows_are_available Demo.files_exists Demo.get_abs_path Demo.USER_DIR
           Demo.PLUGINS_DIR Demo.DISABLED_FILE_NAME ∅ ∅ [Demo.entry "memory"]
           [Demo.plugin "notes"] _ r Hb).
  - apply list_elem_of_here.
  - simpl. intros H. apply list_elem_of_singleton in H. discriminate.
Defined.

(** A registry that serves a JSON list: the download goes through and the
    handler raises. *)
Lemma non_object_catalog_raises_demo :
  fst (Registry.process 1000
         (λ _, Val {| Registry.status_code := 200; Registry.json := Val JOther |})
         Demo.str_exn (λ _, []) Demo.files_exists Demo.get_abs_path Demo.USER_DIR
         Demo.PLUGINS_DIR Demo.DISABLED_FILE_NAME Demo.fresh)
  = Exc (AttributeError "object has no attribute 'get'").
Proof.
  apply (non_object_catalog_raises 1000
           (λ _, Val {| Registry.status_code := 200; Registry.json := Val JOther |})
           Demo.str_exn (λ _, []) Demo.files_exists Demo.get_abs_path Demo.USER_DIR
           Demo.PLUGINS_DIR Demo.DISABLED_FILE_NAME JOther).
  - right. split; reflexivity.
  - reflexivity.
Defined.

(* ===================================================================== *)
(** ** Further properties: the toggle handler *)
(* ===================================================================== *)







Section toggle_more.

Variable get_abs_path : list string -> string.
Variable find_plugin_dir : FS.t -> string -> option string.
Variables USER_DIR PLUGINS_DIR DISABLED_FILE_NAME ENABLED_FILE_NAME : string.

Local Abbreviation toggle := (Toggle.process get_abs_path find_plugin_dir
  USER_DIR PLUGINS_DIR DISABLED_FILE_NAME ENABLED_FILE_NAME).
Local Abbreviation usr_plugin_dir :=
  (Toggle.usr_plugin_dir get_abs_path USER_DIR PLUGINS_DIR).
Local Abbreviation enabled_marker :=
  (Toggle.enabled_path get_abs_path USER_DIR PLUGINS_DIR ENABLED_FILE_NAME).
Local Abbreviation disabled_marker :=
  (Toggle.disabled_path get_abs_path USER_DIR PLUGINS_DIR DISABLED_FILE_NAME).

(** X23.  A toggle that is answered with a [Response] is one of the two
    rejections, 400 for an empty identifier and 404 for a plugin the
    framework does not find, and it has changed nothing. *)
Theorem toggle_rejected_changes_nothing plugin_id enabled status response (w w' : World) :
  toggle plugin_id enabled w = (Val (Toggle.Response status response), w') ->
  w' = w
  /\ ((status = 400 /\ plugin_id = "")
      \/ (status = 404 /\ plugin_id <> ""
          /\ from_option Py.truthy false (find_plugin_dir (fs w) plugin_id) = false)).
Proof.
  unfold Toggle.process. destruct plugin_id as [|c rest]; simpl.
  { intros [= <- _ <-]. auto. }
  rewrite bind_run. unfold fs_read at 1.
  destruct (from_option Py.truthy false (find_plugin_dir (fs w) (String c rest))); simpl.
  - rewrite bind_run. destruct (os_makedirs _ w) as [[[]|e] w1]; [|discriminate].
    rewrite bind_run.
    match goal with |- context [match ?m w1 with _ => _ end] =>
      destruct (m w1) as [[[]|e] w2] end; discriminate.
  - intros [= <- _ <-]. split; [reflexivity|]. right. repeat split. discriminate.
Qed.


End toggle_more.

(** [os.makedirs] keeps the directories there are, makes every directory
    on the way to its path, and does nothing when they all exist. *)
Lemma mkdirs_from_keeps_dir (done todo : list string) (f f' : FS.t) (k : list string) :
  FS.mkdirs_from done todo f = Some f' -> f !! k = Some FS.Dir -> f' !! k = Some FS.Dir.
Proof.
  revert done f. induction todo as [|c rest IH]; intros done f; simpl.
  - intros [= ->]. auto.
  - destruct (f !! (done ++ [c])%list) as [[t|]|] eqn:E; [discriminate|eauto|].
    intros Hm Hk. apply (IH _ _ Hm). rewrite lookup_insert_ne; [exact Hk|].
    intros <-. congruence.
Qed.

Lemma mkdirs_from_way (done todo : list string) (f f' : FS.t) (k : list string) :
  FS.mkdirs_from done todo f = Some f' ->
  k `prefix_of` (done ++ todo)%list -> (length done < length k)%nat ->
  f' !! k = Some FS.Dir.
Proof.
  revert done f. induction todo as [|c rest IH]; intros done f; simpl.
  - intros _ Hp Hl. apply prefix_length in Hp. rewrite app_nil_r in Hp. lia.
  - intros Hm Hp Hl.
    assert (Hstep : forall g, g !! (done ++ [c])%list = Some FS.Dir ->
              FS.mkdirs_from (done ++ [c])%list rest g = Some f' -> f' !! k = Some FS.Dir).
    { intros g Hg Hm'.
      destruct (decide (length (done ++ [c]) < length k)%nat) as [Hlt|Hge].
      - apply (IH _ _ Hm'); [rewrite <- app_assoc; exact Hp | exact Hlt].
      - assert (k = (done ++ [c])%list) as ->; [|exact (mkdirs_from_keeps_dir _ _ _ _ _ Hm' Hg)].
        destruct Hp as [x Hx]. rewrite length_app in Hge. simpl in Hge.
        change (done ++ c :: rest)%list with (done ++ [c] ++ rest)%list in Hx.
        rewrite app_assoc in Hx. symmetry in Hx.
        apply app_inj_1 in Hx as [Hx _]; [exact Hx|]. rewrite length_app. simpl. lia. }
    destruct (f !! (done ++ [c])%list) as [[t|]|] eqn:E; [discriminate|eauto|].
    apply (Hstep _ (lookup_insert_eq _ _ _) Hm).
Qed.

Lemma mkdirs_from_noop (done todo : list string) (f : FS.t) :
  (forall k, k `prefix_of` (done ++ todo)%list -> (length done < length k)%nat ->
             f !! k = Some FS.Dir) ->
  FS.mkdirs_from done todo f = Some f.
Proof.
  revert done. induction todo as [|c rest IH]; intros done H; simpl; [reflexivity|].
  rewrite (H (done ++ [c])%list).
  - apply IH. intros k Hp Hl. apply H; [rewrite <- app_assoc in Hp; exact Hp|].
    rewrite length_app in Hl. simpl in Hl. lia.
  - exists rest. rewrite <- app_assoc. reflexivity.
  - rewrite length_app. simpl. lia.
Qed.

Lemma remove_ok_file f p f' :
  FS.remove f p = (Val tt, f') -> exists t, f !! FS.resolve p = Some (FS.File t).
Proof.
  unfold FS.remove. destruct (FS.resolve p) as [|c k]; [discriminate|].
  destruct (f !! (c :: k)) as [[t|]|]; [eauto | discriminate..].
Qed.

Lemma write_file_ok_pre f p text f' :
  FS.write_file f p text = (Val tt, f') ->
  FS.node f (removelast (FS.resolve p)) = Some FS.Dir
  /\ f !! FS.resolve p <> Some FS.Dir.
Proof.
  unfold FS.write_file. destruct (FS.resolve p) as [|c k]; [discriminate|].
  destruct (FS.node f (removelast (c :: k))) as [[t|]|]; [discriminate| |discriminate].
  unfold FS.node at 1. destruct (f !! (c :: k)) as [[t|]|]; [|discriminate|];
    intros _; split; auto; discriminate.
Qed.

Lemma removelast_ne {A} (l : list A) : l <> [] -> removelast l <> l.
Proof.
  intros Hl Heq. destruct l as [|a l]; [contradiction|].
  pose proof (app_removelast_last a Hl) as H. rewrite Heq in H.
  apply (f_equal length) in H. rewrite length_app in H. simpl in H. lia.
Qed.

(** The file system after [os.makedirs(dir)], the removal of marker [pa]
    where it exists and the writing of marker [pb]: the same three steps
    leave it as it is. *)
Lemma swap_again_fs (dir pa pb : string) (f0 f1 f2 f3 : FS.t) :
  FS.resolve pa <> FS.resolve pb ->
  FS.mkdirs_from [] (FS.resolve dir) f0 = Some f1 ->
  (FS.exists_ f1 pa = false /\ f2 = f1)
  \/ (FS.exists_ f1 pa = true /\ FS.remove f1 pa = (Val tt, f2)) ->
  FS.write_file f2 pb "" = (Val tt, f3) ->
  FS.makedirs f3 dir = (Val tt, f3)
  /\ FS.exists_ f3 pa = false
  /\ FS.write_file f3 pb "" = (Val tt, f3).
Proof.
  intros Hne Hmk Hrm Hwr.
  assert (Hdirs : forall k, f1 !! k = Some FS.Dir -> f2 !! k = Some FS.Dir).
  { destruct Hrm as [[_ ->] | [_ Hr]]; [auto|]. intros k Hk.
    destruct (remove_ok_file _ _ _ Hr) as [t Ht]. apply remove_ok in Hr as [_ ->].
    rewrite lookup_delete_ne; [exact Hk | congruence]. }
  assert (Hgone : FS.exists_ f2 pa = false).
  { destruct Hrm as [[Hex ->] | [_ Hr]]; [exact Hex|].
    apply remove_ok in Hr as [Hk ->]. apply exists_delete_same. exact Hk. }
  destruct (write_file_ok_pre _ _ _ _ Hwr) as [Hparent Hnodir].
  apply write_file_ok in Hwr as [Hb ->].
  split; [|split].
  - unfold FS.makedirs. rewrite mkdirs_from_noop; [reflexivity|].
    intros k Hp Hl. rewrite lookup_insert_ne.
    + apply Hdirs. exact (mkdirs_from_way [] _ _ _ _ Hmk Hp Hl).
    + intros <-. apply Hnodir, Hdirs. exact (mkdirs_from_way [] _ _ _ _ Hmk Hp Hl).
  - rewrite exists_insert_other by exact Hne. exact Hgone.
  - unfold FS.write_file. destruct (FS.resolve pb) as [|c q] eqn:Eb; [contradiction|].
    assert (Hp' : FS.node (<[c :: q := FS.File ""]> f2) (removelast (c :: q)) = Some FS.Dir).
    { revert Hparent. unfold FS.node. destruct (removelast (c :: q)) as [|c' q'] eqn:Er; [auto|].
      rewrite lookup_insert_ne; [auto|]. rewrite <- Er. apply not_eq_sym, removelast_ne.
      discriminate. }
    rewrite Hp'. unfold FS.node. rewrite lookup_insert_eq, insert_insert_eq. reflexivity.
Qed.

Section toggle_again.

Variable get_abs_path : list string -> string.
Variable find_plugin_dir : FS.t -> string -> option string.
Variables USER_DIR PLUGINS_DIR DISABLED_FILE_NAME ENABLED_FILE_NAME : string.

Local Abbreviation toggle := (Toggle.process get_abs_path find_plugin_dir
  USER_DIR PLUGINS_DIR DISABLED_FILE_NAME ENABLED_FILE_NAME).
Local Abbreviation enabled_marker :=
  (Toggle.enabled_path get_abs_path USER_DIR PLUGINS_DIR ENABLED_FILE_NAME).
Local Abbreviation disabled_marker :=
  (Toggle.disabled_path get_abs_path USER_DIR PLUGINS_DIR DISABLED_FILE_NAME).

Lemma swap_again (dir pa pb : string) (w wa wb : World) :
  FS.resolve pa <> FS.resolve pb ->
  os_makedirs dir w = (Val tt, wa) ->
  (Toggle.remove_if_exists pa;; write_file pb "") wa = (Val tt, wb) ->
  os_makedirs dir wb = (Val tt, wb)
  /\ (Toggle.remove_if_exists pa;; write_file pb "") wb = (Val tt, wb).
Proof.
  intros Hne Hmk Hs.
  unfold os_makedirs, fs_try, FS.makedirs in Hmk.
  destruct (FS.mkdirs_from [] (FS.resolve dir) (fs w)) as [f1|] eqn:E1; [|discriminate].
  injection Hmk as <-.
  rewrite bind_run in Hs. unfold Toggle.remove_if_exists, os_path_exists, fs_read in Hs.
  rewrite bind_run in Hs. simpl in Hs.
  assert (Hsteps : exists f2 f3,
             ((FS.exists_ f1 pa = false /\ f2 = f1)
              \/ (FS.exists_ f1 pa = true /\ FS.remove f1 pa = (Val tt, f2)))
             /\ FS.write_file f2 pb "" = (Val tt, f3)
             /\ fs wb = f3).
  { destruct (FS.exists_ f1 pa) eqn:Ex.
    - unfold os_remove, fs_try in Hs. simpl in Hs.
      destruct (FS.remove f1 pa) as [[[]|e] f2] eqn:Hr; [|discriminate].
      unfold write_file, fs_try in Hs. simpl in Hs.
      destruct (FS.write_file f2 pb "") as [[[]|e] f3] eqn:Hw; [|discriminate].
      injection Hs as <-. exists f2, f3. auto.
    - unfold write_file, fs_try in Hs. simpl in Hs.
      destruct (FS.write_file f1 pb "") as [[[]|e] f3] eqn:Hw; [|discriminate].
      injection Hs as <-. exists f1, f3. auto. }
  destruct Hsteps as (f2 & f3 & Hrm & Hwr & Hfs).
  destruct (swap_again_fs dir pa pb (fs w) f1 f2 f3 Hne E1 Hrm Hwr) as (Hm' & Hex' & Hw').
  assert (Hmk' : os_makedirs dir wb = (Val tt, wb)).
  { unfold os_makedirs, fs_try. rewrite Hfs, Hm', <- Hfs. rewrite with_fs_same. reflexivity. }
  split; [exact Hmk'|].
  rewrite bind_run. unfold Toggle.remove_if_exists, os_path_exists, fs_read.
  rewrite bind_run, Hfs, Hex'.
  change (write_file pb "" wb = (Val tt, wb)). unfold write_file, fs_try.
  rewrite Hfs, Hw', <- Hfs, with_fs_same. reflexivity.
Qed.

(** X25.  Toggling a plugin to the state it was just toggled to changes
    nothing: the second call gives the same answer and leaves every file
    as the first call left it. *)
Theorem toggle_is_idempotent plugin_id enabled status (w w' : World) :
  FS.resolve (enabled_marker plugin_id) <> FS.resolve (disabled_marker plugin_id) ->
  toggle plugin_id enabled w = (Val (Toggle.ok_status status), w') ->
  from_option Py.truthy false (find_plugin_dir (fs w') plugin_id) = true ->
  toggle plugin_id enabled w' = (Val (Toggle.ok_status status), w').
Proof.
  intros Hne Ht Hfound. unfold Toggle.process in *.
  destruct (negb (Py.truthy plugin_id)); [discriminate|].
  rewrite bind_run in Ht |- *. unfold fs_read at 1 in Ht. unfold fs_read at 1.
  rewrite Hfound.
  destruct (negb (from_option Py.truthy false (find_plugin_dir (fs w) plugin_id)));
    [discriminate|].
  change (negb true) with false. cbv iota. rewrite bind_run in Ht.
  destruct (os_makedirs _ w) as [[[]|e] wa] eqn:Hmk; [|discriminate].
  rewrite bind_run in Ht.
  fold (enabled_marker plugin_id) (disabled_marker plugin_id) in Ht |- *.
  destruct enabled.
  - destruct ((Toggle.remove_if_exists (disabled_marker plugin_id);;
               write_file (enabled_marker plugin_id) "") wa) as [[[]|e] wb] eqn:Hs;
      [|discriminate].
    injection Ht as <- <-.
    destruct (swap_again _ _ _ _ _ _ (not_eq_sym Hne) Hmk Hs) as [Hmk' Hs'].
    rewrite bind_run, Hmk', bind_run, Hs'. reflexivity.
  - destruct ((Toggle.remove_if_exists (enabled_marker plugin_id);;
               write_file (disabled_marker plugin_id) "") wa) as [[[]|e] wb] eqn:Hs;
      [|discriminate].
    injection Ht as <- <-.
    destruct (swap_again _ _ _ _ _ _ Hne Hmk Hs) as [Hmk' Hs'].
    rewrite bind_run, Hmk', bind_run, Hs'. reflexivity.
Qed.

End toggle_again.

(** A toggle of a plugin the framework does not know. *)
Lemma toggle_rejected_changes_nothing_demo :
  let toggle := Toggle.process Demo.get_abs_path (λ _ _, None) Demo.USER_DIR
                  Demo.PLUGINS_DIR Demo.DISABLED_FILE_NAME Demo.ENABLED_FILE_NAME in
  toggle "ghost" true Demo.fresh
  = (Val (Toggle.Response 404 "Plugin 'ghost' not found."), Demo.fresh).
Proof.
  intros toggle.
  assert (Ht : toggle "ghost" true Demo.fresh
               = (Val (Toggle.Response 404 "Plugin 'ghost' not found."),
                  snd (toggle "ghost" true Demo.fresh)))
    by (vm_compute; reflexivity).
  destruct (toggle_rejected_changes_nothing Demo.get_abs_path (λ _ _, None) Demo.USER_DIR
              Demo.PLUGINS_DIR Demo.DISABLED_FILE_NAME Demo.ENABLED_FILE_NAME
              "ghost" true 404 _ Demo.fresh _ Ht) as [Hsame _].
  rewrite Ht, Hsame. reflexivity.
Defined.


(** Enabling [memory] twice. *)
Lemma toggle_is_idempotent_demo :
  let toggle := Toggle.process Demo.get_abs_path (λ _ pid, Some ("/a0/plugins/" ++ pid))
                  Demo.USER_DIR Demo.PLUGINS_DIR Demo.DISABLED_FILE_NAME
                  Demo.ENABLED_FILE_NAME in
  let w := Demo.world (Demo.touch "/a0/usr/plugins/memory/.toggle-0" ∅) initial_cache in
  let w' := snd (toggle "memory" true w) in
  fs w' <> fs w
  /\ toggle "memory" true w' = (Val (Toggle.ok_status active), w').
Proof.
  intros toggle w w'. split.
  - intros H. apply (f_equal (λ f, FS.exists_ f "/a0/usr/plugins/memory/.toggle-0")) in H.
    vm_compute in H. discriminate.
  - apply (toggle_is_idempotent Demo.get_abs_path (λ _ pid, Some ("/a0/plugins/" ++ pid))
             Demo.USER_DIR Demo.PLUGINS_DIR Demo.DISABLED_FILE_NAME Demo.ENABLED_FILE_NAME
             "memory" true active w w').
    + vm_compute. discriminate.
    + vm_compute. reflexivity.
    + reflexivity.
Defined.
